(** * The Jia Mu dashboard: graph reconstruction and derived views

    A shallow embedding of the data-bearing code of the three Streamlit
    variants of the repository

    - [streamlit_page.py]            (module [Page]),
    - [streamlit_page_new.py]        (module [PageNew]),
    - [Project/stream_page_new1.py]  (module [PageNew1]),

    together with the parts of networkx and pandas they call.

    Conventions.
    - Python [str] is [string]; the literals are the UTF-8 bytes of the
      source, so [String.eqb] is Python's [==] on them.
    - A Python [dict] is an association list in insertion order.
    - A number of the JSON document is a Python [int] or a [float]
      ([number]); floats are binary64 values, Rocq's primitive floats, and
      an int64 column of pandas wraps around.  Edge weights and the totals
      of the type analysis are such numbers.  The scores and weights of the
      metrics table are only compared and shown; they are modelled by the
      rational they denote ([Q]).
    - Library routines whose code decides a result and is not part of the
      repository are parameters: [cos] and [sin] of the C library
      ([Libm]), the sorting routine behind [sort_values] ([SortKind]),
      the loop with which pandas adds up a float64 column ([FloatSum]) and
      [list.sort] of the interpreter ([ListSort]).
    - A method that may raise is a computation in the monad [M], which
      threads the object ([self]) and the rendered page, and keeps both when
      an exception propagates. *)

From Stdlib Require Import List String Ascii Bool Arith ZArith QArith Qpower.
From Stdlib Require Import Lia.
From Stdlib Require Import Permutation Sorted.
From Stdlib Require Import Floats.
Import ListNotations.

Local Open Scope string_scope.
Local Open Scope list_scope.
Local Open Scope nat_scope.

(* ================================================================== *)
(** * Part I: the model *)
(* ================================================================== *)

(** ** Python dictionaries *)

Definition dict (V : Type) : Type := list (string * V).

Fixpoint dict_get {V} (k : string) (d : dict V) : option V :=
  match d with
  | [] => None
  | (k', v) :: d' => if String.eqb k k' then Some v else dict_get k d'
  end.

(** [d[k] = v]: an existing key keeps its place, a new one goes last. *)
Fixpoint dict_set {V} (k : string) (v : V) (d : dict V) : dict V :=
  match d with
  | [] => [(k, v)]
  | (k', v') :: d' =>
      if String.eqb k k' then (k, v) :: d' else (k', v') :: dict_set k v d'
  end.

Definition dict_keys {V} (d : dict V) : list string := map fst d.

(** [k in d] *)
Definition dict_mem {V} (k : string) (d : dict V) : bool :=
  existsb (String.eqb k) (dict_keys d).

(** [x in xs] on a list of strings *)
Definition str_in (x : string) (xs : list string) : bool :=
  existsb (String.eqb x) xs.

(** ** Numbers

    [json.load] reads a number written without fraction and exponent as a
    Python [int], which has no bound, and every other number as a [float],
    a binary64 value. *)

Inductive number : Type :=
| py_int (n : Z)
| py_float (x : float).

(** [float(n)]: the binary64 value nearest to [n], ties to even. *)
Definition float_of_Z (n : Z) : float :=
  SF2Prim (binary_normalize prec emax n 0 false).

Definition float_of_nat (n : nat) : float := float_of_Z (Z.of_nat n).

(** The point of the extended line that a number denotes; NaN denotes
    none. *)
Inductive ext : Type :=
| neg_inf
| fin (q : Q)
| pos_inf.

Definition float_value (x : float) : option ext :=
  match Prim2SF x with
  | S754_nan => None
  | S754_infinity s => Some (if s then neg_inf else pos_inf)
  | S754_zero _ => Some (fin 0)
  | S754_finite s m e =>
      Some (fin (inject_Z (if s then Z.neg m else Z.pos m) * 2 ^ e)%Q)
  end.

Definition value_of (x : number) : option ext :=
  match x with
  | py_int n => Some (fin (inject_Z n))
  | py_float x => float_value x
  end.

Definition ext_ltb (a b : ext) : bool :=
  match a, b with
  | _, neg_inf => false
  | neg_inf, _ => true
  | pos_inf, _ => false
  | fin _, pos_inf => true
  | fin p, fin q => negb (Qle_bool q p)
  end.

(** [x < y] in Python: numbers of either kind are compared by the value
    they denote, and a comparison with NaN is false. *)
Definition num_ltb (x y : number) : bool :=
  match value_of x, value_of y with
  | Some a, Some b => ext_ltb a b
  | _, _ => false
  end.

(** An int64 cell keeps the low 64 bits of a sum, in two's complement. *)
Definition wrap64 (n : Z) : Z := ((n + 2 ^ 63) mod 2 ^ 64 - 2 ^ 63)%Z.

(** ** networkx: undirected graphs

    [nx.Graph] keeps one adjacency dictionary per node, [G._adj]; every
    query used by the dashboard reads it.  An edge of the node-link encoding
    carries its [weight]. *)

Definition Graph : Type := dict (dict number).

Record Link : Type :=
  mkLink { source : string; target : string; weight : number }.

(** The node-link encoding of an undirected simple graph (the fields
    [directed] and [multigraph] are false, as for the snapshot). *)
Record NodeLink : Type := mkNodeLink { nodes : list string; links : list Link }.

Definition empty_graph : Graph := [].

(** [G.add_node(n)] *)
Definition add_node (n : string) (g : Graph) : Graph :=
  if dict_mem n g then g else g ++ [(n, [])].

(** [G._adj[u][v] = w] for a node [u] of the graph *)
Fixpoint adj_set (u v : string) (w : number) (g : Graph) : Graph :=
  match g with
  | [] => []
  | (n, nbrs) :: g' =>
      if String.eqb u n then (n, dict_set v w nbrs) :: g'
      else (n, nbrs) :: adj_set u v w g'
  end.

(** [G.add_edge(u, v, weight=w)]: both end points become nodes, then the
    edge is recorded under [u] and under [v]. *)
Definition add_edge (u v : string) (w : number) (g : Graph) : Graph :=
  adj_set v u w (adj_set u v w (add_node v (add_node u g))).

(** [nx.node_link_graph(data)]: nodes first, then links, in file order. *)
Definition node_link_graph (data : NodeLink) : Graph :=
  fold_left (fun g l => add_edge (source l) (target l) (weight l) g)
    (links data)
    (fold_left (fun g n => add_node n g) (nodes data) empty_graph).

Definition number_of_nodes (g : Graph) : nat := List.length g.

(** Degree of one adjacency entry: a self-loop counts twice. *)
Definition entry_degree (e : string * dict number) : nat :=
  List.length (snd e) + (if dict_mem (fst e) (snd e) then 1 else 0).

(** [sum(dict(G.degree()).values())] *)
Definition degree_sum (g : Graph) : nat :=
  fold_right (fun e acc => entry_degree e + acc) 0 g.

(** [G.number_of_edges()], that is [G.size()]: half the degree sum. *)
Definition number_of_edges (g : Graph) : nat := degree_sum g / 2.

(** [nx.density(G)] for an undirected graph:
    [if m == 0 or n <= 1: return 0], else [m / (n * (n - 1))] doubled. *)
Definition nx_density (g : Graph) : Q :=
  let n := number_of_nodes g in
  let m := number_of_edges g in
  if (m =? 0) || (n <=? 1) then 0%Q
  else (inject_Z (Z.of_nat m) / inject_Z (Z.of_nat (n * (n - 1))) * 2)%Q.

(** ** Exceptions *)

Inductive exn : Type :=
| KeyError (key : string)
| TypeError
| AttributeError (attribute : string)
| NetworkXError (node : string)
| ValueError
| ZeroDivisionError
| FileNotFoundError
| JSONDecodeError.

(** [G.neighbors(n)]: the keys of [G._adj[n]]; networkx raises
    [NetworkXError] for a node that is not in the graph. *)
Definition neighbors (g : Graph) (n : string) : exn + list string :=
  match dict_get n g with
  | Some nbrs => inr (dict_keys nbrs)
  | None => inl (NetworkXError n)
  end.

(** [G[u][v]['weight']] *)
Definition edge_weight (g : Graph) (u v : string) : exn + number :=
  match dict_get u g with
  | None => inl (KeyError u)
  | Some nbrs =>
      match dict_get v nbrs with
      | None => inl (KeyError v)
      | Some w => inr w
      end
  end.

(** [bool(G)] is [len(G) > 0]. *)
Definition graph_truthy (g : Graph) : bool := negb (number_of_nodes g =? 0).

(** The focal character. *)
Definition jiamu : string := "賈母".

(** ** Character classifier ([get_character_type], all variants alike) *)

(** [self.character_types], a dict literal: iteration follows the order in
    which the keys are written. *)
Definition character_types : dict (list string) :=
  [ ("family_male",
      ["賈政"; "賈赦"; "賈璉"; "賈寶玉"; "賈蓉"; "賈薔"; "賈蘭"; "賈芸";
       "賈芹"; "賈環"; "賈瑞"]);
    ("family_female",
      ["王夫人"; "邢夫人"; "王熙鳳"; "賈探春"; "賈迎春"; "賈惜春"; "賈元春"]);
    ("servants",
      ["花襲人"; "鴛鴦"; "晴雯"; "麝月"; "秋紋"; "碧痕"; "平兒"; "紫鵑"]);
    ("guests",
      ["林黛玉"; "薛寶釵"; "史湘雲"; "妙玉"; "李紈"; "秦可卿"; "香菱"]) ].

(** The loop [for type_name, characters in types.items(): if character in
    characters: return type_name], followed by [return 'other']. *)
Fixpoint get_character_type_in (types : dict (list string))
    (character : string) : string :=
  match types with
  | [] => "other"
  | (type_name, characters) :: rest =>
      if str_in character characters then type_name
      else get_character_type_in rest character
  end.

Definition get_character_type (character : string) : string :=
  get_character_type_in character_types character.

(** [self.character_types[type_name]] (empty for an unknown key) *)
Definition members (type_name : string) : list string :=
  match dict_get type_name character_types with
  | Some characters => characters
  | None => []
  end.

(** ** Radial layout ([create_central_network_plot], the block that fills
    [pos]) *)

(** [cos] and [sin] of [math] are those of the C library, whose code is not
    part of the repository.  They are parameters; the two values kept are
    the exact ones that the C standard fixes at zero (Annex F: [cos(0)] is
    [1] and [sin(0)] is [0]). *)
Class Libm : Type := {
  cos : float -> float;
  sin : float -> float;
  cos_0 : cos 0%float = 1%float;
  sin_0 : sin 0%float = 0%float }.

(** A position is a pair of numbers: [(0, 0)] is a pair of ints, the
    positions on the circle are pairs of floats. *)
Definition Pos : Type := dict (number * number).

(** [radius = 2.0] *)
Definition radius : float := 2%float.

(** [math.pi] *)
Definition pi : float := 0x1.921fb54442d18p+1%float.

(** [enumerate(xs)] *)
Definition enumerate {A} (xs : list A) : list (nat * A) :=
  combine (seq 0 (List.length xs)) xs.

(** [angle_step = 2 * pi / len(jiamu_neighbors)], reached for a list that
    is not empty. *)
Definition angle_step (count : nat) : float :=
  (2 * pi / float_of_nat count)%float.

(** One turn of the loop body:
    [angle = i * angle_step; pos[node] = (radius*cos(angle), radius*sin(angle))]. *)
Definition place `{Libm} (step : float) (pos : Pos) (e : nat * string) : Pos :=
  let angle := (float_of_nat (fst e) * step)%float in
  dict_set (snd e)
    (py_float (radius * cos angle)%float, py_float (radius * sin angle)%float)
    pos.

(** [pos = {}; pos['賈母'] = (0, 0)] and then the loop over
    [enumerate(jiamu_neighbors)]. *)
Definition layout `{Libm} (jiamu_neighbors : list string) : Pos :=
  fold_left (place (angle_step (List.length jiamu_neighbors)))
    (enumerate jiamu_neighbors)
    (dict_set jiamu (py_int 0, py_int 0) []).

(** ** pandas: the metrics table *)

(** One row of [df_metrics], with the columns the views subscript.  A
    frame that lacks one of these columns, or holds a missing or
    non-numeric cell in it, is outside the model. *)
Record Row : Type := mkRow {
  character : string;
  weight_to_jiamu : Q;
  degree : Z;
  degree_centrality : Q;
  betweenness_centrality : Q;
  closeness_centrality : Q;
  eigenvector_centrality : Q }.

Definition DataFrame : Type := list Row.

Definition Qltb (x y : Q) : bool := negb (Qle_bool y x).

(** [df[df['weight_to_jiamu'] > 0].copy()] *)
Definition jiamu_related (df : DataFrame) : DataFrame :=
  filter (fun r => Qltb 0 (weight_to_jiamu r)) df.

(** [df.head(k)] *)
Definition head (k : nat) (df : DataFrame) : DataFrame := firstn k df.

(** Row order asked of [sort_values('weight_to_jiamu', ascending=...)]. *)
Definition by_weight (ascending : bool) (a b : Row) : Prop :=
  if ascending then (weight_to_jiamu a <= weight_to_jiamu b)%Q
  else (weight_to_jiamu b <= weight_to_jiamu a)%Q.

(** [DataFrame.sort_values(by, ascending)].  Every call in the repository
    leaves [kind] at its default, ['quicksort'], for which pandas promises
    the rows back in key order and nothing about rows with equal keys
    (only ['mergesort'] and ['stable'] are documented as stable).  The
    sorting routine is therefore an interface: any implementation that
    returns the same rows in key order. *)
Class SortKind : Type := {
  sort_values : bool -> DataFrame -> DataFrame;
  sort_values_perm :
    forall ascending df, Permutation df (sort_values ascending df);
  sort_values_sorted :
    forall ascending df,
      StronglySorted (by_weight ascending) (sort_values ascending df) }.

(** [topByWeight]: filter, sort, head. *)
Definition top_by_weight `{SortKind} (df : DataFrame) (k : nat)
    (ascending : bool) : DataFrame :=
  head k (sort_values ascending (jiamu_related df)).

(** Insertion of [x] into a list ordered by [le], going past the elements
    that [le x _] rejects. *)
Fixpoint insert_by {A} (le : A -> A -> bool) (x : A) (l : list A) : list A :=
  match l with
  | [] => [x]
  | y :: l' => if le x y then x :: y :: l' else y :: insert_by le x l'
  end.

Definition sort_by {A} (le : A -> A -> bool) (l : list A) : list A :=
  fold_right (insert_by le) [] l.

Definition weight_leb (ascending : bool) (a b : Row) : bool :=
  if ascending then Qle_bool (weight_to_jiamu a) (weight_to_jiamu b)
  else Qle_bool (weight_to_jiamu b) (weight_to_jiamu a).

(** A stable routine ([kind='stable']): a row stops in front of the first
    row that may follow it, so rows of equal weight keep their order. *)
Definition stable_sort (ascending : bool) (df : DataFrame) : DataFrame :=
  sort_by (weight_leb ascending) df.

(** ** pandas: group and sum

    [DataFrame(neighbor_data).groupby('type')['weight'].sum().reset_index()]
    has one row per distinct type, in key order. *)

Record Neighbor : Type := mkNeighbor {
  nb_character : string;
  nb_weight : number;
  nb_type : string }.

(** The type pandas gives a column of numbers: [int64] when every value is
    an [int], [float64] as soon as one is a [float].  The integers of the
    document are taken to fit 64 bits; beyond that pandas chooses other
    column types, which are outside the model. *)
Inductive dtype : Type :=
| int64
| float64.

Definition is_py_int (x : number) : bool :=
  match x with
  | py_int _ => true
  | py_float _ => false
  end.

Definition dtype_of (column : list number) : dtype :=
  if forallb is_py_int column then int64 else float64.

(** What a cell of a float64 column holds. *)
Definition to_float (x : number) : float :=
  match x with
  | py_int n => float_of_Z n
  | py_float x => x
  end.

(** What a cell of an int64 column holds. *)
Definition to_int (x : number) : Z :=
  match x with
  | py_int n => n
  | py_float _ => 0%Z
  end.

(** The value a cell of the column hands back. *)
Definition cell (d : dtype) (x : number) : number :=
  match d with
  | int64 => x
  | float64 => py_float (to_float x)
  end.

(** The loop with which pandas adds up the float64 values of a group.  It
    is compiled code of pandas and not part of the repository, and its
    rounding depends on the order and the compensation it uses: it is a
    parameter. *)
Class FloatSum : Type := { float_sum : list float -> float }.

(** The sum of a group: in an int64 column every addition keeps the low 64
    bits. *)
Definition column_sum `{FloatSum} (d : dtype) (group : list number)
    : number :=
  match d with
  | int64 =>
      py_int (fold_left (fun acc n => wrap64 (acc + n)) (map to_int group) 0%Z)
  | float64 => py_float (float_sum (map to_float group))
  end.

Definition sum_weights `{FloatSum} (d : dtype) (l : list Neighbor) : number :=
  column_sum d (map nb_weight l).

Definition of_type (t : string) (l : list Neighbor) : list Neighbor :=
  filter (fun n => String.eqb (nb_type n) t) l.

Definition group_keys (l : list Neighbor) : list string :=
  sort_by String.leb (nodup string_dec (map nb_type l)).

(** One row per key: the key and the sum of its group. *)
Definition summary_of `{FloatSum} (d : dtype) (l : list Neighbor)
    (ks : list string) : dict number :=
  map (fun t => (t, sum_weights d (of_type t l))) ks.

(** An empty list of records makes a frame without columns, and
    [groupby('type')] on it raises [KeyError: 'type']. *)
Definition groupby_type_sum `{FloatSum} (neighbor_data : list Neighbor)
    : exn + dict number :=
  match neighbor_data with
  | [] => inl (KeyError "type")
  | _ =>
      inr (summary_of (dtype_of (map nb_weight neighbor_data)) neighbor_data
             (group_keys neighbor_data))
  end.

(** The rows of [DataFrame(neighbor_data)], as [iterrows] hands them back:
    the weights are cells of the column. *)
Definition frame_rows (neighbor_data : list Neighbor) : list Neighbor :=
  let d := dtype_of (map nb_weight neighbor_data) in
  map (fun n => mkNeighbor (nb_character n) (cell d (nb_weight n)) (nb_type n))
      neighbor_data.

(** ** The snapshot file *)

(** A top-level key of the JSON document: absent, [null] (or another
    false value), or a value. *)
Inductive field (A : Type) : Type :=
| Missing
| Null
| Present (a : A).
Arguments Missing {A}.
Arguments Null {A}.
Arguments Present {A} a.

(** A true value that [load_data] hands to a constructor of a library
    ([nx.node_link_graph], [pd.DataFrame]): it has the shape the
    constructor expects, or the constructor raises. *)
Inductive shaped (A : Type) : Type :=
| Accepted (a : A)
| Rejected (e : exn).
Arguments Accepted {A} a.
Arguments Rejected {A} e.

(** A JSON object. *)
Record Artifact : Type := mkArtifact {
  a_network : field (shaped NodeLink);
  a_metrics : field (dict (dict Q));
  a_df_metrics : field (shaped (list Row));
  a_relationship_type_analysis : field (dict (dict number)) }.

(** What is found at [output/step3_data.json]: text that is not JSON, JSON
    that is not an object (a list, a string, a number, [true], [false] or
    [null]), or an object. *)
Inductive file : Type :=
| Unparsable
| NotAnObject
| Parsed (data : Artifact).

(** What [json.load] returns. *)
Inductive document : Type :=
| json_object (data : Artifact)
| json_other.

(** ** The rendered page *)

Inductive value : Type :=
| v_int (n : Z)
| v_num (q : Q)
| v_text (s : string).

Inductive figure : Type :=
| network_plot (pos : Pos)
| bar_chart (top : DataFrame)
| pie_chart (type_summary : dict number)
| centrality_chart (chars : list string) (traces : list (list Q)).

(** Calls into Streamlit that show data or a status.  Headings and fixed
    explanatory text are left out. *)
Inductive widget : Type :=
| st_success (text : string)
| st_error (text : string)
| st_error_exc (text : string) (e : exn)
| st_warning (text : string)
| st_info (text : string)
| st_metric (label : string) (v : value)
| st_plotly_chart (fig : figure)
| st_dataframe (df : DataFrame)
| st_neighbor (n : Neighbor)
| st_card (rank : nat) (char : string) (strength : number)
    (char_type : string).

(** ** Methods: state, page and exceptions *)

Record session (S : Type) : Type := mkSession { self : S; page : list widget }.
Arguments mkSession {S} self page.
Arguments self {S} s.
Arguments page {S} s.

Definition M (S A : Type) : Type := session S -> session S * (exn + A).

Definition ret {S A} (a : A) : M S A := fun s => (s, inr a).

Definition bind {S A B} (m : M S A) (k : A -> M S B) : M S B :=
  fun s =>
    match m s with
    | (s', inr a) => k a s'
    | (s', inl e) => (s', inl e)
    end.

Definition raise {S A} (e : exn) : M S A := fun s => (s, inl e).

(** [try: body except Exception as e: handler(e)] *)
Definition try_except {S A} (body : M S A) (handler : exn -> M S A) : M S A :=
  fun s =>
    match body s with
    | (s', inl e) => handler e s'
    | r => r
    end.

Definition lift {S A} (r : exn + A) : M S A := fun s => (s, r).

Definition get_self {S} : M S S := fun s => (s, inr (self s)).

Definition set_self {S} (f : S -> S) : M S unit :=
  fun s => (mkSession (f (self s)) (page s), inr tt).

(** A Streamlit call appends to the page. *)
Definition st {S} (w : widget) : M S unit :=
  fun s => (mkSession (self s) (page s ++ [w]), inr tt).

Declare Scope py_scope.
Delimit Scope py_scope with py.
Notation "x <- c ;; k" := (bind c (fun x => k))
  (at level 61, c at next level, right associativity) : py_scope.
Notation "c ;; k" := (bind c (fun _ => k))
  (at level 61, right associativity) : py_scope.

(** [for x in xs: body(x)] *)
Fixpoint for_each {S A} (xs : list A) (body : A -> M S unit) : M S unit :=
  match xs with
  | [] => ret tt
  | x :: xs' => bind (body x) (fun _ => for_each xs' body)
  end.

(** [d.get(k)] and [d.get(k, default)] on an object *)
Definition get_field {A} (f : field A) : option A :=
  match f with Present a => Some a | _ => None end.

Definition get_field_default {A} (f : field A) (default : A) : option A :=
  match f with Missing => Some default | Null => None | Present a => Some a end.

(** [doc[k]]: a value that is not an object cannot be subscripted by a
    string. *)
Definition subscript {S A} (k : string) (key : Artifact -> field A)
    (doc : document) : M S (option A) :=
  match doc with
  | json_other => raise TypeError
  | json_object data =>
      match key data with
      | Missing => raise (KeyError k)
      | Null => ret None
      | Present a => ret (Some a)
      end
  end.

(** [doc.get(k)] and [doc.get(k, default)]: only an object has [get]. *)
Definition dot_get {S A} (key : Artifact -> field A) (doc : document)
    : M S (option A) :=
  match doc with
  | json_other => raise (AttributeError "get")
  | json_object data => ret (get_field (key data))
  end.

Definition dot_get_default {S A} (key : Artifact -> field A) (default : A)
    (doc : document) : M S (option A) :=
  match doc with
  | json_other => raise (AttributeError "get")
  | json_object data => ret (get_field_default (key data) default)
  end.

(** [json.load(open(path))] *)
Definition json_load {S} (f : option file) : M S document :=
  match f with
  | None => raise FileNotFoundError
  | Some Unparsable => raise JSONDecodeError
  | Some NotAnObject => ret json_other
  | Some (Parsed data) => ret (json_object data)
  end.

(** [nx.node_link_graph(v) if v else None] *)
Definition graph_or_none (v : option (shaped NodeLink)) : exn + option Graph :=
  match v with
  | Some (Accepted nl) => inr (Some (node_link_graph nl))
  | Some (Rejected e) => inl e
  | None => inr None
  end.

(** [pd.DataFrame(rows) if rows else None]: an empty list is false. *)
Definition data_frame_or_none (rows : option (shaped (list Row)))
    : exn + option DataFrame :=
  match rows with
  | Some (Accepted (r :: rs)) => inr (Some (r :: rs))
  | Some (Rejected e) => inl e
  | _ => inr None
  end.

(** The four bar traces of the centrality comparison. *)
Definition centrality_traces (top : DataFrame) : figure :=
  centrality_chart (map character top)
    [ map degree_centrality top; map betweenness_centrality top;
      map closeness_centrality top; map eigenvector_centrality top ].

(** [[f(x) for x in xs]] for an [f] that may raise *)
Fixpoint map_m {S A B} (f : A -> M S B) (xs : list A) : M S (list B) :=
  match xs with
  | [] => ret []
  | x :: xs' =>
      bind (f x) (fun y => bind (map_m f xs') (fun ys => ret (y :: ys)))
  end.

(** [a / b] on integers *)
Definition true_div {S} (a b : nat) : M S Q :=
  if b =? 0 then raise ZeroDivisionError
  else ret (inject_Z (Z.of_nat a) / inject_Z (Z.of_nat b))%Q.

(** [metrics['jiamu_metrics'][k]] *)
Definition jiamu_metric (metrics : option (dict (dict Q))) (k : string)
    : exn + Q :=
  match metrics with
  | None => inl TypeError
  | Some d =>
      match dict_get "jiamu_metrics" d with
      | None => inl (KeyError "jiamu_metrics")
      | Some jm =>
          match dict_get k jm with
          | None => inl (KeyError k)
          | Some q => inr q
          end
      end
  end.

(** [neighbor_strengths.sort(key=lambda x: x[1], reverse=True)].  Python's
    list sort rearranges the list, compares keys with [<] only and is
    stable, also in reverse: a pair stays in front of the later pairs that
    are not stronger.  Where [<] orders the keys (no NaN among them) this
    fixes the result, the list [sort_by strength_geb] returns.  With a NaN
    among the keys the result depends on which comparisons the routine
    makes; only that it is a rearrangement is kept. *)
Definition strength_geb (a b : string * number) : bool :=
  negb (num_ltb (snd a) (snd b)).

(** NaN, the float that denotes no number. *)
Definition is_nan (x : number) : bool :=
  match value_of x with
  | None => true
  | Some _ => false
  end.

(** The sort of the interpreter, by what its documentation promises. *)
Class ListSort : Type := {
  sort_reverse : list (string * number) -> list (string * number);
  sort_reverse_perm : forall l, Permutation l (sort_reverse l);
  sort_reverse_stable :
    forall l,
      forallb (fun p => negb (is_nan (snd p))) l = true ->
      sort_reverse l = sort_by strength_geb l }.

(** ** [streamlit_page.py] *)

Module Page.

Local Open Scope py_scope.

(** The attributes of [JiaMuStreamlitApp].  [__init__] assigns none of
    them itself: an attribute is [None] here until [load_data] reaches
    its assignment, and reading it before raises [AttributeError]. *)
Record App : Type := mkApp {
  step3_data : option document;
  G : option (option Graph);
  metrics : option (option (dict (dict Q)));
  df_metrics : option (option DataFrame);
  relationship_type_analysis : option (option (dict (dict number))) }.

Definition fresh : App := mkApp None None None None None.

Definition set_step3_data v (a : App) : App :=
  mkApp (Some v) (G a) (metrics a) (df_metrics a)
    (relationship_type_analysis a).
Definition set_G v (a : App) : App :=
  mkApp (step3_data a) (Some v) (metrics a) (df_metrics a)
    (relationship_type_analysis a).
Definition set_metrics v (a : App) : App :=
  mkApp (step3_data a) (G a) (Some v) (df_metrics a)
    (relationship_type_analysis a).
Definition set_df_metrics v (a : App) : App :=
  mkApp (step3_data a) (G a) (metrics a) (Some v)
    (relationship_type_analysis a).
Definition set_relationship_type_analysis v (a : App) : App :=
  mkApp (step3_data a) (G a) (metrics a) (df_metrics a) (Some v).

(** [self.name] *)
Definition attr {A} (name : string) (proj : App -> option A) : M App A :=
  a <- get_self ;;
  match proj a with
  | Some v => ret v
  | None => raise (AttributeError name)
  end.

(** The keys [network], [metrics] and [df_metrics] are read by subscript,
    [relationship_type_analysis] by [.get]; whatever is raised inside the
    [try] is reported and followed by [self.G = None]. *)
Definition load_data (f : option file) : M App unit :=
  try_except
    (doc <- json_load f ;;
     set_self (set_step3_data doc) ;;
     network <- subscript "network" a_network doc ;;
     g <- lift (graph_or_none network) ;;
     set_self (set_G g) ;;
     m <- subscript "metrics" a_metrics doc ;;
     set_self (set_metrics m) ;;
     rows <- subscript "df_metrics" a_df_metrics doc ;;
     df <- lift (data_frame_or_none rows) ;;
     set_self (set_df_metrics df) ;;
     rta <- dot_get_default a_relationship_type_analysis [] doc ;;
     set_self (set_relationship_type_analysis rta) ;;
     st (st_success "数据加载成功！"))
    (fun e =>
       st (st_error_exc "数据加载失败" e) ;;
       set_self (set_G None)).

(** The figure is represented by the layout [pos] it is drawn from; the
    remainder of the method reads [pos] and the weights of the edges at
    [賈母] and cannot raise. *)
Definition create_central_network_plot `{Libm} : M App (option figure) :=
  g <- attr "G" G ;;
  match g with
  | None => st (st_error "网络数据不可用") ;; ret None
  | Some g =>
      jiamu_neighbors <- lift (neighbors g jiamu) ;;
      match jiamu_neighbors with
      | [] => st (st_error "贾母没有直接相连的节点") ;; ret None
      | _ => ret (Some (network_plot (layout jiamu_neighbors)))
      end
  end.

(** Filter, [sort_values(ascending=True)], [head(15)]; the bar colours come
    from [get_character_type] and do not change the rows. *)
Definition create_relationship_strength_chart `{SortKind}
    : M App (option figure) :=
  df <- attr "df_metrics" df_metrics ;;
  match df with
  | None => st (st_error "指标数据不可用") ;; ret None
  | Some df =>
      let top_15 := head 15 (sort_values true (jiamu_related df)) in
      ret (Some (bar_chart top_15))
  end.

(** Filter and [head(10)], with no sort in between. *)
Definition create_centrality_comparison_chart : M App (option figure) :=
  df <- attr "df_metrics" df_metrics ;;
  match df with
  | None => st (st_error "指标数据不可用") ;; ret None
  | Some df =>
      let top_10 := head 10 (jiamu_related df) in
      ret (Some (centrality_traces top_10))
  end.

(** The statistics are computed first and shown afterwards.  The line
    [jiamu_degree = self.G.degree('賈母')] is left out: its value is not
    used, and for a node outside the graph networkx hands back a view
    without raising. *)
Definition display_network_statistics `{ListSort} : M App unit :=
  g <- attr "G" G ;;
  match g with
  | None => st (st_error "网络数据不可用")
  | Some g =>
      let node_count := number_of_nodes g in
      let edge_count := number_of_edges g in
      let network_density := nx_density g in
      average_degree <- true_div (degree_sum g) node_count ;;
      jiamu_neighbors <- lift (neighbors g jiamu) ;;
      neighbor_strengths <-
        map_m (fun neighbor =>
                 w <- lift (edge_weight g jiamu neighbor) ;;
                 ret (neighbor, w))
              jiamu_neighbors ;;
      let top_relationships :=
        firstn 10 (sort_reverse neighbor_strengths) in
      st (st_metric "節點數量" (v_int (Z.of_nat node_count))) ;;
      st (st_metric "邊數量" (v_int (Z.of_nat edge_count))) ;;
      st (st_metric "網絡密度" (v_num network_density)) ;;
      st (st_metric "平均度" (v_num average_degree)) ;;
      for_each
        [ ("度中心性", "degree_centrality");
          ("中介中心性", "betweenness_centrality");
          ("接近中心性", "closeness_centrality");
          ("特徵向量中心性", "eigenvector_centrality") ]
        (fun lk =>
           m <- attr "metrics" metrics ;;
           q <- lift (jiamu_metric m (snd lk)) ;;
           st (st_metric (fst lk) (v_num q))) ;;
      for_each (combine (seq 1 (List.length top_relationships))
                        top_relationships)
        (fun e =>
           let char := fst (snd e) in
           st (st_card (fst e) char (snd (snd e))
                       (get_character_type char)))
  end.

(** [__init__]: [load_data] on a new object ([setup_colors] only fills
    the two constant dictionaries). *)
Definition init (f : option file) : M App unit := load_data f.

(** [self.relationship_type_analysis[type_name]['total_weight']] *)
Definition total_weight (rta : dict (dict number)) (type_name : string)
    : exn + number :=
  match dict_get type_name rta with
  | None => inl (KeyError type_name)
  | Some analysis =>
      match dict_get "total_weight" analysis with
      | None => inl (KeyError "total_weight")
      | Some q => inr q
      end
  end.

(** An analysis that is [None] or empty is reported; otherwise the four
    totals are read in the order of the list [values], each by subscript. *)
Definition create_relationship_type_chart : M App (option figure) :=
  rta <- attr "relationship_type_analysis" relationship_type_analysis ;;
  match rta with
  | Some ((_ :: _) as rta) =>
      family_male <- lift (total_weight rta "family_male") ;;
      family_female <- lift (total_weight rta "family_female") ;;
      servants <- lift (total_weight rta "servants") ;;
      guests <- lift (total_weight rta "guests") ;;
      ret (Some (pie_chart [ ("家族男性", family_male);
                             ("家族女性", family_female);
                             ("僕人", servants); ("客人", guests) ]))
  | _ => st (st_error "关系类型分析数据不可用") ;; ret None
  end.

(** [if fig: st.plotly_chart(fig) else: st.error(text)]; a figure object
    is true. *)
Definition chart_or_error (fig : option figure) (text : string)
    : M App unit :=
  match fig with
  | Some fig => st (st_plotly_chart fig)
  | None => st (st_error text)
  end.

Definition show_network_diagram `{Libm} : M App unit :=
  fig <- create_central_network_plot ;;
  chart_or_error fig "無法生成關係網絡圖".

(** The chart, and under it the table of the twenty strongest rows (the
    projection to four columns is not modelled). *)
Definition show_relationship_analysis `{SortKind} : M App unit :=
  fig <- create_relationship_strength_chart ;;
  chart_or_error fig "無法生成關係強度圖表" ;;
  df <- attr "df_metrics" df_metrics ;;
  match df with
  | Some df =>
      st (st_dataframe (head 20 (sort_values false (jiamu_related df))))
  | None => ret tt
  end.

Definition show_centrality_metrics : M App unit :=
  fig <- create_centrality_comparison_chart ;;
  chart_or_error fig "無法生成中心性指標圖表".

(** The data statistics at the foot of [show_about]. *)
Definition show_about : M App unit :=
  g <- attr "G" G ;;
  match g with
  | Some g =>
      st (st_metric "分析章回" (v_text "1-40回")) ;;
      st (st_metric "網絡節點數" (v_int (Z.of_nat (number_of_nodes g)))) ;;
      st (st_metric "關係邊數" (v_int (Z.of_nat (number_of_edges g))))
  | None => ret tt
  end.

End Page.

(** [if G:] on an attribute that may be [None] *)
Definition attr_graph_truthy (g : option Graph) : bool :=
  match g with
  | Some g => graph_truthy g
  | None => false
  end.

(** [G.degree(n)] for a node of the graph *)
Definition nx_degree (g : Graph) (n : string) : option nat :=
  option_map (fun nbrs => entry_degree (n, nbrs)) (dict_get n g).

(** The list [neighbor_data]: one record per neighbour of [賈母], with the
    weight of the edge and the type given by [classify]. *)
Definition neighbor_records {S} (classify : string -> string) (g : Graph)
    (neighbors : list string) : M S (list Neighbor) :=
  map_m (fun neighbor =>
           bind (lift (edge_weight g jiamu neighbor)) (fun w =>
           ret (mkNeighbor neighbor w (classify neighbor))))
        neighbors.

(** ** [streamlit_page_new.py] *)

Module PageNew.

Local Open Scope py_scope.

(** [__init__] sets every attribute. *)
Record App : Type := mkApp {
  data_loaded : bool;
  step3_data : option document;
  G : option Graph;
  metrics : option (dict (dict Q));
  df_metrics : option DataFrame;
  relationship_type_analysis : option (dict (dict number)) }.

Definition fresh : App := mkApp false None None None None None.

Definition set_data_loaded v (a : App) : App :=
  mkApp v (step3_data a) (G a) (metrics a) (df_metrics a)
    (relationship_type_analysis a).
Definition set_step3_data v (a : App) : App :=
  mkApp (data_loaded a) v (G a) (metrics a) (df_metrics a)
    (relationship_type_analysis a).
Definition set_G v (a : App) : App :=
  mkApp (data_loaded a) (step3_data a) v (metrics a) (df_metrics a)
    (relationship_type_analysis a).
Definition set_metrics v (a : App) : App :=
  mkApp (data_loaded a) (step3_data a) (G a) v (df_metrics a)
    (relationship_type_analysis a).
Definition set_df_metrics v (a : App) : App :=
  mkApp (data_loaded a) (step3_data a) (G a) (metrics a) v
    (relationship_type_analysis a).
Definition set_relationship_type_analysis v (a : App) : App :=
  mkApp (data_loaded a) (step3_data a) (G a) (metrics a) (df_metrics a) v.

(** [NETWORKX_AVAILABLE] is fixed when the module is imported; the test
    [NETWORKX_AVAILABLE and self.step3_data.get('network')] reads the
    document only when it is true. *)
Definition load_data (NETWORKX_AVAILABLE : bool) (f : option file)
    : M App bool :=
  try_except
    (match f with
     | None => st (st_error "❌ 数据文件不存在: output/step3_data.json") ;;
               ret false
     | Some _ =>
         doc <- json_load f ;;
         set_self (set_step3_data (Some doc)) ;;
         network <- (if NETWORKX_AVAILABLE then dot_get a_network doc
                     else ret None) ;;
         g <- lift (graph_or_none network) ;;
         set_self (set_G g) ;;
         m <- dot_get_default a_metrics [] doc ;;
         set_self (set_metrics m) ;;
         rows <- dot_get a_df_metrics doc ;;
         df <- lift (data_frame_or_none rows) ;;
         set_self (set_df_metrics df) ;;
         rta <- dot_get_default a_relationship_type_analysis [] doc ;;
         set_self (set_relationship_type_analysis rta) ;;
         set_self (set_data_loaded true) ;;
         ret true
     end)
    (fun e => st (st_error_exc "❌ 数据加载失败" e) ;; ret false).

(** [show_environment_check] builds the dictionary [libraries] before it
    shows anything.  The entry for plotly reads [go.__version__], and [go]
    is the module [plotly.graph_objects], which has no such attribute (the
    version is an attribute of [plotly]; [stream_page_new1.py] reads it
    there): the method raises [AttributeError]. *)
Definition show_environment_check : M App unit :=
  raise (AttributeError "__version__").

Definition na : value := v_text "N/A".

(** [jm_metrics.get(k, 0)] *)
Definition metric_or_zero (jm : dict Q) (k : string) : Q :=
  match dict_get k jm with Some q => q | None => 0%Q end.

Definition show_network_overview : M App unit :=
  a <- get_self ;;
  if negb (data_loaded a) then st (st_warning "請先加載數據")
  else
    (match G a with
     | Some g =>
         if graph_truthy g then
           st (st_metric "節點數量" (v_int (Z.of_nat (number_of_nodes g)))) ;;
           st (st_metric "邊數量" (v_int (Z.of_nat (number_of_edges g)))) ;;
           st (st_metric "網絡密度" (v_num (nx_density g)))
         else
           st (st_metric "節點數量" na) ;; st (st_metric "邊數量" na) ;;
           st (st_metric "網絡密度" na)
     | None =>
         st (st_metric "節點數量" na) ;; st (st_metric "邊數量" na) ;;
         st (st_metric "網絡密度" na)
     end) ;;
    (match G a with
     | Some g =>
         match (if graph_truthy g then nx_degree g jiamu else None) with
         | Some d => st (st_metric "賈母的度" (v_int (Z.of_nat d)))
         | None => st (st_metric "賈母的度" na)
         end
     | None => st (st_metric "賈母的度" na)
     end) ;;
    match metrics a with
    | Some ((_ :: _) as m) =>
        match dict_get "jiamu_metrics" m with
        | Some jm =>
            st (st_metric "度中心性"
                  (v_num (metric_or_zero jm "degree_centrality"))) ;;
            st (st_metric "中介中心性"
                  (v_num (metric_or_zero jm "betweenness_centrality"))) ;;
            st (st_metric "接近中心性"
                  (v_num (metric_or_zero jm "closeness_centrality"))) ;;
            st (st_metric "特徵向量中心性"
                  (v_num (metric_or_zero jm "eigenvector_centrality")))
        | None => ret tt
        end
    | _ => ret tt
    end.

Definition show_relationship_analysis `{SortKind} : M App unit :=
  a <- get_self ;;
  match (if data_loaded a then df_metrics a else None) with
  | None => st (st_warning "請先加載數據")
  | Some df =>
      let top_10 := head 10 (sort_values false (jiamu_related df)) in
      st (st_plotly_chart (bar_chart top_10)) ;;
      st (st_dataframe top_10)
  end.

Definition show_network_visualization `{FloatSum}
    (NETWORKX_AVAILABLE : bool) : M App unit :=
  a <- get_self ;;
  match (if data_loaded a && NETWORKX_AVAILABLE then G a else None) with
  | None =>
      if negb NETWORKX_AVAILABLE then
        st (st_error "❌ NetworkX庫不可用，無法生成網絡圖") ;;
        st (st_info "請確保requirements.txt中包含networkx>=3.0")
      else st (st_warning "網絡數據不可用")
  | Some g =>
      if graph_truthy g && dict_mem jiamu g then
        neighbors <- lift (neighbors g jiamu) ;;
        neighbor_data <- neighbor_records get_character_type g neighbors ;;
        type_summary <- lift (groupby_type_sum neighbor_data) ;;
        st (st_plotly_chart (pie_chart type_summary)) ;;
        for_each (frame_rows neighbor_data) (fun row => st (st_neighbor row))
      else ret tt
  end.

Definition show_centrality_analysis : M App unit :=
  a <- get_self ;;
  match (if data_loaded a then df_metrics a else None) with
  | None => st (st_warning "請先加載數據")
  | Some df =>
      let valid_chars := head 8 (jiamu_related df) in
      st (st_plotly_chart (centrality_traces valid_chars))
  end.

Inductive section : Type :=
| network_overview
| relationship_analysis
| network_visualization
| centrality_analysis.

(** The chain of [if] and [elif] at the end of [run]. *)
Definition show_section `{SortKind} `{FloatSum} (NETWORKX_AVAILABLE : bool)
    (app_section : section) : M App unit :=
  match app_section with
  | network_overview => show_network_overview
  | relationship_analysis => show_relationship_analysis
  | network_visualization => show_network_visualization NETWORKX_AVAILABLE
  | centrality_analysis => show_centrality_analysis
  end.

(** [run]: the environment check, then [load_data] unless the object is
    loaded, then the selected section (the home page and the page about the
    project show fixed text and are left out). *)
Definition run `{SortKind} `{FloatSum} (NETWORKX_AVAILABLE : bool)
    (f : option file) (app_section : section) : M App unit :=
  show_environment_check ;;
  a <- get_self ;;
  (if data_loaded a then ret tt
   else (_ <- load_data NETWORKX_AVAILABLE f ;; ret tt)) ;;
  show_section NETWORKX_AVAILABLE app_section.

End PageNew.

(** ** [Project/stream_page_new1.py] *)

(** [sub in s] on strings *)
Definition contains (sub s : string) : bool :=
  match String.index 0 sub s with
  | Some _ => true
  | None => false
  end.

Module PageNew1.

Local Open Scope py_scope.

Record App : Type := mkApp {
  data_loaded : bool;
  data : option document;
  G : option Graph }.

Definition fresh : App := mkApp false None None.

Definition set_data_loaded v (a : App) : App := mkApp v (data a) (G a).
Definition set_data v (a : App) : App := mkApp (data_loaded a) v (G a).
Definition set_G v (a : App) : App := mkApp (data_loaded a) (data a) v.

(** The test [NETWORKX_AVAILABLE and self.data.get('network')] reads the
    document only when networkx is available; [self.G] is assigned only
    when the test is true. *)
Definition load_data (NETWORKX_AVAILABLE : bool) (f : option file)
    : M App bool :=
  try_except
    (match f with
     | None => st (st_warning "数据文件不存在，将使用演示数据") ;; ret false
     | Some _ =>
         doc <- json_load f ;;
         set_self (set_data (Some doc)) ;;
         network <- (if NETWORKX_AVAILABLE then dot_get a_network doc
                     else ret None) ;;
         g <- lift (graph_or_none network) ;;
         match g with
         | Some g => set_self (set_G (Some g))
         | None => ret tt
         end ;;
         set_self (set_data_loaded true) ;;
         ret true
     end)
    (fun e => st (st_error_exc "数据加载失败" e) ;; ret false).

(** The lines of [show_environment_check] about the installed libraries are
    fixed for an installation and left out; the last line tells whether the
    object is loaded. *)
Definition show_environment_check : M App unit :=
  a <- get_self ;;
  if data_loaded a then st (st_success "✅ 數據加載成功")
  else st (st_warning "⚠ 數據未加載").

(** [pd.DataFrame(self.data['df_metrics']) if self.data.get('df_metrics')
    else None], evaluated in the view. *)
Definition show_relationship_analysis `{SortKind} (PLOTLY_AVAILABLE : bool)
    : M App unit :=
  a <- get_self ;;
  if negb (data_loaded a && PLOTLY_AVAILABLE) then
    st (st_warning "請先加載數據並確保Plotly可用")
  else
    doc <- match data a with
           | Some doc => ret doc
           | None => raise (AttributeError "get")
           end ;;
    rows <- dot_get a_df_metrics doc ;;
    df_metrics <- lift (data_frame_or_none rows) ;;
    match df_metrics with
    | None => st (st_warning "無關係數據可用")
    | Some df =>
        let top_10 := head 10 (sort_values true (jiamu_related df)) in
        st (st_plotly_chart (bar_chart top_10))
    end.

(** The inline classification of [show_simple_network_viz]. *)
Definition simple_type (neighbor : string) : string :=
  if contains "賈" neighbor then "家族成員"
  else if contains "人" neighbor || contains "兒" neighbor then "僕人"
  else "客人".

Definition show_simple_network_viz `{FloatSum} (PLOTLY_AVAILABLE : bool)
    : M App unit :=
  a <- get_self ;;
  if negb (data_loaded a && PLOTLY_AVAILABLE) then
    st (st_warning "可視化功能不可用")
  else
    match (match G a with
           | Some g => if dict_mem jiamu g then Some g else None
           | None => None
           end) with
    | None => st (st_warning "網絡數據不完整")
    | Some g =>
        neighbors <- lift (neighbors g jiamu) ;;
        match neighbors with
        | [] => st (st_warning "賈母沒有直接相連的角色")
        | _ =>
            neighbor_data <- neighbor_records simple_type g neighbors ;;
            type_summary <- lift (groupby_type_sum neighbor_data) ;;
            st (st_plotly_chart (pie_chart type_summary)) ;;
            for_each (frame_rows neighbor_data)
              (fun row => st (st_neighbor row))
        end
    end.

Definition na : value := v_text "N/A".

(** Four metrics; without a graph, or with one that has no nodes, each
    shows the placeholder. *)
Definition show_network_stats (NETWORKX_AVAILABLE : bool) : M App unit :=
  a <- get_self ;;
  if negb (data_loaded a) then st (st_info "請先加載數據")
  else
    (if attr_graph_truthy (G a) then
       match G a with
       | Some g =>
           st (st_metric "節點數量" (v_int (Z.of_nat (number_of_nodes g)))) ;;
           st (st_metric "邊數量" (v_int (Z.of_nat (number_of_edges g)))) ;;
           st (st_metric "網絡密度"
                 (v_num (if NETWORKX_AVAILABLE then nx_density g else 0%Q)))
       | None => ret tt
       end
     else
       st (st_metric "節點數量" na) ;; st (st_metric "邊數量" na) ;;
       st (st_metric "網絡密度" na)) ;;
    match (if attr_graph_truthy (G a) then
             match G a with Some g => nx_degree g jiamu | None => None end
           else None) with
    | Some d => st (st_metric "賈母的度" (v_int (Z.of_nat d)))
    | None => st (st_metric "賈母的度" na)
    end.

Inductive section : Type :=
| network_stats
| relationship_analysis
| network_visualization.

(** The chain of [if] and [elif] at the end of [run]. *)
Definition show_section `{SortKind} `{FloatSum}
    (NETWORKX_AVAILABLE PLOTLY_AVAILABLE : bool) (app_section : section)
    : M App unit :=
  match app_section with
  | network_stats => show_network_stats NETWORKX_AVAILABLE
  | relationship_analysis => show_relationship_analysis PLOTLY_AVAILABLE
  | network_visualization => show_simple_network_viz PLOTLY_AVAILABLE
  end.

(** [run]: [load_data] unless the object is loaded, then the environment
    check and the selected section (the home page and the page about the
    project show fixed text and are left out). *)
Definition run `{SortKind} `{FloatSum}
    (NETWORKX_AVAILABLE PLOTLY_AVAILABLE : bool)
    (f : option file) (app_section : section) : M App unit :=
  a <- get_self ;;
  (if data_loaded a then ret tt
   else (_ <- load_data NETWORKX_AVAILABLE f ;; ret tt)) ;;
  show_environment_check ;;
  show_section NETWORKX_AVAILABLE PLOTLY_AVAILABLE app_section.

End PageNew1.

(** ** Running a method *)

Definition run_on {S A} (a : S) (m : M S A) : session S * (exn + A) :=
  m (mkSession a []).

(** The exception that escapes, if any. *)
Definition escapes {S A} (r : session S * (exn + A)) : option exn :=
  match snd r with
  | inl e => Some e
  | inr _ => None
  end.

(** The value returned, if the method returns. *)
Definition returned {S A} (r : session S * (exn + A)) : option A :=
  match snd r with
  | inl _ => None
  | inr a => Some a
  end.

Definition shown {S A} (r : session S * (exn + A)) : list widget :=
  page (fst r).

Definition final {S A} (r : session S * (exn + A)) : S := self (fst r).

(** ** Vocabulary of the properties *)

(** [sel] lists the rows of positive weight of [table], in the order of
    the table. *)
Inductive positive_rows : DataFrame -> DataFrame -> Prop :=
| positive_nil : positive_rows [] []
| positive_keep : forall r table sel,
    (0 < weight_to_jiamu r)%Q ->
    positive_rows table sel -> positive_rows (r :: table) (r :: sel)
| positive_drop : forall r table sel,
    (weight_to_jiamu r <= 0)%Q ->
    positive_rows table sel -> positive_rows (r :: table) sel.

(** [x == y] in Python, on numbers. *)
Definition num_eqb (x y : number) : bool :=
  match value_of x, value_of y with
  | Some a, Some b => negb (ext_ltb a b) && negb (ext_ltb b a)
  | _, _ => false
  end.

(** The point the loop computes for index [i] of [count] neighbours. *)
Definition on_circle `{Libm} (count i : nat) : number * number :=
  (py_float (radius * cos (float_of_nat i * angle_step count))%float,
   py_float (radius * sin (float_of_nat i * angle_step count))%float).

(** The invariants networkx keeps for an adjacency: distinct nodes, distinct
    neighbours under each node, and every neighbour a node. *)
Definition entry_ok (ks : list string) (e : string * dict number) : Prop :=
  NoDup (dict_keys (snd e)) /\ incl (dict_keys (snd e)) ks.

Definition well_formed (g : Graph) : Prop :=
  NoDup (dict_keys g) /\ Forall (entry_ok (dict_keys g)) g.

(** No node is its own neighbour. *)
Definition loopless (g : Graph) : Prop :=
  Forall (fun e => ~ In (fst e) (dict_keys (snd e))) g.

(** The records and the summary the views build from the neighbours [nbrs]
    of 賈母: one record per neighbour, with the weight of her edge and the
    type given by [classify]; one key per type that occurs, each once. *)
Definition aggregates (classify : string -> string) (nbrs : dict number)
    (neighbor_data : list Neighbor) (type_summary : dict number) : Prop :=
  map nb_character neighbor_data = dict_keys nbrs /\
  map nb_weight neighbor_data = map snd nbrs /\
  Forall (fun n => nb_type n = classify (nb_character n)) neighbor_data /\
  NoDup (dict_keys type_summary) /\
  (forall t, In t (dict_keys type_summary)
             <-> exists c, In c (dict_keys nbrs) /\ classify c = t).

(** The number [x] is the rational [q]. *)
Definition denotes (x : number) (q : Q) : Prop :=
  match value_of x with
  | Some (fin p) => p == q
  | _ => False
  end.

(** Integer weights, as numbers of the document. *)
Definition ints (d : dict Z) : dict number :=
  map (fun e => (fst e, py_int (snd e))) d.

(** What an int64 cell can hold. *)
Definition fits_int64 (n : Z) : Prop := (- 2 ^ 63 <= n < 2 ^ 63)%Z.

(** Sum of the values. *)
Definition total (d : dict Z) : Z :=
  fold_right (fun e acc => (snd e + acc)%Z) 0%Z d.

(** Sum of the weights of the neighbours that [classify] puts into [t]. *)
Definition category_total (classify : string -> string) (t : string)
    (ws : dict Z) : Z :=
  total (filter (fun e => String.eqb (classify (fst e)) t) ws).

(** What the type summary of neighbours with the integer weights [ws] must
    be.  Its keys are the types that at least one neighbour has, each once.
    Its value for a type is the sum of that type's weights as an int64
    cell keeps it.  The values therefore add up to the sum of all weights
    up to a multiple of [2^64], and exactly when every type's sum fits. *)
Definition summarises (classify : string -> string) (ws totals : dict Z)
    : Prop :=
  NoDup (dict_keys totals) /\
  (forall t, In t (dict_keys totals)
             <-> exists c, In c (dict_keys ws) /\ classify c = t) /\
  (forall t v, In (t, v) totals -> v = wrap64 (category_total classify t ws)) /\
  (total totals mod 2 ^ 64 = total ws mod 2 ^ 64)%Z /\
  ((forall t, fits_int64 (category_total classify t ws)) ->
   total totals = total ws).

(** The records the views build for the neighbours [ws]. *)
Definition records_of (classify : string -> string) (ws : dict Z)
    : list Neighbor :=
  map (fun e => mkNeighbor (fst e) (py_int (snd e)) (classify (fst e))) ws.

(** No link of the encoding joins a node to itself. *)
Definition loop_free (data : NodeLink) : Prop :=
  Forall (fun l => source l <> target l) (links data).

(** [G._adj[u].get(v)]: the weight stored for the pair, if any. *)
Definition weight_of (g : Graph) (u v : string) : option number :=
  match dict_get u g with
  | Some nbrs => dict_get v nbrs
  | None => None
  end.

(** The link joins [u] and [v], in either direction. *)
Definition joins (l : Link) (u v : string) : Prop :=
  (source l = u /\ target l = v) \/ (source l = v /\ target l = u).

(** The names a node-link encoding mentions: its nodes and the end points
    of its links. *)
Definition mentioned (data : NodeLink) (n : string) : Prop :=
  In n (nodes data) \/ exists l, In l (links data) /\ (source l = n \/ target l = n).

Definition symmetric (g : Graph) : Prop :=
  forall u v, weight_of g u v = weight_of g v u.

(** [joins], decided. *)
Definition joinsb (l : Link) (u v : string) : bool :=
  (String.eqb u (source l) && String.eqb v (target l))
  || (String.eqb u (target l) && String.eqb v (source l)).

(** The last link of the list that joins [u] and [v]. *)
Definition last_joining (ls : list Link) (u v : string) : option Link :=
  fold_left (fun acc l => if joinsb l u v then Some l else acc) ls None.

(** A method that reads: it leaves the object as it found it and only adds
    to the page, whether it returns or raises. *)
Definition read_only {S A} (m : M S A) : Prop :=
  forall s, self (fst (m s)) = self s /\
            exists ws, page (fst (m s)) = page s ++ ws.

(** The constructor accepts what is under the key, if anything is. *)
Definition accepted {A} (f : field (shaped A)) : bool :=
  match f with
  | Present (Rejected _) => false
  | _ => true
  end.

(** The three keys [load_data] of [streamlit_page.py] reads by subscript
    are in the document. *)
Definition subscripted_keys_present (data : Artifact) : bool :=
  match a_network data, a_metrics data, a_df_metrics data with
  | Missing, _, _ | _, Missing, _ | _, _, Missing => false
  | _, _, _ => true
  end.

(** [load_data] of [streamlit_page.py] reaches its last line: the file is
    there and holds an object with the subscripted keys, and the network
    and the table are accepted. *)
Definition page_loadable (f : option file) : bool :=
  match f with
  | Some (Parsed data) =>
      subscripted_keys_present data
      && accepted (a_network data) && accepted (a_df_metrics data)
  | _ => false
  end.

(** The same for [streamlit_page_new.py], which reads every key with
    [.get] and the network only when networkx is available. *)
Definition page_new_loadable (NETWORKX_AVAILABLE : bool) (f : option file)
    : bool :=
  match f with
  | Some (Parsed data) =>
      (negb NETWORKX_AVAILABLE || accepted (a_network data))
      && accepted (a_df_metrics data)
  | _ => false
  end.

(** The same for [stream_page_new1.py], which reads only the network, and
    only when networkx is available. *)
Definition page_new1_loadable (NETWORKX_AVAILABLE : bool) (f : option file)
    : bool :=
  match f with
  | Some (Parsed data) => negb NETWORKX_AVAILABLE || accepted (a_network data)
  | Some NotAnObject => negb NETWORKX_AVAILABLE
  | _ => false
  end.

(** [json.load] returns: the file is there and is JSON. *)
Definition is_json (f : option file) : bool :=
  match f with
  | Some (Parsed _) | Some NotAnObject => true
  | _ => false
  end.

(** A method that returns in every state. *)
Definition never_raises {S A} (m : M S A) : Prop :=
  forall s, exists a, snd (m s) = inr a.

(** The type summary of integer weights. *)
Definition totals_of (classify : string -> string) (ws : dict Z) : dict Z :=
  map (fun t => (t, wrap64 (category_total classify t ws)))
      (group_keys (records_of classify ws)).

(** The page [display_network_statistics] shows on a graph [g] with the
    four scores [q1] .. [q4] and the cards of the pairs [top]. *)
Definition statistics_page (g : Graph) (q1 q2 q3 q4 : Q)
    (top : list (string * number)) : list widget :=
  [ st_metric "節點數量" (v_int (Z.of_nat (number_of_nodes g)));
    st_metric "邊數量" (v_int (Z.of_nat (number_of_edges g)));
    st_metric "網絡密度" (v_num (nx_density g));
    st_metric "平均度"
      (v_num (inject_Z (Z.of_nat (degree_sum g))
              / inject_Z (Z.of_nat (number_of_nodes g))));
    st_metric "度中心性" (v_num q1);
    st_metric "中介中心性" (v_num q2);
    st_metric "接近中心性" (v_num q3);
    st_metric "特徵向量中心性" (v_num q4) ]
  ++ map (fun e => st_card (fst e) (fst (snd e)) (snd (snd e))
                     (get_character_type (fst (snd e))))
         (combine (seq 1 (List.length top)) top).

(** ** Sample data *)

Definition sample_row (c : string) (w : Q) : Row :=
  mkRow c w 1%Z 0%Q 0%Q 0%Q 0%Q.

(** Five rows, one without a relation to 賈母 and two of equal weight. *)
Definition sample_table : DataFrame :=
  [ sample_row "賈政" 3; sample_row "王夫人" 7; sample_row "焦大" 0;
    sample_row "鴛鴦" 7; sample_row "林黛玉" 9 ].

(** Eleven rows whose weights grow down the table: 1, 2, ..., 11. *)
Definition rising_table : DataFrame :=
  map (fun e => sample_row (snd e) (inject_Z (Z.of_nat (S (fst e)))))
      (enumerate (members "family_male")).

(** 賈母 linked to two characters, as in the scenario of the specification:
    edges of weight 3 and 5. *)
Definition star_data : NodeLink :=
  mkNodeLink ["賈母"; "王夫人"; "鴛鴦"]
    [ mkLink "賈母" "王夫人" (py_int 3); mkLink "賈母" "鴛鴦" (py_int 5) ].

(** A graph in which 賈母 does not occur. *)
Definition without_jiamu_data : NodeLink :=
  mkNodeLink ["王夫人"; "鴛鴦"] [ mkLink "王夫人" "鴛鴦" (py_int 2) ].

(** 賈母 present and isolated. *)
Definition isolated_data : NodeLink :=
  mkNodeLink ["賈母"; "王夫人"; "鴛鴦"]
    [ mkLink "王夫人" "鴛鴦" (py_int 2) ].

(** A link from 賈母 to herself next to an ordinary one. *)
Definition self_loop_data : NodeLink :=
  mkNodeLink ["賈母"; "王夫人"]
    [ mkLink "賈母" "賈母" (py_int 1); mkLink "賈母" "王夫人" (py_int 3) ].

(** No nodes and no links. *)
Definition empty_data : NodeLink := mkNodeLink [] [].

(** 賈母 linked to two men of the family by edges of weight 2^62. *)
Definition heavy_data : NodeLink :=
  mkNodeLink ["賈母"; "賈政"; "賈赦"]
    [ mkLink "賈母" "賈政" (py_int (2 ^ 62));
      mkLink "賈母" "賈赦" (py_int (2 ^ 62)) ].

(** The floats that [json.load] reads from [0.1] and [0.2]. *)
Definition tenth : float := 0x1.999999999999ap-4%float.
Definition fifth : float := 0x1.999999999999ap-3%float.

(** 賈母 linked to two men of the family by edges of weight 0.1 and 0.2. *)
Definition float_data : NodeLink :=
  mkNodeLink ["賈母"; "賈政"; "賈赦"]
    [ mkLink "賈母" "賈政" (py_float tenth);
      mkLink "賈母" "賈赦" (py_float fifth) ].

Definition sample_metrics : dict (dict Q) :=
  [ ("jiamu_metrics",
      [ ("degree_centrality", 1%Q); ("betweenness_centrality", 1 # 2);
        ("closeness_centrality", 1%Q); ("eigenvector_centrality", 7 # 10) ]) ].

Definition sample_type_analysis : dict (dict number) :=
  [ ("family_male",
      [ ("total_weight", py_int 3); ("character_count", py_int 1) ]);
    ("family_female",
      [ ("total_weight", py_int 7); ("character_count", py_int 1) ]);
    ("servants",
      [ ("total_weight", py_int 7); ("character_count", py_int 1) ]);
    ("guests",
      [ ("total_weight", py_int 9); ("character_count", py_int 1) ]) ].

(** A complete snapshot around [star_data]. *)
Definition sample_artifact : Artifact :=
  mkArtifact (Present (Accepted star_data)) (Present sample_metrics)
    (Present (Accepted sample_table)) (Present sample_type_analysis).

(** A snapshot whose graph has no nodes. *)
Definition empty_graph_artifact : Artifact :=
  mkArtifact (Present (Accepted empty_data)) (Present sample_metrics)
    (Present (Accepted sample_table)) (Present sample_type_analysis).

(** A snapshot in which 賈母 does not occur. *)
Definition without_jiamu_artifact : Artifact :=
  mkArtifact (Present (Accepted without_jiamu_data)) (Present sample_metrics)
    (Present (Accepted sample_table)) (Present sample_type_analysis).

(** A snapshot in which 賈母 has no neighbour. *)
Definition isolated_artifact : Artifact :=
  mkArtifact (Present (Accepted isolated_data)) (Present sample_metrics)
    (Present (Accepted sample_table)) (Present sample_type_analysis).

(** A snapshot around [heavy_data]. *)
Definition heavy_artifact : Artifact :=
  mkArtifact (Present (Accepted heavy_data)) (Present sample_metrics)
    (Present (Accepted sample_table)) (Present sample_type_analysis).

(** A snapshot around [float_data]. *)
Definition float_artifact : Artifact :=
  mkArtifact (Present (Accepted float_data)) (Present sample_metrics)
    (Present (Accepted sample_table)) (Present sample_type_analysis).

(** The sample snapshot with [rising_table] for its metrics table. *)
Definition rising_artifact : Artifact :=
  mkArtifact (Present (Accepted star_data)) (Present sample_metrics)
    (Present (Accepted rising_table)) (Present sample_type_analysis).

(** The sample snapshot without its [metrics] key. *)
Definition no_metrics_artifact : Artifact :=
  mkArtifact (Present (Accepted star_data)) Missing
    (Present (Accepted sample_table)) (Present sample_type_analysis).

(** The objects the three variants hold after loading a parsed snapshot. *)
Definition page_after (data : Artifact) : Page.App :=
  final (run_on Page.fresh (Page.load_data (Some (Parsed data)))).

Definition page_new_after (data : Artifact) : PageNew.App :=
  final (run_on PageNew.fresh (PageNew.load_data true (Some (Parsed data)))).

Definition page_new1_after (data : Artifact) : PageNew1.App :=
  final (run_on PageNew1.fresh (PageNew1.load_data true (Some (Parsed data)))).

(** [streamlit_page_new.py] holding a given metrics table. *)
Definition loaded_new (df : DataFrame) : PageNew.App :=
  PageNew.mkApp true (Some (json_object sample_artifact))
    (Some (node_link_graph star_data))
    (Some sample_metrics) (Some df) (Some sample_type_analysis).

(** ** Library routines for the examples *)

(** Instances to run the model on examples: the first terms of the series of [cos] and [sin],
    and a float sum from left to right.  No property below depends on what
    they compute. *)
Definition series_libm : Libm := {|
  cos := fun x => (1 - x * x / 2 + x * x * x * x / 24)%float;
  sin := fun x => (x - x * x * x / 6 + x * x * x * x * x / 120)%float;
  cos_0 := eq_refl;
  sin_0 := eq_refl |}.

Definition plain_sum : FloatSum := {|
  float_sum := fun xs => fold_left PrimFloat.add xs 0%float |}.

(* ================================================================== *)
(** * Part II: properties *)
(* ================================================================== *)

Lemma str_in_In x xs : str_in x xs = true <-> In x xs.
Proof.
  unfold str_in. rewrite existsb_exists. split.
  - intros [y [Hy He]]. apply String.eqb_eq in He. now subst.
  - intros H. exists x. split; [assumption | apply String.eqb_refl].
Qed.

Lemma str_in_not_In x xs : str_in x xs = false <-> ~ In x xs.
Proof.
  rewrite <- str_in_In. destruct (str_in x xs); split; intros; congruence.
Qed.

(** ** The classifier *)

(** The loop returns the key of the first entry that lists the character,
    and ['other'] when no entry does. *)
Lemma get_character_type_in_first types c :
  (exists pre t cs post,
      types = pre ++ (t, cs) :: post /\ In c cs /\
      Forall (fun e => ~ In c (snd e)) pre /\
      get_character_type_in types c = t)
  \/ (Forall (fun e => ~ In c (snd e)) types /\
      get_character_type_in types c = "other").
Proof.
  induction types as [| [t cs] rest IH]; simpl.
  - right. split; [constructor | reflexivity].
  - destruct (str_in c cs) eqn:E.
    + left. exists [], t, cs, rest. apply str_in_In in E.
      repeat split; [assumption | constructor].
    + apply str_in_not_In in E.
      destruct IH as [(pre & t' & cs' & post & -> & Hin & Hpre & Hres) | [Hall Hres]].
      * left. exists ((t, cs) :: pre), t', cs', post.
        repeat split; try assumption. constructor; assumption.
      * right. split; [constructor; assumption | assumption].
Qed.

(** C4. [get_character_type] is a total function from strings to the five
    labels.  It tries the lists in the order family_male, family_female,
    servants, guests: the first list that contains the character gives the
    label, and a character in none of them is ['other'].  It consults only
    the static lists, never the graph. *)
Theorem get_character_type_priority (character : string) :
  (In character (members "family_male") ->
     get_character_type character = "family_male") /\
  (~ In character (members "family_male") ->
   In character (members "family_female") ->
     get_character_type character = "family_female") /\
  (~ In character (members "family_male") ->
   ~ In character (members "family_female") ->
   In character (members "servants") ->
     get_character_type character = "servants") /\
  (~ In character (members "family_male") ->
   ~ In character (members "family_female") ->
   ~ In character (members "servants") ->
   In character (members "guests") ->
     get_character_type character = "guests") /\
  (~ In character (members "family_male") ->
   ~ In character (members "family_female") ->
   ~ In character (members "servants") ->
   ~ In character (members "guests") ->
     get_character_type character = "other") /\
  In (get_character_type character)
     ["family_male"; "family_female"; "servants"; "guests"; "other"].
Proof.
  change (get_character_type character) with
    (if str_in character (members "family_male") then "family_male"
     else if str_in character (members "family_female") then "family_female"
     else if str_in character (members "servants") then "servants"
     else if str_in character (members "guests") then "guests"
     else "other").
  pose proof (str_in_In character (members "family_male")) as H1.
  pose proof (str_in_In character (members "family_female")) as H2.
  pose proof (str_in_In character (members "servants")) as H3.
  pose proof (str_in_In character (members "guests")) as H4.
  destruct (str_in character (members "family_male"));
  destruct (str_in character (members "family_female"));
  destruct (str_in character (members "servants"));
  destruct (str_in character (members "guests"));
  repeat split; intros;
    try reflexivity;
    try (exfalso; intuition congruence);
    cbn [In]; auto 6.
Qed.

Lemma get_character_type_priority_witness :
  get_character_type "王熙鳳" = "family_female" /\
  get_character_type "平兒" = "servants" /\
  get_character_type "劉姥姥" = "other".
Proof.
  pose proof (get_character_type_priority "王熙鳳") as (_ & Hff & _).
  pose proof (get_character_type_priority "平兒") as (_ & _ & Hsv & _).
  pose proof (get_character_type_priority "劉姥姥") as (_ & _ & _ & _ & Hot & _).
  split; [| split].
  - apply Hff; first [apply str_in_not_In | apply str_in_In]; reflexivity.
  - apply Hsv; first [apply str_in_not_In | apply str_in_In]; reflexivity.
  - apply Hot; first [apply str_in_not_In | apply str_in_In]; reflexivity.
Defined.

(** ** Sorting *)

Section InsertionSort.

Context {A : Type} (le : A -> A -> bool).

Lemma insert_by_perm x l : Permutation (x :: l) (insert_by le x l).
Proof.
  induction l as [| y l IH]; simpl.
  - apply Permutation_refl.
  - destruct (le x y).
    + apply Permutation_refl.
    + eapply perm_trans; [apply perm_swap |]. now apply perm_skip.
Qed.

Lemma sort_by_perm l : Permutation l (sort_by le l).
Proof.
  induction l as [| x l IH]; simpl.
  - constructor.
  - eapply perm_trans; [apply perm_skip, IH | apply insert_by_perm].
Qed.

Variable R : A -> A -> Prop.
Hypothesis R_trans : forall a b c, R a b -> R b c -> R a c.
Hypothesis le_true : forall a b, le a b = true -> R a b.
Hypothesis le_false : forall a b, le a b = false -> R b a.

Lemma insert_by_sorted x l :
  StronglySorted R l -> StronglySorted R (insert_by le x l).
Proof.
  induction 1 as [| y l Hs IH Hy]; simpl.
  - repeat constructor.
  - destruct (le x y) eqn:E.
    + constructor; [constructor; assumption |].
      constructor; [now apply le_true |].
      eapply Forall_impl; [| exact Hy].
      intros z Hz. eapply R_trans; [apply le_true, E | exact Hz].
    + constructor; [assumption |].
      eapply Permutation_Forall; [apply insert_by_perm |].
      constructor; [now apply le_false | assumption].
Qed.

Lemma sort_by_sorted l : StronglySorted R (sort_by le l).
Proof.
  induction l as [| x l IH]; simpl.
  - constructor.
  - now apply insert_by_sorted.
Qed.

End InsertionSort.

Lemma Qltb_true x y : Qltb x y = true <-> (x < y)%Q.
Proof.
  unfold Qltb. rewrite negb_true_iff. split.
  - intros H. apply Qnot_le_lt. intros Hle.
    apply Qle_bool_iff in Hle. congruence.
  - intros H. destruct (Qle_bool y x) eqn:E; [| reflexivity].
    apply Qle_bool_iff in E. exfalso. now apply (Qlt_not_le x y).
Qed.

Lemma Qltb_false x y : Qltb x y = false <-> (y <= x)%Q.
Proof.
  unfold Qltb. rewrite negb_false_iff. apply Qle_bool_iff.
Qed.

Lemma Qle_bool_false x y : Qle_bool x y = false -> (y <= x)%Q.
Proof.
  intros H. apply Qlt_le_weak, Qnot_le_lt. intros Hle.
  apply Qle_bool_iff in Hle. congruence.
Qed.

Lemma by_weight_trans asc a b c :
  by_weight asc a b -> by_weight asc b c -> by_weight asc a c.
Proof.
  destruct asc; simpl; intros H1 H2; eapply Qle_trans; eassumption.
Qed.

Lemma weight_leb_true asc a b : weight_leb asc a b = true -> by_weight asc a b.
Proof. destruct asc; simpl; apply Qle_bool_iff. Qed.

Lemma weight_leb_false asc a b :
  weight_leb asc a b = false -> by_weight asc b a.
Proof. destruct asc; simpl; apply Qle_bool_false. Qed.

Lemma forallb_true_Forall {A} (f : A -> bool) l :
  forallb f l = true -> Forall (fun x => f x = true) l.
Proof. intros H. apply Forall_forall. now apply forallb_forall. Qed.

(** A list sort that is stable on every list. *)
Definition stable_list_sort : ListSort := {|
  sort_reverse := sort_by strength_geb;
  sort_reverse_perm := sort_by_perm strength_geb;
  sort_reverse_stable := fun l _ => eq_refl |}.

(** [kind='stable'] *)
Definition stable_kind : SortKind := {|
  sort_values := stable_sort;
  sort_values_perm := fun asc df => sort_by_perm (weight_leb asc) df;
  sort_values_sorted := fun asc df =>
    sort_by_sorted (weight_leb asc) (by_weight asc) (by_weight_trans asc)
      (weight_leb_true asc) (weight_leb_false asc) df |}.

(** ** Top rows by weight *)

Lemma Forall_firstn {A} (P : A -> Prop) k l :
  Forall P l -> Forall P (firstn k l).
Proof.
  revert l. induction k as [| k IH]; intros l H; simpl.
  - constructor.
  - destruct H; constructor; [assumption | now apply IH].
Qed.

Lemma StronglySorted_firstn {A} (R : A -> A -> Prop) k l :
  StronglySorted R l -> StronglySorted R (firstn k l).
Proof.
  revert l. induction k as [| k IH]; intros l Hs; simpl.
  - constructor.
  - destruct l as [| x l]; [constructor |].
    inversion Hs; subst. constructor; [now apply IH |].
    now apply Forall_firstn.
Qed.

Lemma jiamu_related_positive df :
  Forall (fun r => (0 < weight_to_jiamu r)%Q) (jiamu_related df).
Proof.
  apply Forall_forall. intros r Hr.
  apply filter_In in Hr. destruct Hr as [_ Hr]. now apply Qltb_true.
Qed.

Lemma top_by_weight_spec (K : SortKind) df k asc :
  List.length (top_by_weight df k asc) <= k /\
  Forall (fun r => (0 < weight_to_jiamu r)%Q) (top_by_weight df k asc) /\
  StronglySorted (by_weight asc) (top_by_weight df k asc) /\
  (List.length (jiamu_related df) <= k ->
   Permutation (jiamu_related df) (top_by_weight df k asc)).
Proof.
  unfold top_by_weight, head.
  pose proof (sort_values_perm asc (jiamu_related df)) as Hp.
  repeat split.
  - apply firstn_le_length.
  - apply Forall_firstn. eapply Permutation_Forall; [exact Hp |].
    apply jiamu_related_positive.
  - apply StronglySorted_firstn, sort_values_sorted.
  - intros Hlen. rewrite firstn_all2; [exact Hp |].
    now rewrite <- (Permutation_length Hp).
Qed.

Lemma Permutation_filter' {A} (f : A -> bool) l1 l2 :
  Permutation l1 l2 -> Permutation (filter f l1) (filter f l2).
Proof.
  induction 1 as [| x l1 l2 H IH | x y l | l1 l2 l3 H1 IH1 H2 IH2]; simpl.
  - constructor.
  - destruct (f x); [constructor |]; assumption.
  - destruct (f x), (f y); try apply Permutation_refl. apply perm_swap.
  - eapply perm_trans; eassumption.
Qed.

(** A list falls into the elements a test keeps and those it drops. *)
Lemma filter_partition {A} (f : A -> bool) l :
  Permutation l (filter f l ++ filter (fun x => negb (f x)) l).
Proof.
  induction l as [| x l IH]; simpl; [constructor |].
  destruct (f x); simpl.
  - now constructor.
  - now apply Permutation_cons_app.
Qed.

Lemma filter_all {A} (f : A -> bool) l :
  Forall (fun x => f x = true) l -> filter f l = l.
Proof.
  induction 1 as [| x l Hx _ IH]; simpl; [reflexivity |].
  now rewrite Hx, IH.
Qed.

Lemma filter_none {A} (f : A -> bool) l :
  Forall (fun x => f x = false) l -> filter f l = [].
Proof.
  induction 1 as [| x l Hx _ IH]; simpl; [reflexivity |].
  now rewrite Hx.
Qed.

(** However the table is split into rows of positive weight and the
    others, the filter keeps the first part. *)
Lemma jiamu_related_split df related others :
  Permutation df (related ++ others) ->
  Forall (fun r => (0 < weight_to_jiamu r)%Q) related ->
  Forall (fun r => (weight_to_jiamu r <= 0)%Q) others ->
  Permutation (jiamu_related df) related.
Proof.
  intros Hp Hr Ho. unfold jiamu_related.
  rewrite (Permutation_filter' _ _ _ Hp), filter_app.
  rewrite filter_all, filter_none, app_nil_r; [reflexivity | |].
  - eapply Forall_impl; [| exact Ho]. intros r. apply Qltb_false.
  - eapply Forall_impl; [| exact Hr]. intros r. apply Qltb_true.
Qed.

(** The rows a ranking leaves out: rows without a positive weight, and,
    once the ranking is full, rows that no row shown is weaker than. *)
Lemma top_by_weight_rest (K : SortKind) df k :
  exists rest,
    Permutation df (top_by_weight df k false ++ rest) /\
    forall r, In r rest ->
      (weight_to_jiamu r <= 0)%Q \/
      (List.length (top_by_weight df k false) = k /\
       forall t, In t (top_by_weight df k false) ->
                 (weight_to_jiamu r <= weight_to_jiamu t)%Q).
Proof.
  set (sorted := sort_values false (jiamu_related df)).
  exists (skipn k sorted
          ++ filter (fun r => negb (Qltb 0 (weight_to_jiamu r))) df).
  unfold top_by_weight, head. fold sorted. split.
  - rewrite app_assoc, firstn_skipn.
    eapply perm_trans; [apply (filter_partition
                                 (fun r => Qltb 0 (weight_to_jiamu r))) |].
    apply Permutation_app_tail. apply sort_values_perm.
  - intros r Hr. apply in_app_or in Hr. destruct Hr as [Hr | Hr].
    + right. split.
      * apply firstn_length_le.
        destruct (Nat.le_gt_cases k (List.length sorted)) as [H | H];
          [exact H |].
        rewrite skipn_all2 in Hr by lia. contradiction.
      * intros t Ht.
        pose proof (sort_values_sorted false (jiamu_related df)) as Hs.
        fold sorted in Hs. rewrite <- (firstn_skipn k sorted) in Hs.
        revert Hs. generalize (firstn k sorted) (skipn k sorted) Ht Hr.
        clear. intros l1. induction l1 as [| x l1 IH]; simpl;
          intros l2 Ht Hr Hs; [contradiction |].
        inversion Hs as [| ? ? Hs' Hall]; subst.
        destruct Ht as [<- | Ht].
        -- rewrite Forall_forall in Hall.
           apply (Hall r), in_or_app. now right.
        -- now apply (IH l2).
    + left. apply filter_In in Hr. destruct Hr as [_ Hr].
      apply negb_true_iff in Hr. now apply Qltb_false.
Qed.

(** C2. For every metrics table, the ranking of [show_relationship_analysis]
    (filter to positive weight, sort descending, [head(10)]) shows at most
    ten rows of the table, every one of weight strictly above 0, in
    non-increasing order of weight.  A row that is left out has no positive
    weight, or ten rows are shown and none of them is weaker.  However the
    table is split into its rows of positive weight and the others: when
    there are at most ten rows of positive weight, the rows shown are
    exactly those.  This holds for whichever sorting routine stands behind
    [sort_values]. *)
Theorem show_relationship_analysis_top_10 (K : SortKind)
    (a : PageNew.App) (df : DataFrame) :
  PageNew.data_loaded a = true ->
  PageNew.df_metrics a = Some df ->
  exists top_10 rest,
    run_on a PageNew.show_relationship_analysis
      = (mkSession a [st_plotly_chart (bar_chart top_10); st_dataframe top_10],
         inr tt) /\
    List.length top_10 <= 10 /\
    Forall (fun r => (0 < weight_to_jiamu r)%Q) top_10 /\
    StronglySorted
      (fun r1 r2 => (weight_to_jiamu r2 <= weight_to_jiamu r1)%Q) top_10 /\
    Permutation df (top_10 ++ rest) /\
    (forall r, In r rest ->
       (weight_to_jiamu r <= 0)%Q \/
       (List.length top_10 = 10 /\
        forall t, In t top_10 ->
                  (weight_to_jiamu r <= weight_to_jiamu t)%Q)) /\
    (forall related others,
        Permutation df (related ++ others) ->
        Forall (fun r => (0 < weight_to_jiamu r)%Q) related ->
        Forall (fun r => (weight_to_jiamu r <= 0)%Q) others ->
        List.length related <= 10 ->
        Permutation related top_10).
Proof.
  intros Hl Hd.
  destruct (top_by_weight_rest K df 10) as (rest & Hp & Hrest).
  destruct (top_by_weight_spec K df 10 false) as (Hlen & Hpos & Hs & Hall).
  exists (top_by_weight df 10 false), rest.
  split; [| repeat apply conj; try assumption].
  - unfold run_on, PageNew.show_relationship_analysis, bind, get_self, st.
    cbn. rewrite Hl, Hd. destruct a; reflexivity.
  - intros related others Hsplit Hr Ho Hn.
    pose proof (jiamu_related_split df related others Hsplit Hr Ho) as Hj.
    eapply perm_trans; [symmetry; exact Hj |].
    apply Hall. now rewrite (Permutation_length Hj).
Qed.

Lemma show_relationship_analysis_top_10_witness :
  exists top_10 rest,
    run_on (loaded_new sample_table)
           (@PageNew.show_relationship_analysis stable_kind)
      = (mkSession (loaded_new sample_table)
           [st_plotly_chart (bar_chart top_10); st_dataframe top_10],
         inr tt) /\
    List.length top_10 <= 10 /\
    Forall (fun r => (0 < weight_to_jiamu r)%Q) top_10 /\
    StronglySorted
      (fun r1 r2 => (weight_to_jiamu r2 <= weight_to_jiamu r1)%Q) top_10 /\
    Permutation sample_table (top_10 ++ rest) /\
    (forall r, In r rest ->
       (weight_to_jiamu r <= 0)%Q \/
       (List.length top_10 = 10 /\
        forall t, In t top_10 ->
                  (weight_to_jiamu r <= weight_to_jiamu t)%Q)) /\
    (forall related others,
        Permutation sample_table (related ++ others) ->
        Forall (fun r => (0 < weight_to_jiamu r)%Q) related ->
        Forall (fun r => (weight_to_jiamu r <= 0)%Q) others ->
        List.length related <= 10 ->
        Permutation related top_10).
Proof.
  apply (show_relationship_analysis_top_10 stable_kind
           (loaded_new sample_table) sample_table); reflexivity.
Defined.

(** In the sample table four of the five rows have a positive weight; the
    ranking shows them from the strongest down, the two of weight 7 in the
    order of the table with the stable routine. *)
Example top_10_of_sample_table :
  map character (@top_by_weight stable_kind sample_table 10 false)
    = ["林黛玉"; "王夫人"; "鴛鴦"; "賈政"].
Proof. reflexivity. Qed.

(** ** Centrality comparison *)

Lemma positive_rows_related table sel :
  positive_rows table sel -> jiamu_related table = sel.
Proof.
  unfold jiamu_related.
  induction 1 as [| r table sel Hr _ IH | r table sel Hr _ IH]; simpl.
  - reflexivity.
  - apply Qltb_true in Hr. rewrite Hr. now f_equal.
  - apply Qltb_false in Hr. now rewrite Hr.
Qed.

(** The head of the filtered table, once [k] rows are found or the table
    is at its end. *)
Lemma head_of_related k scanned rest sel :
  positive_rows scanned sel ->
  List.length sel <= k ->
  rest = [] \/ List.length sel = k ->
  head k (jiamu_related (scanned ++ rest)) = sel.
Proof.
  intros Hsel Hle Hend. unfold head, jiamu_related.
  rewrite filter_app. fold (jiamu_related scanned).
  rewrite (positive_rows_related _ _ Hsel). destruct Hend as [-> | <-].
  - simpl. rewrite app_nil_r. now apply firstn_all2.
  - rewrite firstn_app, firstn_all, Nat.sub_diag. simpl. apply app_nil_r.
Qed.

(** C10. The centrality comparison shows the first rows of positive weight
    in the order of the table, without sorting them: ten in
    [streamlit_page.py], eight in [streamlit_page_new.py].  Let [sel] be
    the rows of positive weight in an initial part [scanned] of the table.
    Once [sel] has ten (eight) rows, the chart holds exactly these
    characters and their four scores, whatever rows follow in [rest], also
    rows stronger than every row shown; if [sel] has fewer rows and the
    table ends there, the chart holds [sel]. *)
Theorem centrality_rows_follow_table_order (scanned rest sel : DataFrame) :
  positive_rows scanned sel ->
  (forall a : Page.App,
      List.length sel <= 10 ->
      rest = [] \/ List.length sel = 10 ->
      Page.df_metrics a = Some (Some (scanned ++ rest)) ->
      run_on a Page.create_centrality_comparison_chart
        = (mkSession a [],
           inr (Some (centrality_chart (map character sel)
                        [ map degree_centrality sel;
                          map betweenness_centrality sel;
                          map closeness_centrality sel;
                          map eigenvector_centrality sel ])))) /\
  (forall a : PageNew.App,
      List.length sel <= 8 ->
      rest = [] \/ List.length sel = 8 ->
      PageNew.data_loaded a = true ->
      PageNew.df_metrics a = Some (scanned ++ rest) ->
      run_on a PageNew.show_centrality_analysis
        = (mkSession a
             [st_plotly_chart
                (centrality_chart (map character sel)
                   [ map degree_centrality sel;
                     map betweenness_centrality sel;
                     map closeness_centrality sel;
                     map eigenvector_centrality sel ])],
           inr tt)).
Proof.
  intros Hsel. split.
  - intros a Hle Hend Hd.
    unfold run_on, Page.create_centrality_comparison_chart, Page.attr,
      bind, get_self, ret.
    cbn -[head jiamu_related]. rewrite Hd. cbn -[head jiamu_related].
    rewrite (head_of_related 10 scanned rest sel Hsel Hle Hend).
    destruct a; reflexivity.
  - intros a Hle Hend Hl Hd.
    unfold run_on, PageNew.show_centrality_analysis, bind, get_self, st.
    cbn -[head jiamu_related]. rewrite Hl, Hd. cbn -[head jiamu_related].
    rewrite (head_of_related 8 scanned rest sel Hsel Hle Hend).
    destruct a; reflexivity.
Qed.

Lemma positive_rows_all table :
  Forall (fun r => (0 < weight_to_jiamu r)%Q) table ->
  positive_rows table table.
Proof.
  induction 1; constructor; assumption.
Qed.

(** In [rising_table] the eleventh row is the strongest; the chart of
    [streamlit_page.py] shows the ten rows before it. *)
Lemma centrality_rows_follow_table_order_witness :
  positive_rows (firstn 10 rising_table) (firstn 10 rising_table) /\
  run_on (page_after rising_artifact) Page.create_centrality_comparison_chart
  = (mkSession (page_after rising_artifact) [],
     inr (Some (centrality_chart (firstn 10 (members "family_male"))
                  [ repeat 0%Q 10; repeat 0%Q 10;
                    repeat 0%Q 10; repeat 0%Q 10 ]))).
Proof.
  assert (Hsel : positive_rows (firstn 10 rising_table)
                               (firstn 10 rising_table)).
  { apply positive_rows_all. repeat constructor. }
  split; [exact Hsel |].
  destruct (centrality_rows_follow_table_order
              (firstn 10 rising_table) (skipn 10 rising_table)
              (firstn 10 rising_table) Hsel) as [H _].
  apply (H (page_after rising_artifact)); [simpl; lia | now right |].
  reflexivity.
Defined.

(** The same table ranked by weight starts with the row the chart leaves
    out. *)
Example ranking_starts_with_the_row_left_out :
  map character (@top_by_weight stable_kind rising_table 10 false)
  = rev (skipn 1 (members "family_male")).
Proof. reflexivity. Qed.

(** ** Dictionaries *)

Lemma dict_mem_In {V} k (d : dict V) : dict_mem k d = true <-> In k (dict_keys d).
Proof. apply str_in_In. Qed.

Lemma dict_mem_not_In {V} k (d : dict V) :
  dict_mem k d = false <-> ~ In k (dict_keys d).
Proof. apply str_in_not_In. Qed.

Lemma dict_keys_set {V} k (v : V) d :
  dict_keys (dict_set k v d)
  = if dict_mem k d then dict_keys d else dict_keys d ++ [k].
Proof.
  induction d as [| [k' v'] d IH]; [reflexivity |].
  unfold dict_mem in *. simpl.
  destruct (String.eqb k k') eqn:E; simpl.
  - apply String.eqb_eq in E. now subst.
  - rewrite IH. now destruct (existsb (String.eqb k) (dict_keys d)).
Qed.

Lemma dict_set_In {V} k (v : V) d k' :
  In k' (dict_keys (dict_set k v d)) <-> k' = k \/ In k' (dict_keys d).
Proof.
  rewrite dict_keys_set. destruct (dict_mem k d) eqn:E.
  - apply dict_mem_In in E. split; [auto | intros [-> | H]; assumption].
  - rewrite in_app_iff. simpl. intuition.
Qed.

Lemma NoDup_snoc {A} (l : list A) x : NoDup l -> ~ In x l -> NoDup (l ++ [x]).
Proof.
  intros Hl Hx. apply NoDup_rev in Hl.
  rewrite <- (rev_involutive (l ++ [x])). apply NoDup_rev.
  rewrite rev_app_distr. simpl. constructor; [| assumption].
  now rewrite <- in_rev.
Qed.

Lemma dict_set_NoDup {V} k (v : V) d :
  NoDup (dict_keys d) -> NoDup (dict_keys (dict_set k v d)).
Proof.
  intros H. rewrite dict_keys_set. destruct (dict_mem k d) eqn:E.
  - assumption.
  - apply NoDup_snoc; [assumption | now apply dict_mem_not_In].
Qed.

Lemma dict_get_set_same {V} k (v : V) d : dict_get k (dict_set k v d) = Some v.
Proof.
  induction d as [| [k' v'] d IH]; simpl.
  - now rewrite String.eqb_refl.
  - destruct (String.eqb k k') eqn:E; simpl.
    + now rewrite String.eqb_refl.
    + now rewrite E.
Qed.

Lemma dict_get_set_other {V} k k' (v : V) d :
  k' <> k -> dict_get k' (dict_set k v d) = dict_get k' d.
Proof.
  intros Hne. induction d as [| [k0 v0] d IH]; simpl.
  - apply String.eqb_neq in Hne. now rewrite Hne.
  - destruct (String.eqb k k0) eqn:E; simpl.
    + apply String.eqb_eq in E. subst k0.
      apply String.eqb_neq in Hne. now rewrite Hne.
    + now rewrite IH.
Qed.

Lemma dict_get_Some_In {V} k (d : dict V) v :
  dict_get k d = Some v -> In (k, v) d.
Proof.
  induction d as [| [k' v'] d IH]; simpl; [discriminate |].
  destruct (String.eqb k k') eqn:E.
  - apply String.eqb_eq in E. intros [= ->]. subst. now left.
  - intros H. right. now apply IH.
Qed.

(** ** Graphs built from a node-link encoding *)

Lemma entry_ok_incl ks ks' e : incl ks ks' -> entry_ok ks e -> entry_ok ks' e.
Proof.
  intros Hi [Hn Hk]. split; [assumption |].
  intros x Hx. apply Hi, Hk, Hx.
Qed.

Lemma add_node_keys n g :
  dict_keys (add_node n g)
  = if dict_mem n g then dict_keys g else dict_keys g ++ [n].
Proof.
  unfold add_node. destruct (dict_mem n g); [reflexivity |].
  unfold dict_keys. now rewrite map_app.
Qed.

Lemma add_node_In n g : In n (dict_keys (add_node n g)).
Proof.
  rewrite add_node_keys. destruct (dict_mem n g) eqn:E.
  - now apply dict_mem_In.
  - apply in_or_app. right. now left.
Qed.

Lemma add_node_incl n g : incl (dict_keys g) (dict_keys (add_node n g)).
Proof.
  rewrite add_node_keys. destruct (dict_mem n g).
  - apply incl_refl.
  - apply incl_appl, incl_refl.
Qed.

Lemma add_node_well_formed n g : well_formed g -> well_formed (add_node n g).
Proof.
  intros [Hn Hf]. split.
  - rewrite add_node_keys. destruct (dict_mem n g) eqn:E; [assumption |].
    apply NoDup_snoc; [assumption | now apply dict_mem_not_In].
  - pose proof (add_node_incl n g) as Hi.
    unfold add_node in *. destruct (dict_mem n g); [assumption |].
    apply Forall_app. split.
    + eapply Forall_impl; [| exact Hf].
      intros e. now apply entry_ok_incl.
    + constructor; [| constructor]. split; simpl.
      * constructor.
      * intros x [].
Qed.

Lemma add_node_loopless n g : loopless g -> loopless (add_node n g).
Proof.
  unfold loopless, add_node. intros H. destruct (dict_mem n g); [assumption |].
  apply Forall_app. split; [assumption |].
  constructor; [| constructor]. simpl. tauto.
Qed.

Lemma adj_set_keys u v w g : dict_keys (adj_set u v w g) = dict_keys g.
Proof.
  induction g as [| [n nbrs] g IH]; [reflexivity |]. simpl.
  destruct (String.eqb u n); simpl; [reflexivity | now rewrite IH].
Qed.

Lemma adj_set_entries ks u v w g :
  In v ks -> Forall (entry_ok ks) g -> Forall (entry_ok ks) (adj_set u v w g).
Proof.
  intros Hv. induction 1 as [| [n nbrs] g He Hg IH]; simpl.
  - constructor.
  - destruct (String.eqb u n).
    + constructor; [| assumption].
      destruct He as [Hn Hi]. split; simpl in *.
      * now apply dict_set_NoDup.
      * intros x Hx. apply dict_set_In in Hx.
        destruct Hx as [-> | Hx]; [assumption | now apply Hi].
    + constructor; assumption.
Qed.

Lemma adj_set_well_formed u v w g :
  In v (dict_keys g) -> well_formed g -> well_formed (adj_set u v w g).
Proof.
  intros Hv [Hn Hf]. split; rewrite adj_set_keys; [assumption |].
  now apply adj_set_entries.
Qed.

Lemma adj_set_loopless u v w g :
  u <> v -> loopless g -> loopless (adj_set u v w g).
Proof.
  intros Hne. unfold loopless.
  induction 1 as [| [n nbrs] g He Hg IH]; simpl.
  - constructor.
  - destruct (String.eqb u n) eqn:E.
    + apply String.eqb_eq in E. subst n.
      constructor; [| assumption]. simpl in *.
      rewrite dict_set_In. intros [H | H]; [congruence | contradiction].
    + constructor; assumption.
Qed.

Lemma add_edge_well_formed u v w g : well_formed g -> well_formed (add_edge u v w g).
Proof.
  intros H. unfold add_edge.
  apply adj_set_well_formed.
  - rewrite adj_set_keys. apply add_node_incl, add_node_In.
  - apply adj_set_well_formed.
    + apply add_node_In.
    + now apply add_node_well_formed, add_node_well_formed.
Qed.

Lemma add_edge_loopless u v w g :
  u <> v -> loopless g -> loopless (add_edge u v w g).
Proof.
  intros Hne H. unfold add_edge.
  apply adj_set_loopless; [congruence |].
  apply adj_set_loopless; [assumption |].
  now apply add_node_loopless, add_node_loopless.
Qed.

Lemma node_link_graph_well_formed data : well_formed (node_link_graph data).
Proof.
  unfold node_link_graph.
  assert (H0 : well_formed
                 (fold_left (fun g n => add_node n g) (nodes data) empty_graph)).
  { generalize (nodes data) as ns.
    assert (He : well_formed empty_graph) by (split; constructor).
    revert He. generalize empty_graph as g.
    intros g He ns. revert g He.
    induction ns as [| n ns IH]; intros g He; simpl; [assumption |].
    apply IH. now apply add_node_well_formed. }
  revert H0. generalize (fold_left (fun g n => add_node n g) (nodes data)
                           empty_graph) as g.
  induction (links data) as [| l ls IH]; intros g Hg; simpl; [assumption |].
  apply IH. now apply add_edge_well_formed.
Qed.

Lemma node_link_graph_loopless data :
  loop_free data -> loopless (node_link_graph data).
Proof.
  unfold node_link_graph, loop_free.
  assert (H0 : loopless
                 (fold_left (fun g n => add_node n g) (nodes data) empty_graph)).
  { generalize (nodes data) as ns.
    assert (He : loopless empty_graph) by constructor.
    revert He. generalize empty_graph as g.
    intros g He ns. revert g He.
    induction ns as [| n ns IH]; intros g He; simpl; [assumption |].
    apply IH. now apply add_node_loopless. }
  revert H0. generalize (fold_left (fun g n => add_node n g) (nodes data)
                           empty_graph) as g.
  induction (links data) as [| l ls IH]; intros g Hg Hl; simpl; [assumption |].
  inversion Hl; subst. apply IH; [| assumption].
  now apply add_edge_loopless.
Qed.

(** ** Density *)

Lemma degree_sum_bound b g :
  Forall (fun e => entry_degree e <= b) g -> degree_sum g <= List.length g * b.
Proof.
  induction 1 as [| e g He Hg IH]; simpl; lia.
Qed.

Lemma loopless_degree_bound g :
  well_formed g -> loopless g ->
  Forall (fun e => entry_degree e <= number_of_nodes g - 1) g.
Proof.
  intros [Hn Hf] Hl. unfold number_of_nodes, loopless in *.
  rewrite Forall_forall in *. intros e He.
  specialize (Hf e He). specialize (Hl e He). destruct Hf as [Hnd Hin].
  unfold entry_degree.
  assert (Hm : dict_mem (fst e) (snd e) = false) by now apply dict_mem_not_In.
  rewrite Hm.
  assert (Hlen : List.length (fst e :: dict_keys (snd e))
                 <= List.length (dict_keys g)).
  { apply NoDup_incl_length.
    - constructor; assumption.
    - intros x [<- | Hx]; [| now apply Hin].
      unfold dict_keys. now apply in_map. }
  unfold dict_keys in Hlen. simpl in Hlen. rewrite !length_map in Hlen. lia.
Qed.

Lemma loopless_edge_bound g :
  well_formed g -> loopless g ->
  2 * number_of_edges g <= number_of_nodes g * (number_of_nodes g - 1).
Proof.
  intros Hw Hl. unfold number_of_edges.
  pose proof (degree_sum_bound _ _ (loopless_degree_bound g Hw Hl)) as Hb.
  fold (number_of_nodes g) in Hb.
  pose proof (Nat.Div0.mul_div_le (degree_sum g) 2). lia.
Qed.

Lemma inject_nat_pos n : 0 < n -> (0 < inject_Z (Z.of_nat n))%Q.
Proof.
  intros H. change 0%Q with (inject_Z 0). rewrite <- Zlt_Qlt. lia.
Qed.

Lemma double_ratio (m d : nat) :
  0 < d ->
  (inject_Z (Z.of_nat m) / inject_Z (Z.of_nat d) * 2
   == inject_Z (Z.of_nat (2 * m)) / inject_Z (Z.of_nat d))%Q.
Proof.
  intros Hd. rewrite Nat2Z.inj_mul, inject_Z_mult.
  change (inject_Z (Z.of_nat 2)) with 2%Q. field.
  intros H0. pose proof (inject_nat_pos d Hd) as Hp.
  rewrite H0 in Hp. now apply (Qlt_irrefl 0).
Qed.

Lemma nx_density_value g :
  2 <= number_of_nodes g ->
  (nx_density g
   == inject_Z (Z.of_nat (2 * number_of_edges g))
      / inject_Z (Z.of_nat (number_of_nodes g * (number_of_nodes g - 1))))%Q.
Proof.
  intros HN. unfold nx_density.
  destruct (number_of_edges g =? 0) eqn:Em; simpl.
  - apply Nat.eqb_eq in Em. rewrite Em. simpl.
    unfold Qdiv. now rewrite Qmult_0_l.
  - destruct (number_of_nodes g <=? 1) eqn:En.
    + apply Nat.leb_le in En. lia.
    + apply double_ratio. nia.
Qed.

(** C9 fails for a graph with a self-loop: two nodes, two edges, density 2. *)
Lemma density_above_one_with_self_loop :
  (nx_density (node_link_graph self_loop_data) == 2)%Q /\
  ~ (nx_density (node_link_graph self_loop_data) <= 1)%Q.
Proof.
  split.
  - reflexivity.
  - vm_compute. intros H. apply H. reflexivity.
Qed.

(** C9, amended.  For every loaded graph with N nodes and E edges,
    [density()] is 0 when N <= 1, equals 2E / (N (N - 1)) when N >= 2, and
    is never negative; it is at most 1 when no link joins a node to itself
    (a self-loop is an edge, and graphs with self-loops can exceed 1). *)
Theorem density_formula_and_range (data : NodeLink) :
  let g := node_link_graph data in
  let N := number_of_nodes g in
  let E := number_of_edges g in
  (N <= 1 -> (nx_density g == 0)%Q) /\
  (2 <= N ->
   (nx_density g
    == inject_Z (Z.of_nat (2 * E)) / inject_Z (Z.of_nat (N * (N - 1))))%Q) /\
  (0 <= nx_density g)%Q /\
  (loop_free data -> (nx_density g <= 1)%Q).
Proof.
  intros g N E. repeat apply conj.
  - intros HN. unfold nx_density. fold g N.
    replace (N <=? 1) with true by (symmetry; now apply Nat.leb_le).
    rewrite orb_true_r. reflexivity.
  - apply nx_density_value.
  - destruct (le_lt_dec N 1) as [HN | HN].
    + unfold nx_density. fold g N.
      replace (N <=? 1) with true by (symmetry; now apply Nat.leb_le).
      rewrite orb_true_r. apply Qle_refl.
    + rewrite (nx_density_value g HN). fold g N E.
      apply Qle_shift_div_l.
      * apply inject_nat_pos. nia.
      * rewrite Qmult_0_l. change 0%Q with (inject_Z 0).
        rewrite <- Zle_Qle. lia.
  - intros Hfree.
    destruct (le_lt_dec N 1) as [HN | HN].
    + unfold nx_density. fold g N.
      replace (N <=? 1) with true by (symmetry; now apply Nat.leb_le).
      rewrite orb_true_r. discriminate.
    + rewrite (nx_density_value g HN). fold g N E.
      apply Qle_shift_div_r.
      * apply inject_nat_pos. nia.
      * rewrite Qmult_1_l, <- Zle_Qle. apply Nat2Z.inj_le.
        apply loopless_edge_bound.
        -- apply node_link_graph_well_formed.
        -- now apply node_link_graph_loopless.
Qed.

Lemma density_formula_and_range_witness :
  (nx_density (node_link_graph star_data) == 2 # 3)%Q /\
  (nx_density (node_link_graph star_data) <= 1)%Q /\
  (nx_density (node_link_graph empty_data) == 0)%Q.
Proof.
  pose proof (density_formula_and_range star_data) as (_ & Hv & _ & Hle).
  pose proof (density_formula_and_range empty_data) as (H0 & _).
  split; [| split].
  - rewrite Hv; [reflexivity | vm_compute; lia].
  - apply Hle. repeat constructor; discriminate.
  - apply H0. vm_compute. lia.
Defined.

(** ** Radial layout *)

Section Layout.

Context {L : Libm}.

Lemma fold_place_other step (l : list string) start pos k :
  ~ In k l ->
  dict_get k (fold_left (place step) (combine (seq start (List.length l)) l) pos)
  = dict_get k pos.
Proof.
  revert start pos. induction l as [| x l IH]; intros start pos Hk; simpl.
  - reflexivity.
  - rewrite IH by (intros H; apply Hk; now right).
    unfold place. simpl. apply dict_get_set_other.
    intros ->. apply Hk. now left.
Qed.

Lemma fold_place_nth step (l : list string) start pos i k :
  NoDup l -> nth_error l i = Some k ->
  dict_get k (fold_left (place step) (combine (seq start (List.length l)) l) pos)
  = Some (py_float (radius * cos (float_of_nat (start + i) * step))%float,
          py_float (radius * sin (float_of_nat (start + i) * step))%float).
Proof.
  revert start pos i. induction l as [| x l IH]; intros start pos i Hnd Hi.
  - destruct i; discriminate.
  - inversion Hnd as [| ? ? Hx Hl]; subst. destruct i as [| i]; simpl in *.
    + injection Hi as ->. rewrite fold_place_other by assumption.
      unfold place. simpl. rewrite Nat.add_0_r. apply dict_get_set_same.
    + rewrite (IH (S start) _ i Hl Hi).
      now replace (S start + i) with (start + S i) by lia.
Qed.

(** Where the layout puts the neighbours, and where it leaves 賈母 when she
    is not among them. *)
Lemma layout_positions (jiamu_neighbors : list string) :
  NoDup jiamu_neighbors ->
  (forall i node,
      nth_error jiamu_neighbors i = Some node ->
      dict_get node (layout jiamu_neighbors)
      = Some (on_circle (List.length jiamu_neighbors) i)) /\
  (~ In jiamu jiamu_neighbors ->
   dict_get jiamu (layout jiamu_neighbors) = Some (py_int 0, py_int 0)).
Proof.
  intros Hnd. unfold layout, enumerate. split.
  - intros i node Hi. now rewrite (fold_place_nth _ _ 0 _ i node Hnd Hi).
  - intros Hj. rewrite fold_place_other by assumption.
    apply dict_get_set_same.
Qed.

(** The first of two points on the circle: the angle is [0 * angle_step],
    which is 0, and the C library is exact there. *)
Lemma on_circle_first : on_circle 2 0 = (py_float 2, py_float 0).
Proof.
  unfold on_circle.
  change (float_of_nat 0 * angle_step 2)%float with 0%float.
  now rewrite cos_0, sin_0.
Qed.

Lemma create_central_network_plot_draws (a : Page.App) g l :
  Page.G a = Some (Some g) ->
  neighbors g jiamu = inr l -> l <> [] ->
  run_on a Page.create_central_network_plot
  = (mkSession a [], inr (Some (network_plot (layout l)))).
Proof.
  intros HG Hn Hl.
  unfold run_on, Page.create_central_network_plot, Page.attr, bind, get_self,
    lift, ret.
  cbn [self page fst snd]. rewrite HG. rewrite Hn.
  destruct l; [congruence |]. destruct a; reflexivity.
Qed.

End Layout.

Lemma neighbors_NoDup data n l :
  neighbors (node_link_graph data) n = inr l -> NoDup l.
Proof.
  unfold neighbors. destruct (dict_get n (node_link_graph data)) eqn:E;
    [| discriminate].
  intros [= <-]. apply dict_get_Some_In in E.
  destruct (node_link_graph_well_formed data) as [_ Hf].
  rewrite Forall_forall in Hf. now destruct (Hf _ E).
Qed.

Lemma self_loop_neighbors :
  neighbors (node_link_graph self_loop_data) jiamu = inr ["賈母"; "王夫人"].
Proof. reflexivity. Qed.

(** C1.  The layout does not keep 賈母 at the origin for a graph with a link
    from 賈母 to herself.  She is then the first of her own neighbours: the
    loop over the neighbours assigns [pos['賈母']] a second time, the point
    of index 0, and the figure is drawn with her at (2.0, 0.0) on the
    circle, which is not (0, 0). *)
Theorem self_loop_puts_jiamu_on_the_circle (L : Libm) :
  let g := node_link_graph self_loop_data in
  neighbors g jiamu = inr ["賈母"; "王夫人"] /\
  forall a : Page.App,
    Page.G a = Some (Some g) ->
    exists pos,
      run_on a Page.create_central_network_plot
      = (mkSession a [], inr (Some (network_plot pos))) /\
      dict_get jiamu pos = Some (py_float 2, py_float 0) /\
      num_eqb (py_float 2) (py_int 0) = false.
Proof.
  intros g. split; [exact self_loop_neighbors |].
  intros a HG. exists (layout ["賈母"; "王夫人"]). split; [| split].
  - apply create_central_network_plot_draws with (g := g);
      [assumption | exact self_loop_neighbors | discriminate].
  - assert (Hnd : NoDup ["賈母"; "王夫人"]).
    { constructor; [| constructor; [intros [] | constructor]].
      intros [H | []]. discriminate H. }
    destruct (layout_positions _ Hnd) as [Hpos _].
    rewrite (Hpos 0 jiamu eq_refl). f_equal. apply on_circle_first.
  - reflexivity.
Qed.

(** Without the link to herself, in the scenario of the specification:
    賈母 stays at (0, 0) and the first neighbour is at (R, 0). *)
Example layout_of_star (L : Libm) :
  dict_get jiamu (layout ["王夫人"; "鴛鴦"]) = Some (py_int 0, py_int 0) /\
  dict_get "王夫人" (layout ["王夫人"; "鴛鴦"])
  = Some (py_float 2, py_float 0) /\
  dict_get "鴛鴦" (layout ["王夫人"; "鴛鴦"])
  = Some (py_float (2 * cos pi)%float, py_float (2 * sin pi)%float).
Proof.
  assert (Hnd : NoDup ["王夫人"; "鴛鴦"]).
  { constructor; [| constructor; [intros [] | constructor]].
    intros [H | []]. discriminate H. }
  destruct (layout_positions _ Hnd) as [Hpos Hc].
  split; [| split].
  - apply Hc. intros [H | [H | []]]; discriminate H.
  - rewrite (Hpos 0 "王夫人" eq_refl). f_equal. apply on_circle_first.
  - rewrite (Hpos 1 "鴛鴦" eq_refl). reflexivity.
Qed.

(** ** Failure paths of the layout *)

(** C6. Where 賈母 is not a node of the graph, [create_central_network_plot]
    of [streamlit_page.py] lets the [NetworkXError] of [G.neighbors] escape
    instead of reporting a failure; [show_simple_network_viz] tests
    membership first and reports.  Where 賈母 has no neighbour both report
    and draw nothing. *)
Theorem layout_without_jiamu_raises (L : Libm) (F : FloatSum) :
  run_on (page_after without_jiamu_artifact) Page.create_central_network_plot
    = (mkSession (page_after without_jiamu_artifact) [],
       inl (NetworkXError jiamu)) /\
  run_on (page_new1_after without_jiamu_artifact)
         (PageNew1.show_simple_network_viz true)
    = (mkSession (page_new1_after without_jiamu_artifact)
         [st_warning "網絡數據不完整"], inr tt) /\
  run_on (page_after isolated_artifact) Page.create_central_network_plot
    = (mkSession (page_after isolated_artifact)
         [st_error "贾母没有直接相连的节点"], inr None) /\
  run_on (page_new1_after isolated_artifact)
         (PageNew1.show_simple_network_viz true)
    = (mkSession (page_new1_after isolated_artifact)
         [st_warning "賈母沒有直接相連的角色"], inr tt).
Proof. repeat split; reflexivity. Qed.

(** ** Loading *)

(** [streamlit_page_new.py] loads every object whose network and table
    are accepted: each attribute follows its own key, and a key that is
    absent leaves only that attribute empty. *)
Lemma page_new_load_data_total (data : Artifact) g df :
  graph_or_none (get_field (a_network data)) = inr g ->
  data_frame_or_none (get_field (a_df_metrics data)) = inr df ->
  run_on PageNew.fresh (PageNew.load_data true (Some (Parsed data)))
  = (mkSession
       (PageNew.mkApp true (Some (json_object data)) g
          (get_field_default (a_metrics data) []) df
          (get_field_default (a_relationship_type_analysis data) []))
       [],
     inr true).
Proof.
  intros Hg Hdf.
  unfold run_on, PageNew.load_data, try_except, bind, json_load, dot_get,
    lift, ret.
  cbn -[graph_or_none data_frame_or_none]. rewrite Hg.
  cbn -[graph_or_none data_frame_or_none]. rewrite Hdf. reflexivity.
Qed.

(** C7. A document without its [metrics] key: [load_data] of
    [streamlit_page.py] stops at the subscript, reports the load as failed,
    drops the graph it had built and never assigns the table, although both
    are in the file; reading the table afterwards raises.  [load_data] of
    [streamlit_page_new.py] loads the same document, with only the metrics
    empty. *)
Theorem missing_metrics_key_fails_the_load :
  run_on Page.fresh (Page.load_data (Some (Parsed no_metrics_artifact)))
    = (mkSession
         (Page.mkApp (Some (json_object no_metrics_artifact)) (Some None) None None
            None)
         [st_error_exc "数据加载失败" (KeyError "metrics")],
       inr tt) /\
  escapes (run_on (page_after no_metrics_artifact)
             Page.create_centrality_comparison_chart)
    = Some (AttributeError "df_metrics") /\
  run_on PageNew.fresh (PageNew.load_data true (Some (Parsed no_metrics_artifact)))
    = (mkSession
         (PageNew.mkApp true (Some (json_object no_metrics_artifact))
            (Some (node_link_graph star_data)) (Some [])
            (Some sample_table) (Some sample_type_analysis))
         [],
       inr true).
Proof. repeat split; reflexivity. Qed.

(** ** Degenerate snapshots *)

(** C8. A snapshot whose graph has no nodes loads, and
    [display_network_statistics] then divides the degree sum by the node
    count: [ZeroDivisionError] escapes and nothing is shown. *)
Theorem statistics_of_empty_graph_raise (P : ListSort) :
  run_on Page.fresh (Page.load_data (Some (Parsed empty_graph_artifact)))
    = (mkSession (page_after empty_graph_artifact) [st_success "数据加载成功！"],
       inr tt) /\
  Page.G (page_after empty_graph_artifact) = Some (Some empty_graph) /\
  run_on (page_after empty_graph_artifact) Page.display_network_statistics
    = (mkSession (page_after empty_graph_artifact) [], inl ZeroDivisionError).
Proof. repeat split; reflexivity. Qed.

(** The same snapshot in [streamlit_page_new.py]: the overview shows
    placeholders. *)
Lemma overview_of_empty_graph :
  shown (run_on (page_new_after empty_graph_artifact)
           PageNew.show_network_overview)
  = [ st_metric "節點數量" PageNew.na; st_metric "邊數量" PageNew.na;
      st_metric "網絡密度" PageNew.na; st_metric "賈母的度" PageNew.na;
      st_metric "度中心性" (v_num 1); st_metric "中介中心性" (v_num (1 # 2));
      st_metric "接近中心性" (v_num 1);
      st_metric "特徵向量中心性" (v_num (7 # 10)) ] /\
  escapes (run_on (page_new_after empty_graph_artifact)
             PageNew.show_network_overview) = None.
Proof. split; reflexivity. Qed.

(** An isolated 賈母 in [streamlit_page_new.py]: the visualisation groups an
    empty frame and [KeyError] escapes. *)
Lemma visualization_of_isolated_jiamu_raises (F : FloatSum) :
  run_on (page_new_after isolated_artifact)
         (PageNew.show_network_visualization true)
  = (mkSession (page_new_after isolated_artifact) [], inl (KeyError "type")).
Proof. reflexivity. Qed.

(** No file at the path: [load_data] of [streamlit_page_new.py] reports it
    and returns [False], the object stays as it was, and every section then
    shows a notice and returns.  ([run] itself does not get as far as
    loading: its environment check raises first.) *)
Lemma missing_file_is_neutral (K : SortKind) (F : FloatSum) (nx : bool)
    (s : PageNew.section) :
  run_on PageNew.fresh (PageNew.load_data nx None)
  = (mkSession PageNew.fresh
       [st_error "❌ 数据文件不存在: output/step3_data.json"], inr false) /\
  exists w ws,
    run_on PageNew.fresh (PageNew.show_section nx s)
    = (mkSession PageNew.fresh (w :: ws), inr tt).
Proof.
  split; [reflexivity |].
  destruct s, nx; do 2 eexists; reflexivity.
Qed.
(** ** Weights grouped by type *)

Lemma group_keys_NoDup l : NoDup (group_keys l).
Proof.
  unfold group_keys.
  eapply Permutation_NoDup; [apply sort_by_perm | apply NoDup_nodup].
Qed.

Lemma group_keys_In l t : In t (group_keys l) <-> exists n, In n l /\ nb_type n = t.
Proof.
  unfold group_keys. split.
  - intros H. eapply Permutation_in in H;
      [| apply Permutation_sym, sort_by_perm].
    apply nodup_In, in_map_iff in H. destruct H as (n & Ht & Hn). eauto.
  - intros (n & Hn & Ht).
    eapply Permutation_in; [apply sort_by_perm |].
    apply nodup_In, in_map_iff. eauto.
Qed.

Lemma summary_of_keys (F : FloatSum) d l ks :
  dict_keys (summary_of d l ks) = ks.
Proof.
  unfold dict_keys, summary_of. rewrite map_map. simpl. apply map_id.
Qed.

(** A frame with at least one record groups into one row per type that
    occurs. *)
Lemma groupby_type_sum_spec (F : FloatSum) (neighbor_data : list Neighbor) :
  neighbor_data <> [] ->
  exists type_summary,
    groupby_type_sum neighbor_data = inr type_summary /\
    NoDup (dict_keys type_summary) /\
    (forall t, In t (dict_keys type_summary)
               <-> exists n, In n neighbor_data /\ nb_type n = t).
Proof.
  intros Hne.
  exists (summary_of (dtype_of (map nb_weight neighbor_data)) neighbor_data
            (group_keys neighbor_data)).
  split; [destruct neighbor_data; [congruence | reflexivity] |].
  rewrite summary_of_keys. split.
  - apply group_keys_NoDup.
  - apply group_keys_In.
Qed.

Lemma dict_get_of_key {V} k (d : dict V) :
  In k (dict_keys d) -> exists v, dict_get k d = Some v.
Proof.
  induction d as [| [k' v'] d IH]; simpl; [tauto |].
  intros [-> | H].
  - rewrite String.eqb_refl. eauto.
  - destruct (String.eqb k k'); eauto.
Qed.

Lemma bind_ok {S A B} (m : M S A) (k : A -> M S B) s s' a :
  m s = (s', inr a) -> bind m k s = k a s'.
Proof. intros H. unfold bind. now rewrite H. Qed.

(** The records built for the neighbours of 賈母: one per neighbour, in
    order, each with the weight of its edge. *)
Lemma neighbor_records_run {S} classify g nbrs (l : list string) (s : session S) :
  dict_get jiamu g = Some nbrs ->
  incl l (dict_keys nbrs) ->
  exists neighbor_data,
    neighbor_records classify g l s = (s, inr neighbor_data) /\
    map nb_character neighbor_data = l /\
    Forall (fun n => dict_get (nb_character n) nbrs = Some (nb_weight n) /\
                     nb_type n = classify (nb_character n)) neighbor_data.
Proof.
  intros Hg. induction l as [| x l IH]; intros Hin.
  - exists []. repeat split. constructor.
  - destruct IH as (nd & Hrun & Hmap & Hall).
    { intros y Hy. apply Hin. now right. }
    destruct (dict_get_of_key x nbrs) as [w Hw]; [apply Hin; now left |].
    exists (mkNeighbor x w (classify x) :: nd).
    split; [| split].
    + unfold neighbor_records in *. cbn [map_m].
      rewrite (bind_ok _ _ s s (mkNeighbor x w (classify x))).
      * now rewrite (bind_ok _ _ s s nd Hrun).
      * unfold bind, lift, edge_weight, ret. now rewrite Hg, Hw.
    + simpl. now rewrite Hmap.
    + constructor; [split; [exact Hw | reflexivity] | exact Hall].
Qed.

Lemma dict_get_mem {V} k (d : dict V) v : dict_get k d = Some v -> dict_mem k d = true.
Proof.
  intros H. apply dict_mem_In. apply dict_get_Some_In in H.
  unfold dict_keys. now apply (in_map fst) in H.
Qed.

Lemma for_each_st {S A} (f : A -> widget) (l : list A) (s : session S) :
  for_each l (fun x => st (f x)) s
  = (mkSession (self s) (page s ++ map f l), inr tt).
Proof.
  revert s. induction l as [| x l IH]; intros s; simpl.
  - unfold ret. rewrite app_nil_r. now destruct s.
  - unfold bind, st at 1. rewrite IH. simpl.
    now rewrite <- app_assoc.
Qed.

Lemma records_follow_dict (nbrs : dict number) (nd : list Neighbor) :
  NoDup (dict_keys nbrs) ->
  map nb_character nd = dict_keys nbrs ->
  Forall (fun n => dict_get (nb_character n) nbrs = Some (nb_weight n)) nd ->
  map nb_weight nd = map snd nbrs.
Proof.
  revert nd. induction nbrs as [| [k v] d IH]; intros nd Hnd Hc Hw.
  - destruct nd; [reflexivity | discriminate].
  - destruct nd as [| n nd]; [discriminate |].
    unfold dict_keys in *. cbn [map fst snd] in *.
    injection Hc as Hk Hc.
    inversion Hnd as [| ? ? Hnk Hnd']; subst.
    inversion Hw as [| ? ? Hn Hw']; subst.
    cbn [dict_get] in Hn. rewrite String.eqb_refl in Hn. injection Hn as <-.
    f_equal. apply IH; [assumption | assumption |].
    rewrite Forall_forall in *. intros m Hm. specialize (Hw' m Hm).
    cbn [dict_get] in Hw'.
    destruct (String.eqb (nb_character m) (nb_character n)) eqn:E;
      [| assumption].
    apply String.eqb_eq in E. exfalso. apply Hnk.
    rewrite <- Hc, <- E. now apply in_map.
Qed.

(** The summary computed from the neighbours of 賈母 in a loaded graph. *)
Lemma type_summary_of_neighbors {S} (F : FloatSum) classify data nbrs
    (s : session S) :
  dict_get jiamu (node_link_graph data) = Some nbrs ->
  nbrs <> [] ->
  exists neighbor_data type_summary,
    neighbor_records classify (node_link_graph data) (dict_keys nbrs) s
      = (s, inr neighbor_data) /\
    groupby_type_sum neighbor_data = inr type_summary /\
    aggregates classify nbrs neighbor_data type_summary.
Proof.
  intros Hg Hne.
  destruct (neighbor_records_run classify _ nbrs (dict_keys nbrs) s Hg)
    as (nd & Hrun & Hc & Hall); [apply incl_refl |].
  assert (Hnd : nd <> []).
  { intros ->. destruct nbrs; [congruence | discriminate]. }
  destruct (groupby_type_sum_spec F nd Hnd) as (ts & Hts & Hk & Hin).
  assert (Hnodup : NoDup (dict_keys nbrs)).
  { apply (neighbors_NoDup data jiamu). unfold neighbors. now rewrite Hg. }
  assert (Hw : map nb_weight nd = map snd nbrs).
  { apply records_follow_dict; [assumption | assumption |].
    eapply Forall_impl; [| exact Hall]. now intros n [H _]. }
  exists nd, ts. split; [exact Hrun |]. split; [exact Hts |].
  repeat split; try assumption.
  - eapply Forall_impl; [| exact Hall]. now intros n [_ H].
  - intros Ht. apply Hin in Ht. destruct Ht as (n & Hn & Ht).
    rewrite Forall_forall in Hall. destruct (Hall n Hn) as [_ Hty].
    exists (nb_character n). split; [| congruence].
    rewrite <- Hc. now apply in_map.
  - intros (c & Hcin & Ht). apply Hin.
    rewrite <- Hc in Hcin. apply in_map_iff in Hcin.
    destruct Hcin as (n & Hn & Hnin). exists n. split; [assumption |].
    rewrite Forall_forall in Hall. destruct (Hall n Hnin) as [_ Hty].
    congruence.
Qed.

(** *** Integer weights *)

Lemma wrap64_add_l a b : wrap64 (wrap64 a + b) = wrap64 (a + b).
Proof. unfold wrap64. Z.div_mod_to_equations. lia. Qed.

Lemma wrap64_fits a : fits_int64 a -> wrap64 a = a.
Proof. unfold wrap64, fits_int64. intros H. Z.div_mod_to_equations. lia. Qed.

Lemma wrap64_mod a : (wrap64 a mod 2 ^ 64 = a mod 2 ^ 64)%Z.
Proof. unfold wrap64. Z.div_mod_to_equations. lia. Qed.

(** The loop over an int64 group: the low 64 bits of the sum. *)
Lemma fold_wrap64 l a :
  fold_left (fun acc n => wrap64 (acc + n)) l (wrap64 a)
  = wrap64 (a + fold_right Z.add 0%Z l).
Proof.
  revert a. induction l as [| x l IH]; intros a; simpl.
  - now rewrite Z.add_0_r.
  - rewrite wrap64_add_l, IH. now rewrite Z.add_assoc.
Qed.

Lemma records_of_ints classify ws nd :
  map nb_character nd = dict_keys (ints ws) ->
  map nb_weight nd = map snd (ints ws) ->
  Forall (fun n => nb_type n = classify (nb_character n)) nd ->
  nd = records_of classify ws.
Proof.
  revert nd. induction ws as [| [c w] ws IH]; intros [| n nd] Hc Hw Ht;
    try discriminate; [reflexivity |].
  simpl in Hc, Hw. injection Hc as Hc1 Hc. injection Hw as Hw1 Hw.
  inversion Ht as [| ? ? Ht1 Ht']; subst.
  simpl. f_equal; [| now apply IH].
  destruct n as [c' w' t']. simpl in *. now subst.
Qed.

Lemma dtype_of_records classify ws :
  dtype_of (map nb_weight (records_of classify ws)) = int64.
Proof.
  unfold dtype_of.
  replace (forallb is_py_int (map nb_weight (records_of classify ws)))
    with true; [reflexivity |].
  induction ws as [| e ws IH]; simpl; [reflexivity | exact IH].
Qed.

Lemma frame_rows_records classify ws :
  frame_rows (records_of classify ws) = records_of classify ws.
Proof.
  unfold frame_rows. rewrite dtype_of_records.
  induction ws as [| e ws IH]; simpl; [reflexivity | now f_equal].
Qed.

Lemma sum_of_type classify t ws :
  fold_right Z.add 0%Z
    (map to_int (map nb_weight (of_type t (records_of classify ws))))
  = category_total classify t ws.
Proof.
  unfold of_type, category_total.
  induction ws as [| e ws IH]; simpl; [reflexivity |].
  destruct (String.eqb (classify (fst e)) t); simpl; now rewrite IH.
Qed.

Lemma sum_weights_records (F : FloatSum) classify t ws :
  sum_weights int64 (of_type t (records_of classify ws))
  = py_int (wrap64 (category_total classify t ws)).
Proof.
  unfold sum_weights, column_sum.
  change 0%Z with (wrap64 0) at 1.
  now rewrite fold_wrap64, sum_of_type.
Qed.

Lemma groupby_records (F : FloatSum) classify ws :
  ws <> [] ->
  groupby_type_sum (records_of classify ws)
  = inr (ints (totals_of classify ws)).
Proof.
  intros Hne. unfold groupby_type_sum.
  destruct (records_of classify ws) eqn:E.
  - destruct ws; [congruence | discriminate].
  - rewrite <- E, dtype_of_records. f_equal.
    unfold summary_of, ints, totals_of. rewrite map_map.
    apply map_ext. intros t. now rewrite sum_weights_records.
Qed.

Lemma category_total_cons classify t e ws :
  category_total classify t (e :: ws)
  = ((if String.eqb (classify (fst e)) t then snd e else 0)
     + category_total classify t ws)%Z.
Proof.
  unfold category_total. simpl.
  now destruct (String.eqb (classify (fst e)) t).
Qed.

(** Every weight is counted under one key. *)
Lemma total_categories classify ws ks :
  NoDup ks ->
  (forall e, In e ws -> In (classify (fst e)) ks) ->
  total (map (fun t => (t, category_total classify t ws)) ks) = total ws.
Proof.
  intros Hnd. induction ws as [| e ws IH]; intros Hin.
  - clear. induction ks as [| k ks IH]; simpl; [reflexivity |].
    now rewrite IH.
  - simpl. rewrite <- IH by (intros e' He'; apply Hin; now right).
    assert (Hk : str_in (classify (fst e)) ks = true).
    { apply str_in_In, Hin. now left. }
    revert Hk. clear -Hnd.
    induction Hnd as [| k ks Hk Hnd IH]; intros Hin; [discriminate |].
    simpl. rewrite category_total_cons.
    unfold str_in in Hin. cbn [existsb] in Hin.
    fold (str_in (classify (fst e)) ks) in Hin.
    destruct (String.eqb (classify (fst e)) k) eqn:E.
    + apply String.eqb_eq in E. subst k.
      assert (Hz : total (map (fun t => (t, category_total classify t
                                                (e :: ws))) ks)
                   = total (map (fun t => (t, category_total classify t ws))
                                ks)).
      { clear -Hk. induction ks as [| k ks IH]; simpl; [reflexivity |].
        rewrite category_total_cons.
        destruct (String.eqb (classify (fst e)) k) eqn:E.
        - apply String.eqb_eq in E. exfalso. apply Hk. now left.
        - rewrite IH; [lia |]. intros H. apply Hk. now right. }
      rewrite Hz. lia.
    + simpl in Hin. rewrite (IH Hin). lia.
Qed.

Lemma total_cons (e : string * Z) d : total (e :: d) = (snd e + total d)%Z.
Proof. reflexivity. Qed.

Lemma total_wrapped (f : string -> Z) ks :
  (total (map (fun t => (t, wrap64 (f t))) ks) mod 2 ^ 64
   = total (map (fun t => (t, f t)) ks) mod 2 ^ 64)%Z.
Proof.
  induction ks as [| k ks IH]; [reflexivity |].
  cbn [map]. rewrite !total_cons. cbn [snd].
  assert (Hm : (2 ^ 64 <> 0)%Z) by (apply Z.pow_nonzero; lia).
  rewrite (Z.add_mod (wrap64 (f k))), wrap64_mod, IH by exact Hm.
  now rewrite <- Z.add_mod by exact Hm.
Qed.

Lemma In_records classify ws n :
  In n (records_of classify ws)
  <-> exists e, In e ws /\
                n = mkNeighbor (fst e) (py_int (snd e)) (classify (fst e)).
Proof.
  unfold records_of. rewrite in_map_iff. split; intros (e & H1 & H2).
  - exists e. now split.
  - exists e. now split.
Qed.

Lemma totals_of_summarises classify ws :
  summarises classify ws (totals_of classify ws).
Proof.
  assert (Hkeys : dict_keys (totals_of classify ws)
                  = group_keys (records_of classify ws)).
  { unfold dict_keys, totals_of. rewrite map_map. simpl. apply map_id. }
  assert (Hcover : forall e, In e ws ->
                     In (classify (fst e))
                        (group_keys (records_of classify ws))).
  { intros e He. apply group_keys_In.
    exists (mkNeighbor (fst e) (py_int (snd e)) (classify (fst e))).
    split; [| reflexivity]. apply In_records. eauto. }
  unfold summarises. rewrite Hkeys. repeat apply conj.
  - apply group_keys_NoDup.
  - intros t. rewrite group_keys_In. split.
    + intros (n & Hn & Ht). apply In_records in Hn.
      destruct Hn as (e & He & ->). exists (fst e). split; [| exact Ht].
      unfold dict_keys. now apply in_map.
    + intros (c & Hc & Ht). unfold dict_keys in Hc.
      apply in_map_iff in Hc. destruct Hc as (e & <- & He).
      exists (mkNeighbor (fst e) (py_int (snd e)) (classify (fst e))).
      split; [| exact Ht]. apply In_records. eauto.
  - intros t v Hin. unfold totals_of in Hin. apply in_map_iff in Hin.
    destruct Hin as (t' & H & _). now injection H as <- <-.
  - unfold totals_of. rewrite total_wrapped.
    now rewrite total_categories by (apply group_keys_NoDup || exact Hcover).
  - intros Hfit. unfold totals_of.
    rewrite <- (total_categories classify ws
                  (group_keys (records_of classify ws)))
      by (apply group_keys_NoDup || exact Hcover).
    f_equal. apply map_ext. intros t. now rewrite wrap64_fits.
Qed.

(** The records and the summary for integer weights. *)
Lemma type_summary_of_ints {S} (F : FloatSum) classify data ws
    (s : session S) :
  dict_get jiamu (node_link_graph data) = Some (ints ws) ->
  ws <> [] ->
  neighbor_records classify (node_link_graph data) (dict_keys (ints ws)) s
    = (s, inr (records_of classify ws)) /\
  groupby_type_sum (records_of classify ws)
    = inr (ints (totals_of classify ws)).
Proof.
  intros Hg Hne.
  destruct (type_summary_of_neighbors F classify data (ints ws) s Hg)
    as (nd & ts & Hrun & _ & (Hc & Hw & Ht & _)).
  { destruct ws; [congruence | discriminate]. }
  rewrite (records_of_ints classify ws nd Hc Hw Ht) in Hrun.
  split; [exact Hrun | now apply groupby_records].
Qed.

(** *** Sums of floats *)

Lemma digits2_pos_bound m : (Z.pos m < 2 ^ Z.pos (digits2_pos m))%Z.
Proof.
  induction m as [m IH | m IH |]; cbn [digits2_pos];
    rewrite ?Pos2Z.inj_succ, ?Z.pow_succ_r by lia; lia.
Qed.

(** The mantissa of a binary64 value has at most 53 bits. *)
Lemma finite_mantissa_bound s m e :
  SpecFloat.valid_binary prec emax (S754_finite s m e) = true ->
  (Z.pos m < 2 ^ 53)%Z.
Proof.
  unfold SpecFloat.valid_binary, bounded, canonical_mantissa, fexp.
  intros H. apply andb_prop in H. destruct H as [H _].
  apply Z.eqb_eq in H.
  assert (Hd : (Z.pos (digits2_pos m) <= 53)%Z) by (unfold prec in H; lia).
  eapply Z.lt_le_trans; [apply digits2_pos_bound |].
  apply Z.pow_le_mono_r; lia.
Qed.

Lemma pow2_odd (k : positive) : Z.odd (Z.pos (2 ^ k)) = false.
Proof.
  rewrite Pos2Z.inj_pow. rewrite Z.odd_pow by lia. reflexivity.
Qed.

(** A fraction in lowest terms whose numerator needs more than 53 bits is
    no binary64 value. *)
Lemma odd_not_float (M k : positive) (x : float) :
  Z.odd (Z.pos M) = true -> (2 ^ 53 <= Z.pos M)%Z ->
  ~ denotes (py_float x) (Z.pos M # 2 ^ k).
Proof.
  intros Hodd Hbig. unfold denotes, value_of, float_value.
  pose proof (Prim2SF_valid x) as Hv.
  destruct (Prim2SF x) as [s | s | | s m e].
  - unfold Qeq. cbn. lia.
  - destruct s; intros H; exact H.
  - intros H; exact H.
  - apply finite_mantissa_bound in Hv.
    assert (Hpar : forall a b : Z, (a * Z.pos (2 ^ k) = Z.pos M * b)%Z ->
                                   Z.odd b = true -> False).
    { intros a b Hab Hb.
      assert (E : Z.odd (a * Z.pos (2 ^ k)) = Z.odd (Z.pos M * b))
        by now rewrite Hab.
      rewrite !Z.odd_mul, Hodd, Hb, pow2_odd, andb_false_r in E.
      discriminate. }
    destruct e as [| p | p].
    + intros H. unfold Qeq in H. cbn in H.
      apply (Hpar (if s then Z.neg m else Z.pos m) 1%Z); [| reflexivity].
      rewrite Pos.mul_1_r in H. lia.
    + rewrite Qpower_decomp_pos. intros H. unfold Qeq in H.
      cbn [Qnum Qden Qmult inject_Z] in H.
      assert (H1 : (1 ^ p = 1)%positive).
      { apply Pos2Z.inj. rewrite Pos2Z.inj_pow. apply Z.pow_1_l. lia. }
      rewrite H1 in H.
      assert (Hs : s = false).
      { destruct s; [| reflexivity]. exfalso.
        assert (0 < 2 ^ Z.pos p)%Z by (apply Z.pow_pos_nonneg; lia).
        nia. }
      subst s.
      assert (E : Z.odd (Z.pos m * 2 ^ Z.pos p * Z.pos (2 ^ k))
                  = Z.odd (Z.pos M)).
      { f_equal. lia. }
      rewrite !Z.odd_mul, Hodd, pow2_odd, andb_false_r in E.
      discriminate.
    + rewrite Qpower_decomp_neg_pos. intros H. unfold Qeq in H.
      cbn [Qnum Qden Qmult inject_Z] in H.
      rewrite Z.pow_1_l in H by lia. rewrite Pos.mul_1_l in H.
      destruct s; [lia |].
      rewrite Z.mul_1_r in H.
      rewrite !Pos2Z.inj_pow in H.
      destruct (Z.le_gt_cases (Z.pos k) (Z.pos p)) as [Hkp | Hkp].
      * assert (Hle : (2 ^ Z.pos k <= 2 ^ Z.pos p)%Z)
          by (apply Z.pow_le_mono_r; lia).
        assert (0 < 2 ^ Z.pos k)%Z by (apply Z.pow_pos_nonneg; lia).
        nia.
      * replace (Z.pos k) with (Z.pos p + (Z.pos k - Z.pos p))%Z in H by lia.
        rewrite Z.pow_add_r in H by lia.
        assert (Hp : (0 < 2 ^ Z.pos p)%Z) by (apply Z.pow_pos_nonneg; lia).
        assert (Hm : (Z.pos M = Z.pos m * 2 ^ (Z.pos k - Z.pos p))%Z) by nia.
        assert (E : Z.odd (Z.pos M)
                    = Z.odd (Z.pos m * 2 ^ (Z.pos k - Z.pos p)))
          by now rewrite <- Hm.
        rewrite Hodd, Z.odd_mul in E.
        rewrite (Z.odd_pow 2 (Z.pos k - Z.pos p)) in E by lia.
        cbn in E. rewrite andb_false_r in E. discriminate.
Qed.

Lemma denotes_Qeq x q q' : q == q' -> denotes x q' -> denotes x q.
Proof.
  unfold denotes. intros Hq.
  destruct (value_of x) as [[| p |] |]; try tauto.
  intros H. now rewrite Hq.
Qed.

(** No binary64 value is the sum of the two that stand for 0.1 and 0.2. *)
Lemma sum_of_tenth_and_fifth_not_float (x : float) :
  ~ denotes (py_float x)
      ((3602879701896397 # 36028797018963968)
       + (3602879701896397 # 18014398509481984)).
Proof.
  intros H.
  apply (odd_not_float 10808639105689191 55 x);
    [reflexivity | vm_compute; discriminate |].
  eapply denotes_Qeq; [| exact H]. reflexivity.
Qed.




(** The scenario of the specification in both variants. *)
Example type_summary_of_star (F : FloatSum) :
  shown (run_on (page_new_after sample_artifact)
           (PageNew.show_network_visualization true))
  = [ st_plotly_chart
        (pie_chart [("family_female", py_int 3); ("servants", py_int 5)]);
      st_neighbor (mkNeighbor "王夫人" (py_int 3) "family_female");
      st_neighbor (mkNeighbor "鴛鴦" (py_int 5) "servants") ] /\
  shown (run_on (page_new1_after sample_artifact)
           (PageNew1.show_simple_network_viz true))
  = [ st_plotly_chart (pie_chart [("僕人", py_int 3); ("客人", py_int 5)]);
      st_neighbor (mkNeighbor "王夫人" (py_int 3) "僕人");
      st_neighbor (mkNeighbor "鴛鴦" (py_int 5) "客人") ].
Proof. split; reflexivity. Qed.

(** A float among the weights makes the column float64: every cell is a
    float, also those read as ints, and the sums are those of the
    parameter. *)
Example type_summary_of_floats (F : FloatSum) :
  groupby_type_sum
    [ mkNeighbor "王夫人" (py_int 3) "family_female";
      mkNeighbor "邢夫人" (py_float 0.5) "family_female" ]
  = inr [("family_female", py_float (float_sum [3%float; 0.5%float]))] /\
  frame_rows
    [ mkNeighbor "王夫人" (py_int 3) "family_female";
      mkNeighbor "邢夫人" (py_float 0.5) "family_female" ]
  = [ mkNeighbor "王夫人" (py_float 3) "family_female";
      mkNeighbor "邢夫人" (py_float 0.5) "family_female" ].
Proof. split; reflexivity. Qed.

(** ** Reconstruction of the graph: nodes *)

Lemma add_node_keys_In n m g :
  In m (dict_keys (add_node n g)) <-> m = n \/ In m (dict_keys g).
Proof.
  rewrite add_node_keys. destruct (dict_mem n g) eqn:E.
  - apply dict_mem_In in E. split; [auto | intros [-> | H]; assumption].
  - rewrite in_app_iff. simpl. intuition.
Qed.

Lemma add_edge_keys_In u v w m g :
  In m (dict_keys (add_edge u v w g))
  <-> m = u \/ m = v \/ In m (dict_keys g).
Proof.
  unfold add_edge. rewrite !adj_set_keys, !add_node_keys_In. tauto.
Qed.

Lemma fold_add_node_In ns g m :
  In m (dict_keys (fold_left (fun g n => add_node n g) ns g))
  <-> In m ns \/ In m (dict_keys g).
Proof.
  revert g. induction ns as [| n ns IH]; intros g; simpl.
  - tauto.
  - rewrite IH, add_node_keys_In. intuition.
Qed.

Lemma fold_add_edge_In ls g m :
  In m (dict_keys
          (fold_left (fun g l => add_edge (source l) (target l) (weight l) g)
             ls g))
  <-> (exists l, In l ls /\ (source l = m \/ target l = m))
      \/ In m (dict_keys g).
Proof.
  revert g. induction ls as [| l ls IH]; intros g; simpl.
  - split; [auto | intros [(l & [] & _) | H]; assumption].
  - rewrite IH, add_edge_keys_In. split.
    + intros [(l' & Hl' & He) | [-> | [-> | H]]]; eauto 6.
    + intros [(l' & [<- | Hl'] & He) | H]; [| eauto | auto].
      destruct He as [<- | <-]; auto.
Qed.

(** X1. The nodes of the reconstructed graph are exactly the names the
    node-link encoding mentions, as a node or as an end point of a link. *)
Theorem node_link_graph_nodes (data : NodeLink) (n : string) :
  dict_mem n (node_link_graph data) = true <-> mentioned data n.
Proof.
  rewrite dict_mem_In. unfold node_link_graph, mentioned.
  rewrite fold_add_edge_In, fold_add_node_In. simpl. tauto.
Qed.

(** ** Reconstruction of the graph: weights *)

Lemma dict_get_app_None {V} k (d d' : dict V) :
  dict_get k d = None -> dict_get k (d ++ d') = dict_get k d'.
Proof.
  induction d as [| [k' v'] d IH]; simpl; [reflexivity |].
  destruct (String.eqb k k'); [discriminate | assumption].
Qed.

Lemma dict_get_app_Some {V} k (d d' : dict V) v :
  dict_get k d = Some v -> dict_get k (d ++ d') = Some v.
Proof.
  induction d as [| [k' v'] d IH]; simpl; [discriminate |].
  destruct (String.eqb k k'); [trivial | assumption].
Qed.

Lemma dict_get_None_not_In {V} k (d : dict V) :
  dict_get k d = None <-> ~ In k (dict_keys d).
Proof.
  split.
  - intros H Hin. destruct (dict_get_of_key k d Hin) as [v Hv]. congruence.
  - intros H. destruct (dict_get k d) eqn:E; [| reflexivity].
    exfalso. apply H. apply dict_get_Some_In in E.
    unfold dict_keys. now apply (in_map fst) in E.
Qed.

Lemma weight_of_add_node n g u v :
  well_formed g -> weight_of (add_node n g) u v = weight_of g u v.
Proof.
  intros Hw. unfold add_node, weight_of.
  destruct (dict_mem n g) eqn:E; [reflexivity |].
  destruct (dict_get u g) eqn:Eu.
  - now rewrite (dict_get_app_Some _ _ _ _ Eu).
  - rewrite (dict_get_app_None _ _ _ Eu). simpl.
    destruct (String.eqb u n); reflexivity.
Qed.

Lemma dict_get_adj_set u v w g a :
  dict_get a (adj_set u v w g)
  = if String.eqb a u then option_map (dict_set v w) (dict_get u g)
    else dict_get a g.
Proof.
  induction g as [| [n nbrs] g IH]; simpl.
  - now destruct (String.eqb a u).
  - destruct (String.eqb u n) eqn:Eun; simpl.
    + apply String.eqb_eq in Eun. subst n.
      destruct (String.eqb a u); reflexivity.
    + rewrite IH. destruct (String.eqb a u) eqn:Eau.
      * apply String.eqb_eq in Eau. subst a. now rewrite Eun.
      * reflexivity.
Qed.

Lemma weight_of_adj_set u v w g a b :
  In u (dict_keys g) ->
  weight_of (adj_set u v w g) a b
  = if String.eqb a u && String.eqb b v then Some w else weight_of g a b.
Proof.
  intros Hu. unfold weight_of. rewrite dict_get_adj_set.
  destruct (String.eqb a u) eqn:Eau; simpl; [| reflexivity].
  apply String.eqb_eq in Eau. subst a.
  destruct (dict_get_of_key u g Hu) as [nbrs Hn]. rewrite Hn. simpl.
  destruct (String.eqb b v) eqn:Ebv.
  - apply String.eqb_eq in Ebv. subst b. apply dict_get_set_same.
  - apply dict_get_set_other. intros ->. now rewrite String.eqb_refl in Ebv.
Qed.

Lemma weight_of_add_edge u v w g a b :
  well_formed g ->
  weight_of (add_edge u v w g) a b
  = if (String.eqb a u && String.eqb b v) || (String.eqb a v && String.eqb b u)
    then Some w else weight_of g a b.
Proof.
  intros Hw. unfold add_edge.
  rewrite weight_of_adj_set
    by (rewrite adj_set_keys; apply add_node_In).
  rewrite weight_of_adj_set by (apply add_node_incl, add_node_In).
  rewrite !weight_of_add_node
    by (try apply add_node_well_formed; assumption).
  destruct (String.eqb a v && String.eqb b u);
    destruct (String.eqb a u && String.eqb b v); reflexivity.
Qed.

Lemma fold_add_node_well_formed ns g :
  well_formed g -> well_formed (fold_left (fun g n => add_node n g) ns g).
Proof.
  revert g. induction ns as [| n ns IH]; intros g H; simpl; [assumption |].
  now apply IH, add_node_well_formed.
Qed.

Lemma weight_of_fold_add_node ns g u v :
  well_formed g ->
  weight_of (fold_left (fun g n => add_node n g) ns g) u v = weight_of g u v.
Proof.
  revert g. induction ns as [| n ns IH]; intros g H; simpl; [reflexivity |].
  rewrite IH by now apply add_node_well_formed.
  now apply weight_of_add_node.
Qed.

Lemma add_edge_symmetric u v w g :
  well_formed g -> symmetric g -> symmetric (add_edge u v w g).
Proof.
  intros Hw Hs a b. rewrite !weight_of_add_edge by assumption.
  rewrite (Hs a b).
  destruct (String.eqb a u), (String.eqb b v), (String.eqb a v),
    (String.eqb b u); reflexivity.
Qed.

Lemma fold_add_edge_invariant (P : Graph -> Prop) ls g :
  (forall u v w g, well_formed g -> P g -> P (add_edge u v w g)) ->
  well_formed g -> P g ->
  P (fold_left (fun g l => add_edge (source l) (target l) (weight l) g) ls g).
Proof.
  intros Hstep. revert g. induction ls as [| l ls IH]; intros g Hw Hp; simpl.
  - assumption.
  - apply IH; [now apply add_edge_well_formed | now apply Hstep].
Qed.

Lemma empty_graph_well_formed : well_formed empty_graph.
Proof. split; constructor. Qed.

Lemma node_link_graph_symmetric data : symmetric (node_link_graph data).
Proof.
  unfold node_link_graph. apply fold_add_edge_invariant.
  - intros u v w g. apply add_edge_symmetric.
  - apply fold_add_node_well_formed, empty_graph_well_formed.
  - intros u v. rewrite !weight_of_fold_add_node
      by apply empty_graph_well_formed.
    reflexivity.
Qed.

Lemma edge_weight_weight_of g u v w :
  edge_weight g u v = inr w <-> weight_of g u v = Some w.
Proof.
  unfold edge_weight, weight_of.
  destruct (dict_get u g); [| split; discriminate].
  destruct (dict_get v d); split; intros H; inversion H; reflexivity.
Qed.

(** X2. In the reconstructed graph the weight read from [u] to [v] is the
    weight read from [v] to [u]. *)
Theorem edge_weight_symmetric (data : NodeLink) (u v : string)
    (w : number) :
  edge_weight (node_link_graph data) u v = inr w
  <-> edge_weight (node_link_graph data) v u = inr w.
Proof.
  rewrite !edge_weight_weight_of. now rewrite node_link_graph_symmetric.
Qed.

Lemma weight_of_fold_add_edge ls g acc u v :
  well_formed g ->
  weight_of g u v = option_map weight acc ->
  weight_of
    (fold_left (fun g l => add_edge (source l) (target l) (weight l) g) ls g)
    u v
  = option_map weight
      (fold_left (fun acc l => if joinsb l u v then Some l else acc) ls acc).
Proof.
  revert g acc. induction ls as [| l ls IH]; intros g acc Hw Hg; simpl.
  - assumption.
  - apply IH; [now apply add_edge_well_formed |].
    rewrite weight_of_add_edge by assumption. unfold joinsb.
    destruct ((String.eqb u (source l) && String.eqb v (target l))
              || (String.eqb u (target l) && String.eqb v (source l)));
      [reflexivity | assumption].
Qed.

Lemma weight_of_node_link_graph (data : NodeLink) (u v : string) :
  weight_of (node_link_graph data) u v
  = option_map weight (last_joining (links data) u v).
Proof.
  unfold node_link_graph, last_joining. apply weight_of_fold_add_edge.
  - apply fold_add_node_well_formed, empty_graph_well_formed.
  - rewrite weight_of_fold_add_node by apply empty_graph_well_formed.
    reflexivity.
Qed.

(** X3. The weight the reconstructed graph holds for a pair of nodes is the
    weight of the last link of the file that joins them, in either
    direction; a pair that no link joins has no edge. *)
Theorem node_link_graph_weights (data : NodeLink) (u v : string) :
  edge_weight (node_link_graph data) u v
  = match last_joining (links data) u v with
    | Some l => inr (weight l)
    | None =>
        inl (KeyError (if dict_mem u (node_link_graph data) then v else u))
    end.
Proof.
  pose proof (weight_of_node_link_graph data u v) as H.
  unfold weight_of in H. unfold edge_weight.
  destruct (dict_get u (node_link_graph data)) as [d |] eqn:Eu.
  - rewrite (dict_get_mem _ _ _ Eu). rewrite H.
    now destruct (last_joining (links data) u v).
  - assert (Hm : dict_mem u (node_link_graph data) = false).
    { apply dict_mem_not_In. now apply dict_get_None_not_In. }
    rewrite Hm. now destruct (last_joining (links data) u v).
Qed.

Lemma joinsb_joins l u v : joinsb l u v = true <-> joins l u v.
Proof.
  unfold joinsb, joins.
  rewrite orb_true_iff, !andb_true_iff, !String.eqb_eq.
  intuition congruence.
Qed.

Lemma fold_pick_Some ls acc u v :
  (exists l, fold_left (fun acc l => if joinsb l u v then Some l else acc)
               ls acc = Some l)
  <-> (exists l, In l ls /\ joinsb l u v = true) \/ (exists l, acc = Some l).
Proof.
  revert acc. induction ls as [| l ls IH]; intros acc; simpl.
  - split; [auto | intros [(l & [] & _) | H]; assumption].
  - rewrite IH. split.
    + intros [(l' & Hl' & Hj) | (l' & Hl')]; [eauto 6 |].
      destruct (joinsb l u v) eqn:E; eauto 6.
    + intros [(l' & [<- | Hl'] & Hj) | (l' & ->)]; [| eauto |].
      * rewrite Hj. eauto.
      * destruct (joinsb l u v); eauto.
Qed.

(** X4. The neighbours of a node are exactly the nodes that some link of
    the file joins to it; each occurs once. *)
Theorem neighbors_are_the_linked (data : NodeLink) (u : string)
    (nbrs : list string) :
  neighbors (node_link_graph data) u = inr nbrs ->
  NoDup nbrs /\
  forall v, In v nbrs <-> exists l, In l (links data) /\ joins l u v.
Proof.
  intros Hn. split; [now apply (neighbors_NoDup data u) |].
  intros v. unfold neighbors in Hn.
  destruct (dict_get u (node_link_graph data)) as [d |] eqn:Eu;
    [| discriminate].
  injection Hn as <-.
  pose proof (weight_of_node_link_graph data u v) as Hw.
  unfold weight_of in Hw. rewrite Eu in Hw.
  assert (Hiff : In v (dict_keys d)
                 <-> exists l, last_joining (links data) u v = Some l).
  { split.
    - intros Hin. destruct (dict_get_of_key v d Hin) as [q Hq].
      rewrite Hq in Hw. destruct (last_joining (links data) u v); [eauto |].
      discriminate.
    - intros [l Hl]. rewrite Hl in Hw. simpl in Hw.
      apply dict_get_Some_In in Hw. unfold dict_keys.
      now apply (in_map fst) in Hw. }
  rewrite Hiff. unfold last_joining. rewrite fold_pick_Some.
  split.
  - intros [(l & Hl & Hj) | (l & Hl)]; [| discriminate].
    exists l. split; [assumption | now apply joinsb_joins].
  - intros (l & Hl & Hj). left. exists l.
    split; [assumption | now apply joinsb_joins].
Qed.

Lemma neighbors_are_the_linked_witness :
  NoDup ["王夫人"; "鴛鴦"] /\
  forall v, In v ["王夫人"; "鴛鴦"]
            <-> exists l, In l (links star_data) /\ joins l jiamu v.
Proof.
  apply (neighbors_are_the_linked star_data jiamu). reflexivity.
Defined.

(** ** Methods that only read *)

Lemma read_only_ret {S A} (a : A) : read_only (@ret S A a).
Proof. intros s. split; [reflexivity | exists []; now rewrite app_nil_r]. Qed.

Lemma read_only_raise {S A} e : read_only (@raise S A e).
Proof. intros s. split; [reflexivity | exists []; now rewrite app_nil_r]. Qed.

Lemma read_only_lift {S A} (r : exn + A) : read_only (@lift S A r).
Proof. intros s. split; [reflexivity | exists []; now rewrite app_nil_r]. Qed.

Lemma read_only_get_self {S} : read_only (@get_self S).
Proof. intros s. split; [reflexivity | exists []; now rewrite app_nil_r]. Qed.

Lemma read_only_st {S} w : read_only (@st S w).
Proof. intros s. split; [reflexivity | now exists [w]]. Qed.

Lemma read_only_bind {S A B} (m : M S A) (k : A -> M S B) :
  read_only m -> (forall a, read_only (k a)) -> read_only (bind m k).
Proof.
  intros Hm Hk s. unfold bind. destruct (Hm s) as [Hs [ws Hp]].
  destruct (m s) as [s' [e | a]]; simpl in *.
  - split; [assumption | eauto].
  - destruct (Hk a s') as [Hs' [ws' Hp']].
    split; [congruence |]. exists (ws ++ ws').
    now rewrite Hp', Hp, app_assoc.
Qed.

Lemma read_only_for_each {S A} (l : list A) (body : A -> M S unit) :
  (forall x, read_only (body x)) -> read_only (for_each l body).
Proof.
  intros Hb. induction l as [| x l IH]; simpl.
  - apply read_only_ret.
  - apply read_only_bind; [apply Hb | intros _; exact IH].
Qed.

Lemma read_only_map_m {S A B} (f : A -> M S B) (l : list A) :
  (forall x, read_only (f x)) -> read_only (map_m f l).
Proof.
  intros Hf. induction l as [| x l IH]; simpl.
  - apply read_only_ret.
  - apply read_only_bind; [apply Hf |]. intros y.
    apply read_only_bind; [exact IH |]. intros ys. apply read_only_ret.
Qed.

Lemma read_only_true_div {S} a b : read_only (@true_div S a b).
Proof.
  unfold true_div. destruct (b =? 0);
    [apply read_only_raise | apply read_only_ret].
Qed.

Ltac read_only_step :=
  first
    [ apply read_only_ret | apply read_only_raise | apply read_only_lift
    | apply read_only_get_self | apply read_only_st | apply read_only_true_div
    | apply read_only_bind; [| intros ?]
    | apply read_only_for_each; intros ?
    | apply read_only_map_m; intros ?
    | match goal with
      | |- read_only (match ?x with _ => _ end) => destruct x
      | |- read_only (if ?b then _ else _) => destruct b
      end ].

Ltac read_only_tac := repeat read_only_step.

Lemma read_only_attr {A} name (proj : Page.App -> option A) :
  read_only (Page.attr name proj).
Proof. unfold Page.attr. read_only_tac. Qed.

Lemma read_only_neighbor_records {S} classify g l :
  read_only (@neighbor_records S classify g l).
Proof. unfold neighbor_records. read_only_tac. Qed.

Lemma read_only_chart_or_error fig text :
  read_only (Page.chart_or_error fig text).
Proof. unfold Page.chart_or_error. read_only_tac. Qed.

Lemma read_only_dot_get {S A} (key : Artifact -> field A) doc :
  read_only (@dot_get S A key doc).
Proof. unfold dot_get. read_only_tac. Qed.

Lemma read_only_create_central_network_plot (L : Libm) :
  read_only Page.create_central_network_plot.
Proof.
  unfold Page.create_central_network_plot.
  apply read_only_bind; [apply read_only_attr | intros g].
  read_only_tac.
Qed.

Lemma read_only_create_relationship_strength_chart (K : SortKind) :
  read_only Page.create_relationship_strength_chart.
Proof.
  unfold Page.create_relationship_strength_chart.
  apply read_only_bind; [apply read_only_attr | intros g].
  read_only_tac.
Qed.

Lemma read_only_create_centrality_comparison_chart :
  read_only Page.create_centrality_comparison_chart.
Proof.
  unfold Page.create_centrality_comparison_chart.
  apply read_only_bind; [apply read_only_attr | intros g].
  read_only_tac.
Qed.

Lemma read_only_page_views (K : SortKind) (L : Libm) (P : ListSort) :
  read_only Page.create_central_network_plot /\
  read_only Page.create_relationship_strength_chart /\
  read_only Page.create_relationship_type_chart /\
  read_only Page.create_centrality_comparison_chart /\
  read_only Page.display_network_statistics /\
  read_only Page.show_network_diagram /\
  read_only Page.show_relationship_analysis /\
  read_only Page.show_centrality_metrics /\
  read_only Page.show_about.
Proof.
  repeat apply conj.
  - apply read_only_create_central_network_plot.
  - apply read_only_create_relationship_strength_chart.
  - unfold Page.create_relationship_type_chart.
    apply read_only_bind; [apply read_only_attr | intros g].
    read_only_tac.
  - apply read_only_create_centrality_comparison_chart.
  - unfold Page.display_network_statistics.
    apply read_only_bind; [apply read_only_attr | intros g].
    destruct g as [g |]; [| apply read_only_st].
    apply read_only_bind; [apply read_only_true_div | intros ?].
    apply read_only_bind; [apply read_only_lift | intros ?].
    apply read_only_bind; [apply read_only_map_m; intros ?; read_only_tac |].
    intros ?. repeat (apply read_only_bind; [apply read_only_st | intros ?]).
    apply read_only_bind.
    + apply read_only_for_each. intros ?.
      apply read_only_bind; [apply read_only_attr | intros ?].
      read_only_tac.
    + intros ?. apply read_only_for_each. intros ?. apply read_only_st.
  - unfold Page.show_network_diagram.
    apply read_only_bind;
      [apply read_only_create_central_network_plot | intros ?].
    apply read_only_chart_or_error.
  - unfold Page.show_relationship_analysis.
    apply read_only_bind;
      [apply read_only_create_relationship_strength_chart | intros ?].
    apply read_only_bind; [apply read_only_chart_or_error | intros ?].
    apply read_only_bind; [apply read_only_attr | intros ?].
    read_only_tac.
  - unfold Page.show_centrality_metrics.
    apply read_only_bind;
      [apply read_only_create_centrality_comparison_chart | intros ?].
    apply read_only_chart_or_error.
  - unfold Page.show_about.
    apply read_only_bind; [apply read_only_attr | intros ?].
    read_only_tac.
Qed.

Lemma read_only_page_new_views (K : SortKind) (F : FloatSum) (nx : bool) :
  read_only PageNew.show_network_overview /\
  read_only PageNew.show_relationship_analysis /\
  read_only (PageNew.show_network_visualization nx) /\
  read_only PageNew.show_centrality_analysis.
Proof.
  repeat apply conj.
  - unfold PageNew.show_network_overview. read_only_tac.
  - unfold PageNew.show_relationship_analysis. read_only_tac.
  - unfold PageNew.show_network_visualization.
    apply read_only_bind; [apply read_only_get_self | intros a].
    destruct (if PageNew.data_loaded a && nx then PageNew.G a else None);
      [| read_only_tac].
    destruct (graph_truthy g && dict_mem jiamu g); [| apply read_only_ret].
    apply read_only_bind; [apply read_only_lift | intros ?].
    apply read_only_bind; [apply read_only_neighbor_records | intros ?].
    read_only_tac.
  - unfold PageNew.show_centrality_analysis. read_only_tac.
Qed.

Lemma read_only_page_new1_views (K : SortKind) (F : FloatSum)
    (nx plotly : bool) :
  read_only (PageNew1.show_network_stats nx) /\
  read_only (PageNew1.show_relationship_analysis plotly) /\
  read_only (PageNew1.show_simple_network_viz plotly).
Proof.
  repeat apply conj.
  - unfold PageNew1.show_network_stats. read_only_tac.
  - unfold PageNew1.show_relationship_analysis.
    apply read_only_bind; [apply read_only_get_self | intros a].
    destruct (negb (PageNew1.data_loaded a && plotly)); [apply read_only_st |].
    apply read_only_bind; [read_only_tac | intros doc].
    apply read_only_bind; [apply read_only_dot_get | intros rows].
    read_only_tac.
  - unfold PageNew1.show_simple_network_viz.
    apply read_only_bind; [apply read_only_get_self | intros a].
    destruct (negb (PageNew1.data_loaded a && plotly)); [apply read_only_st |].
    destruct (match PageNew1.G a with
              | Some g => if dict_mem jiamu g then Some g else None
              | None => None
              end); [| apply read_only_st].
    apply read_only_bind; [apply read_only_lift | intros l].
    destruct l; [apply read_only_st |].
    apply read_only_bind; [apply read_only_neighbor_records | intros ?].
    read_only_tac.
Qed.

(** X5. No view of the three variants changes the loaded object: whatever
    the state, and whether the view returns or raises, the object after the
    call is the object before it and the page has only grown. *)
Theorem views_are_read_only (K : SortKind) (F : FloatSum) (L : Libm)
    (P : ListSort) (nx plotly : bool) :
  (read_only Page.create_central_network_plot /\
   read_only Page.create_relationship_strength_chart /\
   read_only Page.create_relationship_type_chart /\
   read_only Page.create_centrality_comparison_chart /\
   read_only Page.display_network_statistics /\
   read_only Page.show_network_diagram /\
   read_only Page.show_relationship_analysis /\
   read_only Page.show_centrality_metrics /\
   read_only Page.show_about) /\
  (read_only PageNew.show_network_overview /\
   read_only PageNew.show_relationship_analysis /\
   read_only (PageNew.show_network_visualization nx) /\
   read_only PageNew.show_centrality_analysis) /\
  (read_only (PageNew1.show_network_stats nx) /\
   read_only (PageNew1.show_relationship_analysis plotly) /\
   read_only (PageNew1.show_simple_network_viz plotly)).
Proof.
  exact (conj (read_only_page_views K L P)
           (conj (read_only_page_new_views K F nx)
                 (read_only_page_new1_views K F nx plotly))).
Qed.

(** ** Outcomes of loading *)

Lemma page_load_data_cases (f : option file) :
  let r := run_on Page.fresh (Page.load_data f) in
  escapes r = None /\
  Page.G (final r) <> None /\
  (page_loadable f = true ->
   exists data g df,
     f = Some (Parsed data) /\
     graph_or_none (get_field (a_network data)) = inr g /\
     data_frame_or_none (get_field (a_df_metrics data)) = inr df /\
     shown r = [st_success "数据加载成功！"] /\
     final r
     = Page.mkApp (Some (json_object data)) (Some g)
         (Some (get_field (a_metrics data))) (Some df)
         (Some (get_field_default (a_relationship_type_analysis data) []))) /\
  (page_loadable f = false ->
   (exists e, shown r = [st_error_exc "数据加载失败" e]) /\
   Page.G (final r) = Some None /\
   Page.df_metrics (final r) = None /\
   Page.relationship_type_analysis (final r) = None).
Proof.
  destruct f as [[| | [nw m df rta]] |]; cbn zeta;
    [| | destruct nw as [| | [nl | e]], m, df as [| | [[| r rs] | e']] |];
    (split; [reflexivity |]); (split; [discriminate |]);
    (split; intros H; try discriminate H);
    try (do 3 eexists; split; [reflexivity |];
         split; [reflexivity |]; split; [reflexivity |];
         split; reflexivity);
    (split; [eexists; reflexivity |]); repeat split.
Qed.

(** X6. [load_data] of [streamlit_page.py] never raises and always leaves
    [self.G] assigned.  It reaches its success message exactly when the
    file is there and holds a JSON object that has the keys [network],
    [metrics] and [df_metrics] and whose network and table the constructors
    accept; every attribute then holds what the document gives.  In every
    other case (no file, no JSON, JSON that is not an object, a missing key,
    a value that a constructor rejects) it shows one error with the
    exception caught, [self.G] is [None], and the table and the type
    analysis stay unassigned. *)
Theorem page_load_data_outcome (f : option file) :
  let r := run_on Page.fresh (Page.load_data f) in
  escapes r = None /\
  Page.G (final r) <> None /\
  (page_loadable f = true ->
   exists data g df,
     f = Some (Parsed data) /\
     graph_or_none (get_field (a_network data)) = inr g /\
     data_frame_or_none (get_field (a_df_metrics data)) = inr df /\
     shown r = [st_success "数据加载成功！"] /\
     final r
     = Page.mkApp (Some (json_object data)) (Some g)
         (Some (get_field (a_metrics data))) (Some df)
         (Some (get_field_default (a_relationship_type_analysis data) []))) /\
  (page_loadable f = false ->
   (exists e, shown r = [st_error_exc "数据加载失败" e]) /\
   Page.G (final r) = Some None /\
   Page.df_metrics (final r) = None /\
   Page.relationship_type_analysis (final r) = None).
Proof. exact (page_load_data_cases f). Qed.

(** A table that [pd.DataFrame] rejects, in a document that is complete
    otherwise: the load fails after the graph was built.  The sample
    snapshot loads. *)
Lemma page_load_data_outcome_witness :
  (exists e,
      shown (run_on Page.fresh
               (Page.load_data
                  (Some (Parsed (mkArtifact (Present (Accepted star_data))
                                   (Present sample_metrics)
                                   (Present (Rejected ValueError))
                                   (Present sample_type_analysis))))))
      = [st_error_exc "数据加载失败" e]) /\
  Page.G (final (run_on Page.fresh
                   (Page.load_data
                      (Some (Parsed (mkArtifact (Present (Accepted star_data))
                                       (Present sample_metrics)
                                       (Present (Rejected ValueError))
                                       (Present sample_type_analysis)))))))
  = Some None /\
  shown (run_on Page.fresh (Page.load_data (Some (Parsed sample_artifact))))
  = [st_success "数据加载成功！"].
Proof.
  destruct (page_load_data_outcome
              (Some (Parsed (mkArtifact (Present (Accepted star_data))
                               (Present sample_metrics)
                               (Present (Rejected ValueError))
                               (Present sample_type_analysis)))))
    as (_ & _ & _ & H).
  destruct (H eq_refl) as (He & HG & _).
  split; [exact He |]. split; [exact HG |].
  destruct (page_load_data_outcome (Some (Parsed sample_artifact)))
    as (_ & _ & Hs & _).
  destruct (Hs eq_refl) as (data & g & df & _ & _ & _ & Hshown & _).
  exact Hshown.
Defined.

(** X7. After a load that failed, the views of [streamlit_page.py] that
    read the graph report that it is unavailable and return, and the views
    that read the metrics table or the type analysis raise
    [AttributeError], because the attribute was never assigned. *)
Theorem page_views_after_failed_load (K : SortKind) (L : Libm)
    (P : ListSort) (f : option file) :
  page_loadable f = false ->
  let a := final (run_on Page.fresh (Page.load_data f)) in
  run_on a Page.show_network_diagram
  = (mkSession a [st_error "网络数据不可用"; st_error "無法生成關係網絡圖"],
     inr tt) /\
  run_on a Page.display_network_statistics
  = (mkSession a [st_error "网络数据不可用"], inr tt) /\
  run_on a Page.show_about = (mkSession a [], inr tt) /\
  run_on a Page.show_relationship_analysis
  = (mkSession a [], inl (AttributeError "df_metrics")) /\
  run_on a Page.show_centrality_metrics
  = (mkSession a [], inl (AttributeError "df_metrics")) /\
  run_on a Page.create_relationship_type_chart
  = (mkSession a [], inl (AttributeError "relationship_type_analysis")).
Proof.
  intros Hf a.
  destruct (page_load_data_cases f) as (_ & _ & _ & Hfail).
  destruct (Hfail Hf) as (_ & HG & Hdf & Hrta). fold a in HG, Hdf, Hrta.
  destruct a as [sd g m df rta]. simpl in HG, Hdf, Hrta. subst.
  repeat split; reflexivity.
Qed.

Lemma page_views_after_failed_load_witness :
  run_on (page_after no_metrics_artifact)
         (@Page.show_relationship_analysis stable_kind)
  = (mkSession (page_after no_metrics_artifact) [],
     inl (AttributeError "df_metrics")).
Proof.
  apply (page_views_after_failed_load stable_kind series_libm
           stable_list_sort (Some (Parsed no_metrics_artifact))).
  reflexivity.
Defined.

Lemma page_new_load_data_cases (nx : bool) (f : option file)
    (a : PageNew.App) :
  let r := run_on a (PageNew.load_data nx f) in
  escapes r = None /\
  returned r = Some (page_new_loadable nx f) /\
  match f with
  | None =>
      shown r = [st_error "❌ 数据文件不存在: output/step3_data.json"] /\
      final r = a
  | Some Unparsable =>
      shown r = [st_error_exc "❌ 数据加载失败" JSONDecodeError] /\ final r = a
  | Some NotAnObject =>
      shown r = [st_error_exc "❌ 数据加载失败" (AttributeError "get")] /\
      final r
      = (if nx then PageNew.set_step3_data (Some json_other) a
         else PageNew.set_G None (PageNew.set_step3_data (Some json_other) a))
  | Some (Parsed data) =>
      match graph_or_none (if nx then get_field (a_network data) else None),
            data_frame_or_none (get_field (a_df_metrics data)) with
      | inr g, inr df =>
          shown r = [] /\
          final r
          = PageNew.mkApp true (Some (json_object data)) g
              (get_field_default (a_metrics data) []) df
              (get_field_default (a_relationship_type_analysis data) [])
      | inl e, _ =>
          shown r = [st_error_exc "❌ 数据加载失败" e] /\
          final r = PageNew.set_step3_data (Some (json_object data)) a
      | inr g, inl e =>
          shown r = [st_error_exc "❌ 数据加载失败" e] /\
          final r
          = PageNew.set_metrics (get_field_default (a_metrics data) [])
              (PageNew.set_G g
                 (PageNew.set_step3_data (Some (json_object data)) a))
      end
  end.
Proof.
  destruct f as [[| | [nw m df rta]] |]; cbn zeta.
  - repeat split.
  - destruct nx; repeat split.
  - destruct nx, nw as [| | [nl | e]], df as [| | [[| r rs] | e']];
      repeat split.
  - repeat split.
Qed.

(** X8. [load_data] of [streamlit_page_new.py] never raises.  Without a
    file, or with a file that is not JSON, it shows one error, returns
    [False] and leaves the object untouched.  A JSON document is assigned to
    [self.step3_data] before it is read.  If it is not an object, or if
    [nx.node_link_graph] or [pd.DataFrame] rejects what it is given, the
    error is shown, [False] is returned and the object keeps what was
    assigned up to there, with [data_loaded] as before.  Otherwise [True] is
    returned and every attribute follows its own key of the document
    ([self.G] only if networkx is available). *)
Theorem page_new_load_data_outcome (nx : bool) (f : option file)
    (a : PageNew.App) :
  let r := run_on a (PageNew.load_data nx f) in
  escapes r = None /\
  returned r = Some (page_new_loadable nx f) /\
  match f with
  | None =>
      shown r = [st_error "❌ 数据文件不存在: output/step3_data.json"] /\
      final r = a
  | Some Unparsable =>
      shown r = [st_error_exc "❌ 数据加载失败" JSONDecodeError] /\ final r = a
  | Some NotAnObject =>
      shown r = [st_error_exc "❌ 数据加载失败" (AttributeError "get")] /\
      final r
      = (if nx then PageNew.set_step3_data (Some json_other) a
         else PageNew.set_G None (PageNew.set_step3_data (Some json_other) a))
  | Some (Parsed data) =>
      match graph_or_none (if nx then get_field (a_network data) else None),
            data_frame_or_none (get_field (a_df_metrics data)) with
      | inr g, inr df =>
          shown r = [] /\
          final r
          = PageNew.mkApp true (Some (json_object data)) g
              (get_field_default (a_metrics data) []) df
              (get_field_default (a_relationship_type_analysis data) [])
      | inl e, _ =>
          shown r = [st_error_exc "❌ 数据加载失败" e] /\
          final r = PageNew.set_step3_data (Some (json_object data)) a
      | inr g, inl e =>
          shown r = [st_error_exc "❌ 数据加载失败" e] /\
          final r
          = PageNew.set_metrics (get_field_default (a_metrics data) [])
              (PageNew.set_G g
                 (PageNew.set_step3_data (Some (json_object data)) a))
      end
  end.
Proof. exact (page_new_load_data_cases nx f a). Qed.

Lemma page_new1_load_data_cases (nx : bool) (f : option file)
    (a : PageNew1.App) :
  let r := run_on a (PageNew1.load_data nx f) in
  escapes r = None /\
  returned r = Some (page_new1_loadable nx f) /\
  match f with
  | None =>
      shown r = [st_warning "数据文件不存在，将使用演示数据"] /\ final r = a
  | Some Unparsable =>
      shown r = [st_error_exc "数据加载失败" JSONDecodeError] /\ final r = a
  | Some NotAnObject =>
      if nx then
        shown r = [st_error_exc "数据加载失败" (AttributeError "get")] /\
        final r = PageNew1.set_data (Some json_other) a
      else
        shown r = [] /\
        final r = PageNew1.mkApp true (Some json_other) (PageNew1.G a)
  | Some (Parsed data) =>
      match graph_or_none (if nx then get_field (a_network data) else None)
      with
      | inr g =>
          shown r = [] /\
          final r
          = PageNew1.mkApp true (Some (json_object data))
              (match g with Some g => Some g | None => PageNew1.G a end)
      | inl e =>
          shown r = [st_error_exc "数据加载失败" e] /\
          final r = PageNew1.set_data (Some (json_object data)) a
      end
  end.
Proof.
  destruct f as [[| | [nw m df rta]] |]; cbn zeta.
  - repeat split.
  - destruct nx; repeat split.
  - destruct nx, nw as [| | [nl | e]]; repeat split.
  - repeat split.
Qed.

(** X9. [load_data] of [stream_page_new1.py] never raises.  Without a file,
    or with a file that is not JSON, it shows a notice, returns [False]
    and leaves the object untouched.  A JSON document is assigned to
    [self.data] before it is read, and it is read only when networkx is
    available: then a document that is not an object, or a network that
    [nx.node_link_graph] rejects, ends in the error and [False], with
    [self.data] assigned.  Otherwise [True] is returned, also for a
    document that is not an object when networkx is missing; [self.G] is
    assigned only when networkx is available and the document has a
    network, and keeps the graph the object held before otherwise. *)
Theorem page_new1_load_data_outcome (nx : bool) (f : option file)
    (a : PageNew1.App) :
  let r := run_on a (PageNew1.load_data nx f) in
  escapes r = None /\
  returned r = Some (page_new1_loadable nx f) /\
  match f with
  | None =>
      shown r = [st_warning "数据文件不存在，将使用演示数据"] /\ final r = a
  | Some Unparsable =>
      shown r = [st_error_exc "数据加载失败" JSONDecodeError] /\ final r = a
  | Some NotAnObject =>
      if nx then
        shown r = [st_error_exc "数据加载失败" (AttributeError "get")] /\
        final r = PageNew1.set_data (Some json_other) a
      else
        shown r = [] /\
        final r = PageNew1.mkApp true (Some json_other) (PageNew1.G a)
  | Some (Parsed data) =>
      match graph_or_none (if nx then get_field (a_network data) else None)
      with
      | inr g =>
          shown r = [] /\
          final r
          = PageNew1.mkApp true (Some (json_object data))
              (match g with Some g => Some g | None => PageNew1.G a end)
      | inl e =>
          shown r = [st_error_exc "数据加载失败" e] /\
          final r = PageNew1.set_data (Some (json_object data)) a
      end
  end.
Proof. exact (page_new1_load_data_cases nx f a). Qed.

(** ** Guards *)

(** X10. While nothing is loaded, every view of [streamlit_page_new.py]
    and of [stream_page_new1.py] shows a notice and returns: nothing is
    read from the object and nothing is raised. *)
Theorem unloaded_views_only_report (K : SortKind) (F : FloatSum)
    (nx plotly : bool) :
  (forall a : PageNew.App,
      PageNew.data_loaded a = false ->
      run_on a PageNew.show_network_overview
      = (mkSession a [st_warning "請先加載數據"], inr tt) /\
      run_on a PageNew.show_relationship_analysis
      = (mkSession a [st_warning "請先加載數據"], inr tt) /\
      run_on a PageNew.show_centrality_analysis
      = (mkSession a [st_warning "請先加載數據"], inr tt) /\
      run_on a (PageNew.show_network_visualization nx)
      = (mkSession a
           (if nx then [st_warning "網絡數據不可用"]
            else [st_error "❌ NetworkX庫不可用，無法生成網絡圖";
                  st_info "請確保requirements.txt中包含networkx>=3.0"]),
         inr tt)) /\
  (forall a : PageNew1.App,
      PageNew1.data_loaded a = false ->
      run_on a (PageNew1.show_network_stats nx)
      = (mkSession a [st_info "請先加載數據"], inr tt) /\
      run_on a (PageNew1.show_relationship_analysis plotly)
      = (mkSession a [st_warning "請先加載數據並確保Plotly可用"], inr tt) /\
      run_on a (PageNew1.show_simple_network_viz plotly)
      = (mkSession a [st_warning "可視化功能不可用"], inr tt)).
Proof.
  split; intros a Ha; destruct a; simpl in Ha; subst.
  - destruct nx; repeat split; reflexivity.
  - repeat split; reflexivity.
Qed.

Lemma unloaded_views_only_report_witness :
  run_on PageNew.fresh (@PageNew.show_relationship_analysis stable_kind)
  = (mkSession PageNew.fresh [st_warning "請先加載數據"], inr tt).
Proof.
  destruct (unloaded_views_only_report stable_kind plain_sum true true)
    as [H _].
  apply (H PageNew.fresh). reflexivity.
Defined.

Lemma bind_raise {S A B} (m : M S A) (k : A -> M S B) s s' e :
  m s = (s', inl e) -> bind m k s = (s', inl e).
Proof. intros H. unfold bind. now rewrite H. Qed.

(** X11. [run] of [streamlit_page_new.py] does not get past its environment
    check.  For every object, every file and every section it raises
    [AttributeError] before [load_data] is called and before a section is
    shown: nothing is loaded, nothing is shown, and the object is as it
    was. *)
Theorem page_new_run_stops_at_environment_check (K : SortKind)
    (F : FloatSum) (nx : bool) (f : option file) (s : PageNew.section)
    (a : PageNew.App) :
  run_on a (PageNew.run nx f s)
  = (mkSession a [], inl (AttributeError "__version__")).
Proof.
  unfold run_on, PageNew.run.
  apply bind_raise. reflexivity.
Qed.

(** ** Views that cannot raise *)

Lemma never_raises_ret {S A} (a : A) : never_raises (@ret S A a).
Proof. intros s. now exists a. Qed.

Lemma never_raises_st {S} w : never_raises (@st S w).
Proof. intros s. now exists tt. Qed.

Lemma never_raises_get_self {S} : never_raises (@get_self S).
Proof. intros s. now exists (self s). Qed.

Lemma never_raises_bind {S A B} (m : M S A) (k : A -> M S B) :
  never_raises m -> (forall a, never_raises (k a)) -> never_raises (bind m k).
Proof.
  intros Hm Hk s. unfold bind. destruct (Hm s) as [a Ha].
  destruct (m s) as [s' [e | a']]; simpl in Ha; [discriminate |].
  apply Hk.
Qed.

Lemma never_raises_for_each {S A} (l : list A) (body : A -> M S unit) :
  (forall x, never_raises (body x)) -> never_raises (for_each l body).
Proof.
  intros Hb. induction l as [| x l IH]; simpl.
  - apply never_raises_ret.
  - apply never_raises_bind; [apply Hb | intros _; exact IH].
Qed.

Ltac never_raises_step :=
  first
    [ apply never_raises_ret | apply never_raises_st
    | apply never_raises_get_self
    | apply never_raises_bind; [| intros ?]
    | apply never_raises_for_each; intros ?
    | match goal with
      | |- never_raises (match ?x with _ => _ end) => destruct x
      | |- never_raises (if ?b then _ else _) => destruct b
      end ].

Ltac never_raises_tac := repeat never_raises_step.


(** ** The type summary views, case by case *)

Lemma dict_mem_of_get_None {V} k (d : dict V) :
  dict_get k d = None -> dict_mem k d = false.
Proof. intros H. apply dict_mem_not_In. now apply dict_get_None_not_In. Qed.

Lemma get_character_type_range c :
  In (get_character_type c)
     ["family_male"; "family_female"; "servants"; "guests"; "other"].
Proof.
  destruct (get_character_type_in_first character_types c)
    as [(pre & t & cs & post & Ht & _ & _ & Hres) | [_ Hres]];
    fold (get_character_type c) in Hres; rewrite Hres.
  - assert (Hin : In (t, cs) character_types).
    { rewrite Ht. apply in_or_app. right. now left. }
    unfold character_types in Hin. simpl in Hin.
    destruct Hin as [H | [H | [H | [H | []]]]]; injection H as <- _;
      simpl; auto 6.
  - simpl. auto 6.
Qed.

Lemma simple_type_range c :
  In (PageNew1.simple_type c) ["家族成員"; "僕人"; "客人"].
Proof.
  unfold PageNew1.simple_type.
  destruct (contains "賈" c); [simpl; auto |].
  destruct (contains "人" c || contains "兒" c); simpl; auto.
Qed.

Lemma slices_bound classify (range : list string) nbrs nd ts :
  (forall c, In (classify c) range) ->
  nbrs <> [] ->
  aggregates classify nbrs nd ts ->
  1 <= List.length ts <= List.length range.
Proof.
  intros Hr Hne (_ & _ & _ & Hnd & Hk).
  assert (Hlen : List.length ts = List.length (dict_keys ts))
    by (unfold dict_keys; now rewrite length_map).
  rewrite Hlen. split.
  - destruct nbrs as [| [c w] nbrs]; [congruence |].
    assert (Hin : In (classify c) (dict_keys ts)).
    { apply Hk. exists c. split; [now left | reflexivity]. }
    destruct (dict_keys ts); [contradiction | simpl; lia].
  - apply NoDup_incl_length; [assumption |].
    intros t Ht. apply Hk in Ht. destruct Ht as (c & _ & <-). apply Hr.
Qed.

(** X13. [show_network_visualization] on a loaded graph: when 賈母 is not
    a node the page stays empty, with no chart and no notice; when she is a
    node without neighbours, the grouping of the empty frame raises
    [KeyError: 'type'] and nothing is shown; when she has neighbours the
    view returns and its chart has between one and five slices. *)
Theorem visualization_cases (F : FloatSum) (data : NodeLink)
    (a : PageNew.App) :
  PageNew.data_loaded a = true ->
  PageNew.G a = Some (node_link_graph data) ->
  let r := run_on a (PageNew.show_network_visualization true) in
  match dict_get jiamu (node_link_graph data) with
  | None => r = (mkSession a [], inr tt)
  | Some [] => r = (mkSession a [], inl (KeyError "type"))
  | Some (_ :: _) =>
      escapes r = None /\
      exists fig ws,
        shown r = st_plotly_chart (pie_chart fig) :: ws /\
        1 <= List.length fig <= 5
  end.
Proof.
  intros Hl HG r.
  assert (Hstart :
    r = (if graph_truthy (node_link_graph data)
            && dict_mem jiamu (node_link_graph data)
         then
           bind (lift (neighbors (node_link_graph data) jiamu))
             (fun neighbors =>
              bind (neighbor_records get_character_type
                      (node_link_graph data) neighbors)
                (fun neighbor_data =>
                 bind (lift (groupby_type_sum neighbor_data))
                   (fun type_summary =>
                    bind (st (st_plotly_chart (pie_chart type_summary)))
                      (fun _ =>
                       for_each (frame_rows neighbor_data)
                         (fun row => st (st_neighbor row))))))
         else ret tt) (mkSession a [])).
  { unfold r, run_on, PageNew.show_network_visualization.
    unfold bind at 1. unfold get_self. cbn [self page].
    now rewrite Hl, HG. }
  clearbody r.
  destruct (dict_get jiamu (node_link_graph data)) as [nbrs |] eqn:Eg.
  - assert (Ht : graph_truthy (node_link_graph data) = true).
    { unfold graph_truthy, number_of_nodes.
      destruct (node_link_graph data); [discriminate | reflexivity]. }
    rewrite Ht, (dict_get_mem _ _ _ Eg) in Hstart. cbn [andb] in Hstart.
    rewrite (bind_ok _ _ _ (mkSession a []) (dict_keys nbrs)) in Hstart
      by (unfold lift, neighbors; now rewrite Eg).
    destruct nbrs as [| e nbrs].
    + exact Hstart.
    + destruct (type_summary_of_neighbors F get_character_type data
                  (e :: nbrs)
                  (mkSession a []) Eg) as (nd & ts & Hrun & Hts & Hagg);
        [discriminate |].
      rewrite (bind_ok _ _ _ _ _ Hrun) in Hstart.
      rewrite (bind_ok _ _ _ (mkSession a []) ts) in Hstart
        by (unfold lift; now rewrite Hts).
      unfold bind, st at 1 in Hstart. rewrite for_each_st in Hstart.
      rewrite Hstart. split; [reflexivity |].
      exists ts. eexists. split; [reflexivity |].
      apply (slices_bound get_character_type
               ["family_male"; "family_female"; "servants"; "guests";
                "other"] (e :: nbrs) nd ts);
        [apply get_character_type_range | discriminate | exact Hagg].
  - rewrite (dict_mem_of_get_None _ _ Eg), andb_false_r in Hstart.
    exact Hstart.
Qed.

Lemma visualization_cases_witness :
  run_on (page_new_after without_jiamu_artifact)
         (@PageNew.show_network_visualization plain_sum true)
  = (mkSession (page_new_after without_jiamu_artifact) [], inr tt).
Proof.
  apply (visualization_cases plain_sum without_jiamu_data
           (page_new_after without_jiamu_artifact)); reflexivity.
Defined.

(** X14. [show_simple_network_viz] returns for every graph the loader can
    build, and for none: a missing graph, a graph without 賈母 and an
    isolated 賈母 each end in a notice, and with neighbours the chart has
    between one and three slices. *)
Theorem simple_network_viz_never_raises (F : FloatSum) (plotly : bool)
    (a : PageNew1.App) :
  (PageNew1.G a = None
   \/ exists data, PageNew1.G a = Some (node_link_graph data)) ->
  let r := run_on a (PageNew1.show_simple_network_viz plotly) in
  escapes r = None /\
  (PageNew1.data_loaded a && plotly = true ->
   match PageNew1.G a with
   | None => shown r = [st_warning "網絡數據不完整"]
   | Some g =>
       match dict_get jiamu g with
       | None => shown r = [st_warning "網絡數據不完整"]
       | Some [] => shown r = [st_warning "賈母沒有直接相連的角色"]
       | Some (_ :: _) =>
           exists fig ws,
             shown r = st_plotly_chart (pie_chart fig) :: ws /\
             1 <= List.length fig <= 3
       end
   end).
Proof.
  intros HG r.
  assert (Hstart :
    r = (if negb (PageNew1.data_loaded a && plotly)
         then st (st_warning "可視化功能不可用")
         else
           match
             match PageNew1.G a with
             | Some g => if dict_mem jiamu g then Some g else None
             | None => None
             end
           with
           | None => st (st_warning "網絡數據不完整")
           | Some g =>
               bind (lift (neighbors g jiamu))
                 (fun neighbors =>
                  match neighbors with
                  | [] => st (st_warning "賈母沒有直接相連的角色")
                  | _ :: _ =>
                      bind (neighbor_records PageNew1.simple_type g neighbors)
                        (fun neighbor_data =>
                         bind (lift (groupby_type_sum neighbor_data))
                           (fun type_summary =>
                            bind
                              (st (st_plotly_chart (pie_chart type_summary)))
                              (fun _ =>
                               for_each (frame_rows neighbor_data)
                                 (fun row => st (st_neighbor row)))))
                  end)
           end) (mkSession a [])).
  { unfold r, run_on, PageNew1.show_simple_network_viz.
    unfold bind at 1. unfold get_self. reflexivity. }
  clearbody r.
  destruct (PageNew1.data_loaded a && plotly) eqn:Eg; cbn [negb] in Hstart.
  2:{ rewrite Hstart. split; [reflexivity | discriminate]. }
  destruct HG as [HG | [data HG]]; rewrite HG; rewrite HG in Hstart.
  - rewrite Hstart. split; [reflexivity | intros _; reflexivity].
  - destruct (dict_get jiamu (node_link_graph data)) as [nbrs |] eqn:Ej.
    + rewrite (dict_get_mem _ _ _ Ej) in Hstart.
      rewrite (bind_ok _ _ _ (mkSession a []) (dict_keys nbrs)) in Hstart
        by (unfold lift, neighbors; now rewrite Ej).
      destruct nbrs as [| e nbrs].
      * rewrite Hstart. split; [reflexivity | intros _; reflexivity].
      * destruct (type_summary_of_neighbors F PageNew1.simple_type data
                    (e :: nbrs) (mkSession a []) Ej)
          as (nd & ts & Hrun & Hts & Hagg); [discriminate |].
        cbv beta in Hstart.
        change (match dict_keys (e :: nbrs) with
                | [] => ?x | _ :: _ => ?y end) with y in Hstart.
        rewrite (bind_ok _ _ _ _ _ Hrun) in Hstart.
        rewrite (bind_ok _ _ _ (mkSession a []) ts) in Hstart
          by (unfold lift; now rewrite Hts).
        unfold bind, st at 1 in Hstart. rewrite for_each_st in Hstart.
        rewrite Hstart.
        split; [reflexivity | intros _].
        exists ts. eexists. split; [reflexivity |].
        apply (slices_bound PageNew1.simple_type ["家族成員"; "僕人"; "客人"]
                 (e :: nbrs) nd ts);
          [apply simple_type_range | discriminate | exact Hagg].
    + rewrite (dict_mem_of_get_None _ _ Ej) in Hstart.
      rewrite Hstart. split; [reflexivity | intros _; reflexivity].
Qed.

Lemma simple_network_viz_never_raises_witness :
  escapes (run_on (page_new1_after isolated_artifact)
             (@PageNew1.show_simple_network_viz plain_sum true)) = None.
Proof.
  apply (simple_network_viz_never_raises plain_sum true
           (page_new1_after isolated_artifact)).
  right. exists isolated_data. reflexivity.
Defined.

(** ** Rankings *)

Lemma StronglySorted_app_inv {A} (R : A -> A -> Prop) (l1 l2 : list A) :
  StronglySorted R (l1 ++ l2) ->
  forall a b, In a l1 -> In b l2 -> R a b.
Proof.
  induction l1 as [| x l1 IH]; simpl; intros Hs a b Ha Hb; [contradiction |].
  inversion Hs as [| ? ? Hs' Hall]; subst.
  destruct Ha as [<- | Ha].
  - rewrite Forall_forall in Hall. apply Hall, in_or_app. now right.
  - now apply IH.
Qed.

(** The head of a sorted frame against what it leaves out: the rows of
    positive weight behind it, and the rows without one. *)
Lemma top_by_weight_extreme (K : SortKind) (df : DataFrame) (k : nat)
    (ascending : bool) :
  exists rest others,
    Permutation (jiamu_related df) (top_by_weight df k ascending ++ rest) /\
    (forall r1 r2,
        In r1 (top_by_weight df k ascending) -> In r2 rest ->
        by_weight ascending r1 r2) /\
    Permutation df (top_by_weight df k ascending ++ rest ++ others) /\
    Forall (fun r => (0 < weight_to_jiamu r)%Q)
      (top_by_weight df k ascending ++ rest) /\
    Forall (fun r => (weight_to_jiamu r <= 0)%Q) others.
Proof.
  exists (skipn k (sort_values ascending (jiamu_related df))),
         (filter (fun r => negb (Qltb 0 (weight_to_jiamu r))) df).
  unfold top_by_weight, head. rewrite app_assoc, firstn_skipn.
  split; [apply sort_values_perm |]. split; [| split; [| split]].
  - apply StronglySorted_app_inv. rewrite firstn_skipn.
    apply sort_values_sorted.
  - eapply perm_trans; [apply filter_partition |].
    apply Permutation_app_tail, sort_values_perm.
  - eapply Permutation_Forall; [apply sort_values_perm |].
    apply jiamu_related_positive.
  - apply Forall_forall. intros r Hr. apply filter_In in Hr.
    destruct Hr as [_ Hr]. apply negb_true_iff in Hr. now apply Qltb_false.
Qed.



Lemma sort_values_nil (K : SortKind) asc : sort_values asc [] = [].
Proof.
  apply Permutation_nil, sort_values_perm.
Qed.



(** X17. A metrics table that is missing, [null] or empty counts as absent
    in every variant: the ranking and centrality views of
    [streamlit_page_new.py] ask for the data to be loaded although it is,
    the ranking of [stream_page_new1.py] reports that there is no relation
    data, and the charts of [streamlit_page.py] report and return [None]. *)
Theorem absent_table_is_reported (K : SortKind) (data : Artifact) :
  data_frame_or_none (get_field (a_df_metrics data)) = inr None ->
  run_on (page_new_after data) PageNew.show_relationship_analysis
  = (mkSession (page_new_after data) [st_warning "請先加載數據"], inr tt) /\
  run_on (page_new_after data) PageNew.show_centrality_analysis
  = (mkSession (page_new_after data) [st_warning "請先加載數據"], inr tt) /\
  (accepted (a_network data) = true ->
   run_on (page_new1_after data) (PageNew1.show_relationship_analysis true)
   = (mkSession (page_new1_after data) [st_warning "無關係數據可用"],
      inr tt)) /\
  (page_loadable (Some (Parsed data)) = true ->
   run_on (page_after data) Page.create_relationship_strength_chart
   = (mkSession (page_after data) [st_error "指标数据不可用"], inr None) /\
   run_on (page_after data) Page.create_centrality_comparison_chart
   = (mkSession (page_after data) [st_error "指标数据不可用"], inr None)).
Proof.
  intros Hdf. destruct data as [nw m df rta]. simpl in Hdf.
  destruct df as [| | [[| r rows] | e]]; try discriminate Hdf;
    destruct nw as [| | [nl | e]];
    (split; [reflexivity |]); (split; [reflexivity |]);
    (split; [intros Hp; try discriminate Hp; reflexivity |]);
    intros Hp; destruct m; try discriminate Hp; split; reflexivity.
Qed.

Lemma absent_table_is_reported_witness :
  run_on (page_new_after (mkArtifact (Present (Accepted star_data)) Missing
                            (Present (Accepted [])) Missing))
         (@PageNew.show_relationship_analysis stable_kind)
  = (mkSession
       (page_new_after (mkArtifact (Present (Accepted star_data)) Missing
                          (Present (Accepted [])) Missing))
       [st_warning "請先加載數據"], inr tt).
Proof.
  apply (absent_table_is_reported stable_kind
           (mkArtifact (Present (Accepted star_data)) Missing
              (Present (Accepted [])) Missing)).
  reflexivity.
Defined.

(** X18. A table in which no row has a positive weight is not reported as
    missing: the ranking of [streamlit_page_new.py] shows an empty chart
    and an empty table. *)
Theorem no_positive_weight_gives_empty_chart (K : SortKind)
    (a : PageNew.App) (df : DataFrame) :
  PageNew.data_loaded a = true ->
  PageNew.df_metrics a = Some df ->
  Forall (fun r => (weight_to_jiamu r <= 0)%Q) df ->
  run_on a PageNew.show_relationship_analysis
  = (mkSession a [st_plotly_chart (bar_chart []); st_dataframe []], inr tt).
Proof.
  intros Hl Hd Hall.
  assert (He : jiamu_related df = []).
  { clear Hd. unfold jiamu_related.
    induction Hall as [| r df Hr _ IH]; simpl.
    - reflexivity.
    - assert (H : Qltb 0 (weight_to_jiamu r) = false)
        by now apply Qltb_false.
      now rewrite H. }
  unfold run_on, PageNew.show_relationship_analysis, bind, get_self, st.
  cbn. rewrite Hl, Hd, He, sort_values_nil. destruct a; reflexivity.
Qed.

Lemma no_positive_weight_gives_empty_chart_witness :
  run_on (loaded_new [sample_row "焦大" 0])
         (@PageNew.show_relationship_analysis stable_kind)
  = (mkSession (loaded_new [sample_row "焦大" 0])
       [st_plotly_chart (bar_chart []); st_dataframe []], inr tt).
Proof.
  apply (no_positive_weight_gives_empty_chart stable_kind
           (loaded_new [sample_row "焦大" 0]) [sample_row "焦大" 0]).
  - reflexivity.
  - reflexivity.
  - repeat constructor. discriminate.
Defined.

(** ** The statistics of [streamlit_page.py] *)

Lemma attr_ok {A} name (proj : Page.App -> option A) (s : session Page.App) v :
  proj (self s) = Some v -> Page.attr name proj s = (s, inr v).
Proof.
  intros H. unfold Page.attr, bind, get_self. now rewrite H.
Qed.

Lemma strengths_run {S} g nbrs (l : list string) (s : session S) :
  dict_get jiamu g = Some nbrs ->
  incl l (dict_keys nbrs) ->
  exists strengths,
    map_m (fun neighbor =>
             bind (lift (edge_weight g jiamu neighbor))
                  (fun w => ret (neighbor, w))) l s
    = (s, inr strengths) /\
    map fst strengths = l /\
    Forall (fun p => dict_get (fst p) nbrs = Some (snd p)) strengths.
Proof.
  intros Hg. induction l as [| x l IH]; intros Hin.
  - exists []. repeat split. constructor.
  - destruct IH as (st' & Hrun & Hmap & Hall).
    { intros y Hy. apply Hin. now right. }
    destruct (dict_get_of_key x nbrs) as [w Hw]; [apply Hin; now left |].
    exists ((x, w) :: st'). split; [| split].
    + cbn [map_m].
      rewrite (bind_ok _ _ s s (x, w)).
      * now rewrite (bind_ok _ _ s s st' Hrun).
      * unfold bind, lift, edge_weight, ret. now rewrite Hg, Hw.
    + simpl. now rewrite Hmap.
    + constructor; [exact Hw | exact Hall].
Qed.

Lemma items_follow_dict {V} (d l : dict V) :
  NoDup (dict_keys d) ->
  map fst l = dict_keys d ->
  Forall (fun p => dict_get (fst p) d = Some (snd p)) l ->
  l = d.
Proof.
  revert l. induction d as [| [k v] d IH]; intros l Hnd Hk Hall.
  - destruct l; [reflexivity | discriminate].
  - destruct l as [| [k' v'] l]; [discriminate |].
    unfold dict_keys in *. cbn [map fst snd] in *.
    injection Hk as Hk' Hk. subst k'.
    inversion Hnd as [| ? ? Hnk Hnd']; subst.
    inversion Hall as [| ? ? Hp Hall']; subst.
    cbn [dict_get fst snd] in Hp. rewrite String.eqb_refl in Hp.
    injection Hp as <-. f_equal. apply IH; [assumption | assumption |].
    rewrite Forall_forall in *. intros p Hp. specialize (Hall' p Hp).
    cbn [dict_get] in Hall'.
    destruct (String.eqb (fst p) k) eqn:E; [| assumption].
    apply String.eqb_eq in E. exfalso. apply Hnk.
    rewrite <- Hk, <- E. now apply in_map.
Qed.

Lemma bind_st {S B} w (k : unit -> M S B) s :
  bind (st w) k s = k tt (mkSession (self s) (page s ++ [w])).
Proof. reflexivity. Qed.

Lemma metrics_loop (a : Page.App) ws m q1 q2 q3 q4 :
  Page.metrics a = Some m ->
  jiamu_metric m "degree_centrality" = inr q1 ->
  jiamu_metric m "betweenness_centrality" = inr q2 ->
  jiamu_metric m "closeness_centrality" = inr q3 ->
  jiamu_metric m "eigenvector_centrality" = inr q4 ->
  for_each
    [ ("度中心性", "degree_centrality");
      ("中介中心性", "betweenness_centrality");
      ("接近中心性", "closeness_centrality");
      ("特徵向量中心性", "eigenvector_centrality") ]
    (fun lk =>
     bind (Page.attr "metrics" Page.metrics)
       (fun m =>
        bind (lift (jiamu_metric m (snd lk)))
          (fun q => st (st_metric (fst lk) (v_num q)))))
    (mkSession a ws)
  = (mkSession a
       (ws ++ [ st_metric "度中心性" (v_num q1);
                st_metric "中介中心性" (v_num q2);
                st_metric "接近中心性" (v_num q3);
                st_metric "特徵向量中心性" (v_num q4) ]),
     inr tt).
Proof.
  intros Hm H1 H2 H3 H4.
  assert (Hone : forall label key q ws',
             jiamu_metric m key = inr q ->
             bind (Page.attr "metrics" Page.metrics)
               (fun m =>
                bind (lift (jiamu_metric m (snd (label, key))))
                  (fun q => st (st_metric (fst (label, key)) (v_num q))))
               (mkSession a ws')
             = (mkSession a (ws' ++ [st_metric label (v_num q)]), inr tt)).
  { intros label key q ws' Hq.
    rewrite (bind_ok _ _ _ (mkSession a ws') m) by (now apply attr_ok).
    cbn [fst snd].
    rewrite (bind_ok _ _ _ (mkSession a ws') q)
      by (unfold lift; now rewrite Hq).
    reflexivity. }
  cbn [for_each].
  rewrite (bind_ok _ _ _ _ tt (Hone _ _ _ _ H1)).
  rewrite (bind_ok _ _ _ _ tt (Hone _ _ _ _ H2)).
  rewrite (bind_ok _ _ _ _ tt (Hone _ _ _ _ H3)).
  rewrite (bind_ok _ _ _ _ tt (Hone _ _ _ _ H4)).
  unfold ret. now rewrite <- !app_assoc.
Qed.

(** *** The order of the cards *)

Lemma Qle_bool_total p q : Qle_bool p q = false -> Qle_bool q p = true.
Proof. intros H. apply Qle_bool_iff. now apply Qle_bool_false. Qed.

Lemma ext_ltb_asym a b : ext_ltb a b = true -> ext_ltb b a = false.
Proof.
  destruct a as [| p |], b as [| q |]; simpl; try congruence.
  rewrite negb_true_iff, negb_false_iff. apply Qle_bool_total.
Qed.

Lemma ext_not_ltb_trans a b c :
  ext_ltb a b = false -> ext_ltb b c = false -> ext_ltb a c = false.
Proof.
  destruct a as [| p |], b as [| q |], c as [| r |]; simpl;
    try congruence.
  rewrite !negb_false_iff, !Qle_bool_iff.
  intros H1 H2. eapply Qle_trans; eassumption.
Qed.

Lemma num_ltb_asym x y : num_ltb x y = true -> num_ltb y x = false.
Proof.
  unfold num_ltb.
  destruct (value_of x), (value_of y); try congruence. apply ext_ltb_asym.
Qed.

(** Where the middle number is not NaN, "not less than" is transitive. *)
Lemma num_not_ltb_trans x y z :
  is_nan y = false ->
  num_ltb x y = false -> num_ltb y z = false -> num_ltb x z = false.
Proof.
  unfold is_nan, num_ltb.
  destruct (value_of x), (value_of y), (value_of z); try congruence.
  intros _. apply ext_not_ltb_trans.
Qed.

Section SortOn.

Context {A : Type} (le : A -> A -> bool).
Variable R : A -> A -> Prop.
Variable P : A -> Prop.
Hypothesis R_trans : forall a b c, P b -> R a b -> R b c -> R a c.
Hypothesis le_true : forall a b, le a b = true -> R a b.
Hypothesis le_false : forall a b, le a b = false -> R b a.

Lemma insert_by_sorted_on x l :
  Forall P l -> StronglySorted R l -> StronglySorted R (insert_by le x l).
Proof.
  intros HP Hs. induction Hs as [| y l Hs IH Hy]; simpl.
  - repeat constructor.
  - inversion HP as [| ? ? HPy HPl]; subst.
    destruct (le x y) eqn:E.
    + constructor; [constructor; assumption |].
      constructor; [now apply le_true |].
      eapply Forall_impl; [| exact Hy].
      intros z Hz. eapply R_trans; [exact HPy | apply le_true, E | exact Hz].
    + constructor; [now apply IH |].
      eapply Permutation_Forall; [apply insert_by_perm |].
      constructor; [now apply le_false | assumption].
Qed.

Lemma sort_by_sorted_on l : Forall P l -> StronglySorted R (sort_by le l).
Proof.
  induction l as [| x l IH]; simpl; intros HP.
  - constructor.
  - inversion HP; subst. apply insert_by_sorted_on; [| now apply IH].
    eapply Permutation_Forall; [apply sort_by_perm | assumption].
Qed.

End SortOn.

Lemma sort_by_strength_sorted (l : list (string * number)) :
  forallb (fun p => negb (is_nan (snd p))) l = true ->
  StronglySorted (fun p1 p2 => num_ltb (snd p1) (snd p2) = false)
    (sort_by strength_geb l).
Proof.
  intros Hl.
  apply (sort_by_sorted_on strength_geb
           (fun p1 p2 => num_ltb (snd p1) (snd p2) = false)
           (fun p => is_nan (snd p) = false)).
  - intros a b c Hb. now apply num_not_ltb_trans.
  - intros a b. unfold strength_geb. now rewrite negb_true_iff.
  - intros a b. unfold strength_geb. rewrite negb_false_iff.
    apply num_ltb_asym.
  - apply forallb_true_Forall in Hl.
    eapply Forall_impl; [| exact Hl].
    intros p Hp. now apply negb_true_iff.
Qed.

(** X19. [display_network_statistics] on a loaded graph with at least one
    node.  Without 賈母 among the nodes, [G.neighbors] raises
    [NetworkXError] before anything is shown.  With her, and with the four
    centrality scores in the snapshot, the view returns: it shows the four
    graph statistics, the four scores and then the cards, ranked from 1.
    The cards are the first ten, or all if there are fewer, of a
    rearrangement of her relations (neighbour and weight of the edge), so
    no neighbour has two cards.  Where no weight is NaN, no card is
    followed by a stronger one, and no relation left out is stronger than
    one shown. *)
Theorem statistics_cases (P : ListSort) (data : NodeLink) (a : Page.App) :
  Page.G a = Some (Some (node_link_graph data)) ->
  node_link_graph data <> [] ->
  let g := node_link_graph data in
  let r := run_on a Page.display_network_statistics in
  match dict_get jiamu g with
  | None => r = (mkSession a [], inl (NetworkXError jiamu))
  | Some nbrs =>
      forall m q1 q2 q3 q4,
        Page.metrics a = Some m ->
        jiamu_metric m "degree_centrality" = inr q1 ->
        jiamu_metric m "betweenness_centrality" = inr q2 ->
        jiamu_metric m "closeness_centrality" = inr q3 ->
        jiamu_metric m "eigenvector_centrality" = inr q4 ->
        exists top rest,
          r = (mkSession a (statistics_page g q1 q2 q3 q4 top), inr tt) /\
          Permutation nbrs (top ++ rest) /\
          List.length top = Nat.min 10 (List.length nbrs) /\
          NoDup (map fst top) /\
          (forallb (fun p => negb (is_nan (snd p))) nbrs = true ->
           StronglySorted
             (fun p1 p2 => num_ltb (snd p1) (snd p2) = false) top /\
           forall t p, In t top -> In p rest ->
                       num_ltb (snd t) (snd p) = false)
  end.
Proof.
  intros HG Hne g r.
  assert (HN : (number_of_nodes g =? 0) = false).
  { unfold number_of_nodes. fold g in Hne. destruct g; [congruence |].
    reflexivity. }
  assert (Hstart :
    r = bind (true_div (degree_sum g) (number_of_nodes g))
          (fun average_degree =>
           bind (lift (neighbors g jiamu))
             (fun jiamu_neighbors =>
              bind (map_m (fun neighbor =>
                             bind (lift (edge_weight g jiamu neighbor))
                                  (fun w => ret (neighbor, w)))
                          jiamu_neighbors)
                (fun neighbor_strengths =>
                 let top_relationships :=
                   firstn 10 (sort_reverse neighbor_strengths) in
                 bind (st (st_metric "節點數量"
                             (v_int (Z.of_nat (number_of_nodes g)))))
                 (fun _ =>
                 bind (st (st_metric "邊數量"
                             (v_int (Z.of_nat (number_of_edges g)))))
                 (fun _ =>
                 bind (st (st_metric "網絡密度" (v_num (nx_density g))))
                 (fun _ =>
                 bind (st (st_metric "平均度" (v_num average_degree)))
                 (fun _ =>
                 bind
                   (for_each
                      [ ("度中心性", "degree_centrality");
                        ("中介中心性", "betweenness_centrality");
                        ("接近中心性", "closeness_centrality");
                        ("特徵向量中心性", "eigenvector_centrality") ]
                      (fun lk =>
                       bind (Page.attr "metrics" Page.metrics)
                         (fun m =>
                          bind (lift (jiamu_metric m (snd lk)))
                            (fun q => st (st_metric (fst lk) (v_num q))))))
                 (fun _ =>
                  for_each (combine (seq 1 (List.length top_relationships))
                                    top_relationships)
                    (fun e =>
                     st (st_card (fst e) (fst (snd e)) (snd (snd e))
                           (get_character_type (fst (snd e)))))))))))))
          (mkSession a [])).
  { unfold r, run_on, Page.display_network_statistics.
    rewrite (bind_ok _ _ _ (mkSession a []) (Some g))
      by (apply attr_ok; exact HG).
    reflexivity. }
  clearbody r.
  rewrite (bind_ok _ _ _ (mkSession a [])
             (inject_Z (Z.of_nat (degree_sum g))
              / inject_Z (Z.of_nat (number_of_nodes g)))%Q) in Hstart
    by (unfold true_div; now rewrite HN).
  destruct (dict_get jiamu g) as [nbrs |] eqn:Ej.
  - intros m q1 q2 q3 q4 Hm H1 H2 H3 H4.
    rewrite (bind_ok _ _ _ (mkSession a []) (dict_keys nbrs)) in Hstart
      by (unfold lift, neighbors; now rewrite Ej).
    destruct (strengths_run g nbrs (dict_keys nbrs) (mkSession a []) Ej)
      as (l & Hrun & Hfst & Hall); [apply incl_refl |].
    assert (Hnd : NoDup (dict_keys nbrs)).
    { apply (neighbors_NoDup data jiamu). unfold neighbors. fold g.
      now rewrite Ej. }
    assert (Hl : l = nbrs) by (now apply items_follow_dict).
    subst l.
    rewrite (bind_ok _ _ _ _ _ Hrun) in Hstart. cbv zeta in Hstart.
    assert (Hperm : Permutation nbrs
                      (firstn 10 (sort_reverse nbrs)
                       ++ skipn 10 (sort_reverse nbrs))).
    { rewrite firstn_skipn. apply sort_reverse_perm. }
    exists (firstn 10 (sort_reverse nbrs)), (skipn 10 (sort_reverse nbrs)).
    split; [| split; [| split; [| split]]].
    + rewrite Hstart. rewrite !bind_st. cbn [self page app].
      rewrite (bind_ok _ _ _ _ tt
                 (metrics_loop a _ m q1 q2 q3 q4 Hm H1 H2 H3 H4)).
      rewrite for_each_st. cbn [self page].
      unfold statistics_page. now rewrite <- app_assoc.
    + exact Hperm.
    + rewrite length_firstn.
      now rewrite <- (Permutation_length (sort_reverse_perm nbrs)).
    + apply (NoDup_app_remove_r _ (map fst (skipn 10 (sort_reverse nbrs)))).
      rewrite <- map_app.
      eapply Permutation_NoDup; [apply Permutation_map, Hperm | exact Hnd].
    + intros Hnan. rewrite (sort_reverse_stable nbrs Hnan).
      pose proof (sort_by_strength_sorted nbrs Hnan) as Hs.
      split.
      * now apply StronglySorted_firstn.
      * intros t p Ht Hp.
        rewrite <- (firstn_skipn 10 (sort_by strength_geb nbrs)) in Hs.
        exact (StronglySorted_app_inv _ _ _ Hs t p Ht Hp).
  - rewrite Hstart. unfold bind, lift, neighbors. fold g. now rewrite Ej.
Qed.

Lemma statistics_cases_witness :
  run_on (page_after without_jiamu_artifact)
         (@Page.display_network_statistics stable_list_sort)
  = (mkSession (page_after without_jiamu_artifact) [],
     inl (NetworkXError jiamu)) /\
  exists top rest,
    run_on (page_after sample_artifact)
           (@Page.display_network_statistics stable_list_sort)
    = (mkSession (page_after sample_artifact)
         (statistics_page (node_link_graph star_data)
            1 (1 # 2) 1 (7 # 10) top),
       inr tt) /\
    Permutation [("王夫人", py_int 3); ("鴛鴦", py_int 5)] (top ++ rest) /\
    List.length top = 2 /\
    NoDup (map fst top) /\
    StronglySorted (fun p1 p2 => num_ltb (snd p1) (snd p2) = false) top.
Proof.
  split.
  { apply (statistics_cases stable_list_sort without_jiamu_data
             (page_after without_jiamu_artifact)).
    - reflexivity.
    - discriminate. }
  assert (Hne : node_link_graph star_data <> []) by discriminate.
  destruct (statistics_cases stable_list_sort star_data
              (page_after sample_artifact) eq_refl Hne
              (Some sample_metrics) 1%Q (1 # 2)%Q 1%Q (7 # 10)%Q
              eq_refl eq_refl eq_refl eq_refl eq_refl)
    as (top & rest & Hr & Hperm & Hlen & Hnd & Hsorted).
  exists top, rest.
  split; [exact Hr |].
  split; [exact Hperm |].
  split; [exact Hlen |].
  split; [exact Hnd |].
  exact (proj1 (Hsorted eq_refl)).
Defined.

Example statistics_of_star :
  shown (run_on (page_after sample_artifact)
           (@Page.display_network_statistics stable_list_sort))
  = [ st_metric "節點數量" (v_int 3); st_metric "邊數量" (v_int 2);
      st_metric "網絡密度" (v_num (2 / 6 * 2));
      st_metric "平均度" (v_num (4 / 3));
      st_metric "度中心性" (v_num 1); st_metric "中介中心性" (v_num (1 # 2));
      st_metric "接近中心性" (v_num 1);
      st_metric "特徵向量中心性" (v_num (7 # 10));
      st_card 1 "鴛鴦" (py_int 5) "servants";
      st_card 2 "王夫人" (py_int 3) "family_female" ].
Proof. reflexivity. Qed.
(** ** The chart of relation types *)

(** X20. [create_relationship_type_chart]: an analysis that is [None] or
    empty is reported and no chart is made.  Otherwise the chart has the
    four slices family male, family female, servants and guests, in this
    order, whatever else the analysis holds, provided each of the four has
    a total; when one of them lacks it, the subscript raises [KeyError] and
    nothing is shown. *)
Theorem relationship_type_chart_cases (a : Page.App)
    (analysis : option (dict (dict number))) :
  Page.relationship_type_analysis a = Some analysis ->
  let r := run_on a Page.create_relationship_type_chart in
  match analysis with
  | None | Some [] =>
      r = (mkSession a [st_error "关系类型分析数据不可用"], inr None)
  | Some rta =>
      (forall fm ff sv gu,
          Page.total_weight rta "family_male" = inr fm ->
          Page.total_weight rta "family_female" = inr ff ->
          Page.total_weight rta "servants" = inr sv ->
          Page.total_weight rta "guests" = inr gu ->
          r = (mkSession a [],
               inr (Some (pie_chart [ ("家族男性", fm); ("家族女性", ff);
                                      ("僕人", sv); ("客人", gu) ])))) /\
      (forall t e,
          In t ["family_male"; "family_female"; "servants"; "guests"] ->
          Page.total_weight rta t = inl e ->
          exists k, r = (mkSession a [], inl (KeyError k)))
  end.
Proof.
  intros Ha r.
  assert (Hstart :
    r = match analysis with
        | Some ((_ :: _) as rta) =>
            bind (lift (Page.total_weight rta "family_male"))
              (fun family_male =>
               bind (lift (Page.total_weight rta "family_female"))
                 (fun family_female =>
                  bind (lift (Page.total_weight rta "servants"))
                    (fun servants =>
                     bind (lift (Page.total_weight rta "guests"))
                       (fun guests =>
                        ret (Some (pie_chart
                                     [ ("家族男性", family_male);
                                       ("家族女性", family_female);
                                       ("僕人", servants);
                                       ("客人", guests) ]))))))
        | _ => bind (st (st_error "关系类型分析数据不可用"))
                 (fun _ => ret None)
        end (mkSession a [])).
  { unfold r, run_on, Page.create_relationship_type_chart.
    rewrite (bind_ok _ _ _ (mkSession a []) analysis)
      by (apply attr_ok; exact Ha).
    reflexivity. }
  clearbody r. destruct analysis as [[| e rta] |]; try exact Hstart.
  set (d := e :: rta) in *.
  assert (Herr : forall t k, Page.total_weight d t = inl k ->
                             exists k', k = KeyError k').
  { intros t k. unfold Page.total_weight.
    destruct (dict_get t d) as [an |]; [| intros [= <-]; eauto].
    destruct (dict_get "total_weight" an); [discriminate |].
    intros [= <-]. eauto. }
  split.
  - intros fm ff sv gu H1 H2 H3 H4. rewrite Hstart.
    unfold bind, lift, ret. now rewrite H1, H2, H3, H4.
  - intros t k Hin Hk. rewrite Hstart. unfold bind, lift, ret.
    destruct (Page.total_weight d "family_male") as [k1 | fm] eqn:E1.
    { destruct (Herr _ _ E1) as [k' ->]. eauto. }
    destruct (Page.total_weight d "family_female") as [k2 | ff] eqn:E2.
    { destruct (Herr _ _ E2) as [k' ->]. eauto. }
    destruct (Page.total_weight d "servants") as [k3 | sv] eqn:E3.
    { destruct (Herr _ _ E3) as [k' ->]. eauto. }
    destruct (Page.total_weight d "guests") as [k4 | gu] eqn:E4.
    { destruct (Herr _ _ E4) as [k' ->]. eauto. }
    exfalso. simpl in Hin.
    destruct Hin as [<- | [<- | [<- | [<- | []]]]]; congruence.
Qed.

Lemma relationship_type_chart_cases_witness :
  run_on (page_after sample_artifact) Page.create_relationship_type_chart
  = (mkSession (page_after sample_artifact) [],
     inr (Some (pie_chart [ ("家族男性", py_int 3); ("家族女性", py_int 7);
                            ("僕人", py_int 7); ("客人", py_int 9) ]))).
Proof.
  pose proof (relationship_type_chart_cases (page_after sample_artifact)
                (Some sample_type_analysis) eq_refl) as [H _].
  apply H; reflexivity.
Defined.

(** ** [run] of [stream_page_new1.py] *)

(** What [run] does after loading only reads. *)
Lemma read_only_page_new1_sections (K : SortKind) (F : FloatSum)
    (nx plotly : bool) (s : PageNew1.section) :
  read_only (bind PageNew1.show_environment_check
               (fun _ => PageNew1.show_section nx plotly s)).
Proof.
  apply read_only_bind.
  - unfold PageNew1.show_environment_check. read_only_tac.
  - intros _.
    destruct (read_only_page_new1_views K F nx plotly) as (H1 & H2 & H3).
    destruct s; assumption.
Qed.

(** The object [run] leaves: the one it found if that was loaded, and the
    one [load_data] leaves otherwise. *)
Lemma page_new1_run_final (K : SortKind) (F : FloatSum) (nx plotly : bool)
    (f : option file) (s : PageNew1.section) (a : PageNew1.App) :
  final (run_on a (PageNew1.run nx plotly f s))
  = if PageNew1.data_loaded a then a
    else final (run_on a (PageNew1.load_data nx f)).
Proof.
  pose proof (read_only_page_new1_sections K F nx plotly s) as Hro.
  unfold final, run_on, PageNew1.run.
  unfold bind at 1. unfold get_self. cbn [self fst snd].
  destruct (PageNew1.data_loaded a).
  - unfold bind at 1. unfold ret at 1. cbn [fst snd]. apply Hro.
  - destruct (page_new1_load_data_cases nx f a) as (He & _ & _).
    unfold run_on, escapes in He.
    unfold bind at 1. unfold bind at 1.
    destruct (PageNew1.load_data nx f (mkSession a []))
      as [s' [e | b]]; [discriminate He |].
    unfold ret. cbn [fst snd]. apply Hro.
Qed.

Lemma page_new1_load_data_flag (nx : bool) (f : option file)
    (a : PageNew1.App) :
  PageNew1.data_loaded (final (run_on a (PageNew1.load_data nx f)))
  = page_new1_loadable nx f || PageNew1.data_loaded a.
Proof.
  destruct f as [[| | [nw m df rta]] |]; try reflexivity.
  - destruct nx; reflexivity.
  - destruct nx, nw as [| | [nl | e]]; reflexivity.
Qed.

(** X21. [run] of [stream_page_new1.py] on a new object, whether or not
    the section it shows raises: the object is loaded afterwards exactly
    when [load_data] accepted the file.  Once it is loaded, a later run no
    longer depends on the file.  While it is not, every run reads the file
    again.  A run on a file that is missing or is not JSON leaves the
    object as it was. *)
Theorem page_new1_run_loads_once (K : SortKind) (F : FloatSum)
    (nx plotly : bool) (f : option file) (s1 s2 : PageNew1.section) :
  let a1 := final (run_on PageNew1.fresh (PageNew1.run nx plotly f s1)) in
  PageNew1.data_loaded a1 = page_new1_loadable nx f /\
  (page_new1_loadable nx f = true ->
   forall f' f'',
     run_on a1 (PageNew1.run nx plotly f' s2)
     = run_on a1 (PageNew1.run nx plotly f'' s2)) /\
  (page_new1_loadable nx f = false ->
   forall f',
     PageNew1.data_loaded
       (final (run_on a1 (PageNew1.run nx plotly f' s2)))
     = page_new1_loadable nx f') /\
  (is_json f = false -> a1 = PageNew1.fresh).
Proof.
  intros a1.
  assert (Hfin : a1 = final (run_on PageNew1.fresh (PageNew1.load_data nx f)))
    by (unfold a1; now rewrite page_new1_run_final).
  assert (Hl : PageNew1.data_loaded a1 = page_new1_loadable nx f).
  { rewrite Hfin, page_new1_load_data_flag. apply orb_false_r. }
  split; [exact Hl |]. split; [| split].
  - intros Hp f' f''. rewrite Hp in Hl. unfold run_on, PageNew1.run.
    unfold bind, get_self. cbn [self page]. now rewrite Hl.
  - intros Hp f'. rewrite Hp in Hl.
    rewrite page_new1_run_final, Hl, page_new1_load_data_flag, Hl.
    apply orb_false_r.
  - intros Hj. rewrite Hfin.
    destruct f as [[| |] |]; try discriminate Hj; reflexivity.
Qed.

Lemma page_new1_run_loads_once_witness :
  PageNew1.data_loaded
    (final (run_on PageNew1.fresh
              (@PageNew1.run stable_kind plain_sum true true
                 (Some (Parsed sample_artifact)) PageNew1.network_stats)))
  = true /\
  final (run_on PageNew1.fresh
           (@PageNew1.run stable_kind plain_sum true true None
              PageNew1.network_stats))
  = PageNew1.fresh.
Proof.
  split.
  - exact (proj1 (page_new1_run_loads_once stable_kind plain_sum true true
                    (Some (Parsed sample_artifact))
                    PageNew1.network_stats PageNew1.network_stats)).
  - apply (page_new1_run_loads_once stable_kind plain_sum true true None
             PageNew1.network_stats PageNew1.network_stats).
    reflexivity.
Defined.
